(** * USB host descriptors: descriptor walk, HID classification and the
      device cache of [adafruit_usb_host_descriptors.py]

    A shallow embedding of the module.  Python integers are [Z] (vendor and
    product ids [N]), a [bytearray] is a [list byte], a [str] is a [string],
    a [set] is a [gset], the [composite_devices] dict is a [gmap] keyed by
    the device id string, and a dict whose insertion order is observable
    ([interfaces_by_type]) is an association list.  Exceptions are an
    explicit outcome; [while] loops whose termination depends on the data
    take a fuel argument and report [Diverge] when it runs out. *)

From Stdlib.Strings Require Import Byte Ascii.
From stdpp Require Import gmap strings list.

Local Open Scope Z_scope.

(** ** Exceptions and outcomes *)

Inductive exn : Type :=
  | ValueError (msg : string)
  | IndexError (msg : string)
  | AttributeError (msg : string)
  | USBError
  | NoBackendError.

Inductive outcome (A : Type) : Type :=
  | Ret (a : A)
  | Raise (e : exn)
  | Diverge.
Arguments Ret {A} a.
Arguments Raise {A} e.
Arguments Diverge {A}.

#[global] Instance outcome_ret : MRet outcome := fun A a => Ret a.
#[global] Instance outcome_bind : MBind outcome := fun A B f m =>
  match m with
  | Ret a => f a
  | Raise e => Raise e
  | Diverge => Diverge
  end.

Definition returns {A} (o : outcome A) : bool :=
  match o with Ret _ => true | _ => false end.

Definition raises {A} (o : outcome A) : bool :=
  match o with Raise _ => true | _ => false end.

(** ** Constants of the module *)

Definition DESC_DEVICE : Z := 1.
Definition DESC_CONFIGURATION : Z := 2.
Definition DESC_INTERFACE : Z := 4.
Definition DESC_ENDPOINT : Z := 5.
Definition DIR_IN : Z := 0x80.
Definition HID_CLASS : Z := 0x03.
Definition BOOT_SUBCLASS : Z := 0x01.
Definition KEYBOARD_PROTOCOL : Z := 0x01.
Definition MOUSE_PROTOCOL : Z := 0x02.
Definition NO_PROTOCOL : Z := 0x00.

(** ** Byte buffers *)

Definition byte_val (b : byte) : Z := Z.of_N (Byte.to_N b).

(** [buf[i]] for a non-negative index: the walk only ever adds byte values
    to an index that starts at 0 or at a given non-negative offset. *)
Definition getitem (buf : list byte) (i : nat) : outcome Z :=
  match buf !! i with
  | Some b => Ret (byte_val b)
  | None => Raise (IndexError "bytearray index out of range")
  end.

(** Truth value of a Python integer. *)
Definition truthy (z : Z) : bool := negb (z =? 0).

(** ** [_find_input_endpoint] *)

Fixpoint find_input_endpoint_loop (fuel : nat) (config_descriptor : list byte)
    (i : nat) : outcome (option Z) :=
  match fuel with
  | O => Diverge
  | S fuel' =>
    if bool_decide (i < length config_descriptor)%nat then
      descriptor_len ← getitem config_descriptor i;
      descriptor_type ← getitem config_descriptor (i + 1);
      if descriptor_type =? DESC_ENDPOINT then
        endpoint_address ← getitem config_descriptor (i + 2);
        if truthy (Z.land endpoint_address DIR_IN) then Ret (Some endpoint_address)
        else find_input_endpoint_loop fuel' config_descriptor
               (i + Z.to_nat descriptor_len)
      else if descriptor_type =? DESC_INTERFACE then Ret None
      else find_input_endpoint_loop fuel' config_descriptor
             (i + Z.to_nat descriptor_len)
    else Ret None
  end.

(** The loop runs inside [try ... except IndexError], after which the
    function returns [None]. *)
Definition _find_input_endpoint (fuel : nat) (config_descriptor : list byte)
    (start_index : nat) : outcome (option Z) :=
  match find_input_endpoint_loop fuel config_descriptor start_index with
  | Raise (IndexError _) => Ret None
  | o => o
  end.

(** ** Strings *)

(** [str.lower()] on the ASCII letters. *)
Definition ascii_lower (c : ascii) : ascii :=
  let n := N_of_ascii c in
  if ((65 <=? n) && (n <=? 90))%N then ascii_of_N (n + 32) else c.

Fixpoint lower (s : string) : string :=
  match s with
  | EmptyString => EmptyString
  | String c s' => String (ascii_lower c) (lower s')
  end.

Fixpoint startswith (p s : string) : bool :=
  match p, s with
  | EmptyString, _ => true
  | String a p', String b s' => if Ascii.eqb a b then startswith p' s' else false
  | String _ _, EmptyString => false
  end.

(** [sub in s] for strings. *)
Fixpoint str_in (sub s : string) : bool :=
  startswith sub s ||
  match s with
  | EmptyString => false
  | String _ s' => str_in sub s'
  end.

(** [s[:-1]]. *)
Fixpoint drop_last (s : string) : string :=
  match s with
  | EmptyString => EmptyString
  | String c EmptyString => EmptyString
  | String c s' => String c (drop_last s')
  end.

Fixpoint spaces (n : nat) : string :=
  match n with
  | O => EmptyString
  | S n' => String " " (spaces n')
  end.

Definition hex_char (d : N) : ascii :=
  match d with
  | 0 => "0" | 1 => "1" | 2 => "2" | 3 => "3" | 4 => "4" | 5 => "5"
  | 6 => "6" | 7 => "7" | 8 => "8" | 9 => "9" | 10 => "a" | 11 => "b"
  | 12 => "c" | 13 => "d" | 14 => "e" | _ => "f"
  end%N%char.

Fixpoint hex_digits (fuel : nat) (n : N) (acc : string) : string :=
  match fuel with
  | O => acc
  | S fuel' =>
    let acc' := String (hex_char (n mod 16)%N) acc in
    if (n / 16 =? 0)%N then acc' else hex_digits fuel' (n / 16)%N acc'
  end.

Fixpoint zeros (n : nat) : string :=
  match n with
  | O => EmptyString
  | S n' => String "0" (zeros n')
  end.

(** The format specification [:04x]: lower-case hexadecimal, padded with
    zeros on the left to at least four characters. *)
Definition format_04x (n : N) : string :=
  let digits := hex_digits (S (N.to_nat (N.log2 n))) n EmptyString in
  zeros (4 - String.length digits) +:+ digits.

(** ** Devices and the control transfer *)

(** An attribute read with [getattr(obj, name, default)]: absent, [None],
    or a string. *)
Inductive attr : Type :=
  | Missing
  | PyNone
  | Str (s : string).

Definition getattr (a : attr) (default : attr) : attr :=
  match a with
  | Missing => default
  | _ => a
  end.

(** What [str()] inside an f-string makes of an attribute value. *)
Definition attr_format (a : attr) : string :=
  match a with
  | Str s => s
  | PyNone => "None"
  | Missing => ""
  end.

(** Result of [device.ctrl_transfer]: the count it returns and the bytes
    it wrote, or a [USBError]. *)
Inductive transfer_result : Type :=
  | Transferred (count : Z) (data : list byte)
  | TransferError.

Module Device.
Record t : Type := mk {
  idVendor : N;
  idProduct : N;
  serial_number : attr;
  manufacturer : attr;
  product : attr;
  (** [ctrl_transfer bmRequestType bRequest wValue wIndex len(buf)] *)
  ctrl_transfer : Z → Z → Z → Z → nat → transfer_result
}.
End Device.

(** A [bytearray(n)] after the transfer wrote [data] into it. *)
Definition fill (n : nat) (data : list byte) : list byte :=
  take n (data ++ replicate n x00).

(** [get_descriptor(device, desc_type, index, buf, language_id)]; the buffer
    is passed by its length and handed back with the transferred count. *)
Definition get_descriptor (device : Device.t) (desc_type index : Z)
    (buf_len : nat) (language_id : Z) : outcome (Z * list byte) :=
  match Device.ctrl_transfer device (Z.lor DIR_IN 0x00) 6
          (Z.lor (Z.shiftl desc_type 8) index) language_id buf_len with
  | Transferred count data => Ret (count, fill buf_len data)
  | TransferError => Raise USBError
  end.

Definition get_device_descriptor (device : Device.t) : outcome (list byte) :=
  '(length, buf) ← get_descriptor device DESC_DEVICE 0 18 0;
  if negb (length =? 18) then Raise (ValueError "Invalid device descriptor length")
  else Ret buf.

Definition get_configuration_descriptor (device : Device.t) (index : Z)
    : outcome (list byte) :=
  '(length, buf) ← get_descriptor device DESC_CONFIGURATION index 9 0;
  if length <? 9 then Raise (ValueError "Invalid configuration descriptor length")
  else
    b3 ← getitem buf 3;
    b2 ← getitem buf 2;
    let total_length := Z.lor (Z.shiftl b3 8) b2 in
    '(length, full_buf) ← get_descriptor device DESC_CONFIGURATION index
                            (Z.to_nat total_length) 0;
    if negb (length =? total_length)
    then Raise (ValueError "Configuration descriptor length mismatch")
    else Ret full_buf.

(** ** Interface records, filters and the cache *)

(** The dict built for each HID interface in [_analyze_device]. *)
Module Info.
Record t : Type := mk {
  device : Device.t;
  interface_index : Z;
  endpoint_address : Z;
  interface_class : Z;
  interface_subclass : Z;
  interface_protocol : Z;
  vid : N;
  pid : N;
  manufacturer : attr;
  product : attr
}.
End Info.
Abbreviation interface_info := Info.t.

(** [_device_filters]; [None] is Python's [None]. *)
Record filters : Type := {
  allowed_vids : option (gset N);
  blocked_vids : gset N;
  allowed_manufacturers : option (gset string);
  blocked_manufacturers : gset string
}.

Definition initial_filters : filters :=
  {| allowed_vids := None; blocked_vids := ∅;
     allowed_manufacturers := None; blocked_manufacturers := ∅ |}.

Definition set_device_filter (new_allowed_vids new_blocked_vids : option (gset N))
    (new_allowed_manufacturers new_blocked_manufacturers : option (gset string))
    (f : filters) : filters :=
  let f1 := match new_allowed_vids with
            | Some s => {| allowed_vids := Some s; blocked_vids := blocked_vids f;
                           allowed_manufacturers := allowed_manufacturers f;
                           blocked_manufacturers := blocked_manufacturers f |}
            | None => f
            end in
  let f2 := match new_blocked_vids with
            | Some s => {| allowed_vids := allowed_vids f1; blocked_vids := s;
                           allowed_manufacturers := allowed_manufacturers f1;
                           blocked_manufacturers := blocked_manufacturers f1 |}
            | None => f1
            end in
  let f3 := match new_allowed_manufacturers with
            | Some s => {| allowed_vids := allowed_vids f2; blocked_vids := blocked_vids f2;
                           allowed_manufacturers := Some (set_map lower s);
                           blocked_manufacturers := blocked_manufacturers f2 |}
            | None => f2
            end in
  match new_blocked_manufacturers with
  | Some s => {| allowed_vids := allowed_vids f3; blocked_vids := blocked_vids f3;
                 allowed_manufacturers := allowed_manufacturers f3;
                 blocked_manufacturers := set_map lower s |}
  | None => f3
  end.

(** Truth value of a filter entry: [None] and the empty set are false. *)
Definition set_truthy `{Countable K} (s : option (gset K)) : bool :=
  match s with
  | None => false
  | Some s => bool_decide (s ≠ ∅)
  end.

Definition set_contains `{Countable K} (s : option (gset K)) (k : K) : bool :=
  match s with
  | None => false
  | Some s => bool_decide (k ∈ s)
  end.

(** [device_info.get('manufacturer', '').lower()]: [None] has no [lower]. *)
Definition manufacturer_lower (a : attr) : outcome string :=
  match a with
  | Str s => Ret (lower s)
  | Missing => Ret (lower "")
  | PyNone => Raise (AttributeError "'NoneType' object has no attribute 'lower'")
  end.

Definition _device_passes_filter (f : filters) (device_info : interface_info)
    : outcome bool :=
  let vid := Info.vid device_info in
  manufacturer ← manufacturer_lower (Info.manufacturer device_info);
  if set_truthy (allowed_vids f) && negb (set_contains (allowed_vids f) vid)
  then Ret false
  else if bool_decide (vid ∈ blocked_vids f) then Ret false
  else if set_truthy (allowed_manufacturers f)
          && negb (set_contains (allowed_manufacturers f) manufacturer)
  then Ret false
  else if bool_decide (manufacturer ∈ blocked_manufacturers f) then Ret false
  else Ret true.

(** ** [_classify_hid_device] *)

Definition keyboard_keywords : list string := ["keyboard"; "kbd"; "keypad"].
Definition mouse_keywords : list string :=
  ["mouse"; "pointer"; "trackball"; "touchpad"; "trackpad"].
Definition gamepad_keywords : list string :=
  ["gamepad"; "controller"; "joystick"; "xbox"; "playstation"; "ps3"; "ps4"; "ps5"].

Definition known_keyboards : list (N * N) :=
  [(0x046D, 0xC52B); (0x413C, 0x2113); (0x045E, 0x0750)]%N.
Definition known_mice : list (N * N) :=
  [(0x046D, 0xC077); (0x1532, 0x0037); (0x045E, 0x0040)]%N.
Definition known_gamepads : list (N * N) :=
  [(0x045E, 0x028E); (0x045E, 0x02D1); (0x054C, 0x0268); (0x054C, 0x05C4);
   (0x054C, 0x0CE6)]%N.

(** [for keyword in keywords: if keyword in product_lower: return result] *)
Fixpoint keyword_loop (keywords : list string) (product_lower result : string)
    : option string :=
  match keywords with
  | [] => None
  | keyword :: rest =>
    if str_in keyword product_lower then Some result
    else keyword_loop rest product_lower result
  end.

Definition _classify_hid_device (device_info : interface_info) : string :=
  let protocol := Info.interface_protocol device_info in
  let subclass := Info.interface_subclass device_info in
  let vid := Info.vid device_info in
  let pid := Info.pid device_info in
  let product := match Info.product device_info with
                 | Str (String c s) => lower (String c s)
                 | _ => ""
                 end in
  match (if subclass =? BOOT_SUBCLASS then
           if protocol =? KEYBOARD_PROTOCOL then Some "keyboard"
           else if protocol =? MOUSE_PROTOCOL then Some "mouse"
           else None
         else None) with
  | Some r => r
  | None =>
    let product_lower := lower product in
    match keyword_loop keyboard_keywords product_lower "keyboard" with
    | Some r => r
    | None =>
    match keyword_loop mouse_keywords product_lower "mouse" with
    | Some r => r
    | None =>
    match keyword_loop gamepad_keywords product_lower "gamepad" with
    | Some r => r
    | None =>
      if bool_decide ((vid, pid) ∈ known_keyboards) then "keyboard"
      else if bool_decide ((vid, pid) ∈ known_mice) then "mouse"
      else if bool_decide ((vid, pid) ∈ known_gamepads) then "gamepad"
      else "gamepad"
    end end end
  end.

(** ** [_select_best_interface_for_type] *)

Definition expected_protocol (device_type : string) : Z :=
  if String.eqb device_type "keyboard" then KEYBOARD_PROTOCOL
  else if String.eqb device_type "mouse" then MOUSE_PROTOCOL
  else NO_PROTOCOL.

Definition _select_best_interface_for_type (interfaces : list interface_info)
    (device_type : string) : outcome interface_info :=
  let boot_interfaces :=
    List.filter (fun iface => Info.interface_subclass iface =? BOOT_SUBCLASS) interfaces in
  match boot_interfaces with
  | first_boot :: _ =>
    match List.find (fun iface =>
                       Info.interface_protocol iface =? expected_protocol device_type)
                    boot_interfaces with
    | Some iface => Ret iface
    | None => Ret first_boot
    end
  | [] =>
    match interfaces with
    | first :: _ => Ret first
    | [] => Raise (IndexError "list index out of range")
    end
  end.

(** ** The device cache *)

Module Composite.
(** A value of [_device_cache['composite_devices']]. *)
Record t : Type := mk {
  device : Device.t;
  interfaces_by_type : list (string * list interface_info);
  product : attr;
  types : list string
}.
End Composite.

Record cache : Type := {
  keyboards : list interface_info;
  mice : list interface_info;
  gamepads : list interface_info;
  composite_devices : gmap string Composite.t;
  last_scan : option Z
}.

Definition initial_cache : cache :=
  {| keyboards := []; mice := []; gamepads := [];
     composite_devices := ∅; last_scan := None |}.

(** [_device_cache[device_type]] for the three list-valued keys. *)
Definition bucket (c : cache) (device_type : string) : option (list interface_info) :=
  if String.eqb device_type "keyboards" then Some (keyboards c)
  else if String.eqb device_type "mice" then Some (mice c)
  else if String.eqb device_type "gamepads" then Some (gamepads c)
  else None.

#[global] Instance attr_eq_dec : EqDecision attr.
Proof. solve_decision. Defined.

Definition same_device (a b : Device.t) : bool :=
  (Device.idVendor a =? Device.idVendor b)%N
  && (Device.idProduct a =? Device.idProduct b)%N
  && bool_decide (getattr (Device.serial_number a) PyNone
                  = getattr (Device.serial_number b) PyNone).

Definition _device_already_cached (c : cache) (device : Device.t)
    (device_type : string) : bool :=
  match bucket c device_type with
  | Some cached =>
    existsb (fun cached_device_info =>
               same_device (Info.device cached_device_info) device) cached
  | None => false
  end.

(** The f-string of [_analyze_device]: the continuation line's 28 leading
    blanks are part of the literal. *)
Definition analysis_device_id (device : Device.t) : string :=
  format_04x (Device.idVendor device) +:+ ":" +:+
  format_04x (Device.idProduct device) +:+ ":" +:+ spaces 28 +:+
  attr_format (getattr (Device.serial_number device) (Str "no_serial")).

(** The f-string of [is_composite_device] and [get_companion_interfaces]:
    one blank before the backslash and 22 on the continuation line. *)
Definition lookup_device_id (device : Device.t) : string :=
  format_04x (Device.idVendor device) +:+ ":" +:+
  format_04x (Device.idProduct device) +:+ ": " +:+ spaces 22 +:+
  attr_format (getattr (Device.serial_number device) (Str "no_serial")).

(** [interfaces_by_type[t].append(info)], creating the entry at the end of
    the dict when [t] is new. *)
Fixpoint by_type_append (by_type : list (string * list interface_info))
    (interface_type : string) (info : interface_info)
    : list (string * list interface_info) :=
  match by_type with
  | [] => [(interface_type, [info])]
  | (t, l) :: rest =>
    if String.eqb t interface_type then (t, l ++ [info]) :: rest
    else (t, l) :: by_type_append rest interface_type info
  end.

Definition classify_interfaces (hid_interfaces : list interface_info)
    : list (string * list interface_info) :=
  fold_left (fun by_type info =>
               by_type_append by_type (_classify_hid_device info) info)
            hid_interfaces [].

Definition with_buckets (c : cache) (k m g : list interface_info) : cache :=
  {| keyboards := k; mice := m; gamepads := g;
     composite_devices := composite_devices c; last_scan := last_scan c |}.

(** Body of the loop that stores the device in every applicable category. *)
Definition store_best (c : cache) (device : Device.t) (device_type : string)
    (best_interface : interface_info) : cache :=
  if String.eqb device_type "keyboard"
     && negb (_device_already_cached c device "keyboards")
  then with_buckets c (keyboards c ++ [best_interface]) (mice c) (gamepads c)
  else if String.eqb device_type "mouse"
          && negb (_device_already_cached c device "mice")
  then with_buckets c (keyboards c) (mice c ++ [best_interface]) (gamepads c)
  else if String.eqb device_type "gamepad"
          && negb (_device_already_cached c device "gamepads")
  then with_buckets c (keyboards c) (mice c) (gamepads c ++ [best_interface])
  else c.

Fixpoint store_loop (device : Device.t)
    (items : list (string * list interface_info)) (c : cache)
    : cache * outcome unit :=
  match items with
  | [] => (c, Ret ())
  | (device_type, interfaces) :: rest =>
    match _select_best_interface_for_type interfaces device_type with
    | Ret best_interface =>
      store_loop device rest (store_best c device device_type best_interface)
    | Raise e => (c, Raise e)
    | Diverge => (c, Diverge)
    end
  end.

Definition record_composite (c : cache) (device : Device.t)
    (by_type : list (string * list interface_info)) : cache :=
  {| keyboards := keyboards c; mice := mice c; gamepads := gamepads c;
     composite_devices :=
       <[analysis_device_id device :=
           Composite.mk device by_type
             (getattr (Device.product device) (Str "Unknown"))
             (map fst by_type)]> (composite_devices c);
     last_scan := last_scan c |}.

(** ** [_analyze_device] *)

(** The [while i < len(config_descriptor)] loop collecting HID interfaces. *)
Fixpoint analyze_loop (fuel : nat) (f : filters) (device : Device.t)
    (config_descriptor : list byte) (i : nat)
    (hid_interfaces : list interface_info) : outcome (list interface_info) :=
  match fuel with
  | O => Diverge
  | S fuel' =>
    if bool_decide (i < length config_descriptor)%nat then
      descriptor_len ← getitem config_descriptor i;
      descriptor_type ← getitem config_descriptor (i + 1);
      hid_interfaces' ←
        (if descriptor_type =? DESC_INTERFACE then
           interface_number ← getitem config_descriptor (i + 2);
           interface_class ← getitem config_descriptor (i + 5);
           interface_subclass ← getitem config_descriptor (i + 6);
           interface_protocol ← getitem config_descriptor (i + 7);
           if interface_class =? HID_CLASS then
             endpoint_address ← _find_input_endpoint (S fuel') config_descriptor
                                  (i + Z.to_nat descriptor_len);
             match endpoint_address with
             | Some endpoint_address =>
               let interface_info :=
                 {| Info.device := device;
                    Info.interface_index := interface_number;
                    Info.endpoint_address := endpoint_address;
                    Info.interface_class := interface_class;
                    Info.interface_subclass := interface_subclass;
                    Info.interface_protocol := interface_protocol;
                    Info.vid := Device.idVendor device;
                    Info.pid := Device.idProduct device;
                    Info.manufacturer :=
                      getattr (Device.manufacturer device) (Str "Unknown");
                    Info.product :=
                      getattr (Device.product device) (Str "Unknown") |} in
               passes ← _device_passes_filter f interface_info;
               if (passes : bool) then Ret (hid_interfaces ++ [interface_info])
               else Ret hid_interfaces
             | None => Ret hid_interfaces
             end
           else Ret hid_interfaces
         else Ret hid_interfaces);
      analyze_loop fuel' f device config_descriptor
        (i + Z.to_nat descriptor_len) hid_interfaces'
    else Ret hid_interfaces
  end.

(** The body of the [try] block, with the cache as it stands when the body
    ends or raises. *)
Definition analyze_body (fuel : nat) (f : filters) (device : Device.t)
    (c : cache) : cache * outcome unit :=
  match get_configuration_descriptor device 0 with
  | Ret config_descriptor =>
    match analyze_loop fuel f device config_descriptor 0 [] with
    | Ret [] => (c, Ret ())
    | Ret hid_interfaces =>
      let interfaces_by_type := classify_interfaces hid_interfaces in
      match store_loop device interfaces_by_type c with
      | (c', Ret _) =>
        if bool_decide (1 < length interfaces_by_type)%nat
        then (record_composite c' device interfaces_by_type, Ret ())
        else (c', Ret ())
      | r => r
      end
    | Raise e => (c, Raise e)
    | Diverge => (c, Diverge)
    end
  | Raise e => (c, Raise e)
  | Diverge => (c, Diverge)
  end.

(** [USBError], [IndexError] and [AttributeError] are caught; anything else
    (the [ValueError] of the descriptor fetch) goes to the caller. *)
Definition _analyze_device (fuel : nat) (f : filters) (device : Device.t)
    (c : cache) : cache * outcome unit :=
  match analyze_body fuel f device c with
  | (c', Raise USBError) => (c', Ret ())
  | (c', Raise (IndexError _)) => (c', Ret ())
  | (c', Raise (AttributeError _)) => (c', Ret ())
  | r => r
  end.

(** ** Change callbacks *)

(** A registered callback: an identity (Python compares callables with
    [in]) and what a call does, [None] for a normal return and [Some e] for
    an exception derived from [Exception]. *)
Record callback : Type := {
  cb_id : nat;
  cb_run : string → string → Z → option exn
}.

(** One invocation [callback(device_type, action, index)]. *)
Record call : Type := {
  call_cb : nat;
  call_device_type : string;
  call_action : string;
  call_index : Z;
  call_raised : bool
}.

(** [for callback in _device_change_callbacks: try: callback(...) except
    Exception: print(...)].  The calls made are appended to [log]. *)
Fixpoint invoke_callbacks (callbacks : list callback)
    (device_type action : string) (index : Z) (log : list call) : list call :=
  match callbacks with
  | [] => log
  | callback :: rest =>
    match cb_run callback device_type action index with
    | None =>
      invoke_callbacks rest device_type action index
        (log ++ [{| call_cb := cb_id callback; call_device_type := device_type;
                    call_action := action; call_index := index;
                    call_raised := false |}])
    | Some e =>
      (* except Exception as e: print(f"Callback error: {e}") *)
      invoke_callbacks rest device_type action index
        (log ++ [{| call_cb := cb_id callback; call_device_type := device_type;
                    call_action := action; call_index := index;
                    call_raised := true |}])
    end
  end.

(** [len(cache.get(device_type, []))] *)
Definition bucket_count (c : cache) (device_type : string) : Z :=
  Z.of_nat (length (default [] (bucket c device_type))).

Definition notify_type (callbacks : list callback) (old_cache new_cache : cache)
    (device_type : string) (log : list call) : list call :=
  let old_count := bucket_count old_cache device_type in
  let new_count := bucket_count new_cache device_type in
  if new_count >? old_count then
    invoke_callbacks callbacks (drop_last device_type) "added" (new_count - 1) log
  else if new_count <? old_count then
    invoke_callbacks callbacks (drop_last device_type) "removed" (old_count - 1) log
  else log.

Definition device_types : list string := ["keyboards"; "mice"; "gamepads"].

Definition _notify_device_changes (callbacks : list callback)
    (old_cache new_cache : cache) (log : list call) : list call :=
  fold_left (fun log device_type =>
               notify_type callbacks old_cache new_cache device_type log)
            device_types log.

(** ** Module state and environment *)

Record state : Type := {
  _device_cache : cache;
  _cache_timeout : Z;
  _device_change_callbacks : list callback;
  _device_filters : filters;
  (** Instrumentation: how many times [usb.core.find(find_all=True)] ran,
      and every callback invocation so far, oldest first. *)
  scans : nat;
  calls : list call
}.

(** Default timeout of one second, in clock ticks of a millisecond. *)
Definition initial_state : state :=
  {| _device_cache := initial_cache; _cache_timeout := 1000;
     _device_change_callbacks := []; _device_filters := initial_filters;
     scans := 0; calls := [] |}.

(** What a call observes outside the module: the loop budget, the devices
    [usb.core.find(find_all=True)] yields (or the error it raises) and the
    reading of [time.monotonic()], in ticks. *)
Record env : Type := {
  fuel : nat;
  usb_core_find : outcome (list Device.t);
  monotonic : Z
}.

Definition set_cache_timeout (timeout_seconds : Z) (st : state) : state :=
  {| _device_cache := _device_cache st;
     _cache_timeout := Z.max 0 timeout_seconds;
     _device_change_callbacks := _device_change_callbacks st;
     _device_filters := _device_filters st;
     scans := scans st; calls := calls st |}.

Definition register_device_change_callback (callback : callback) (st : state)
    : state :=
  if existsb (fun c => Nat.eqb (cb_id c) (cb_id callback))
       (_device_change_callbacks st)
  then st
  else {| _device_cache := _device_cache st;
          _cache_timeout := _cache_timeout st;
          _device_change_callbacks := _device_change_callbacks st ++ [callback];
          _device_filters := _device_filters st;
          scans := scans st; calls := calls st |}.

Definition update_filters (g : filters → filters) (st : state) : state :=
  {| _device_cache := _device_cache st;
     _cache_timeout := _cache_timeout st;
     _device_change_callbacks := _device_change_callbacks st;
     _device_filters := g (_device_filters st);
     scans := scans st; calls := calls st |}.

(** ** [_refresh_device_cache] *)

(** [for device in usb.core.find(find_all=True): _analyze_device(device)] *)
Fixpoint scan_devices (fuel : nat) (f : filters) (devices : list Device.t)
    (c : cache) : cache * outcome unit :=
  match devices with
  | [] => (c, Ret ())
  | device :: rest =>
    match _analyze_device fuel f device c with
    | (c', Ret _) => scan_devices fuel f rest c'
    | r => r
    end
  end.

Definition cleared (c : cache) : cache :=
  {| keyboards := []; mice := []; gamepads := [];
     composite_devices := ∅; last_scan := last_scan c |}.

(** The [try] block around the enumeration: [USBError] and
    [NoBackendError] are printed and dropped. *)
Definition scan_all (e : env) (f : filters) (c : cache) : cache * outcome unit :=
  let r := match usb_core_find e with
           | Ret devices => scan_devices (fuel e) f devices c
           | Raise x => (c, Raise x)
           | Diverge => (c, Diverge)
           end in
  match r with
  | (c', Raise USBError) => (c', Ret ())
  | (c', Raise NoBackendError) => (c', Ret ())
  | r => r
  end.

Definition cache_is_fresh (st : state) (current_time : Z) : bool :=
  match last_scan (_device_cache st) with
  | Some last => (_cache_timeout st >? 0) && (current_time - last <? _cache_timeout st)
  | None => false
  end.

Definition _refresh_device_cache (force_refresh : bool) (e : env) (st : state)
    : state * outcome unit :=
  let current_time := monotonic e in
  if negb force_refresh && cache_is_fresh st current_time then (st, Ret ())
  else
    let old_cache := _device_cache st in
    match scan_all e (_device_filters st) (cleared (_device_cache st)) with
    | (c, Ret _) =>
      let c' := {| keyboards := keyboards c; mice := mice c; gamepads := gamepads c;
                   composite_devices := composite_devices c;
                   last_scan := Some current_time |} in
      ({| _device_cache := c';
          _cache_timeout := _cache_timeout st;
          _device_change_callbacks := _device_change_callbacks st;
          _device_filters := _device_filters st;
          scans := S (scans st);
          calls := match _device_change_callbacks st with
                   | [] => calls st
                   | callbacks => _notify_device_changes callbacks old_cache c'
                                    (calls st)
                   end |}, Ret ())
    | (c, r) =>
      ({| _device_cache := c;
          _cache_timeout := _cache_timeout st;
          _device_change_callbacks := _device_change_callbacks st;
          _device_filters := _device_filters st;
          scans := S (scans st);
          calls := calls st |}, r)
    end.

(** ** Public query functions *)

Definition count_in (select : cache → list interface_info) (refresh : bool)
    (e : env) (st : state) : state * outcome Z :=
  match _refresh_device_cache refresh e st with
  | (st', Ret _) => (st', Ret (Z.of_nat (length (select (_device_cache st')))))
  | (st', Raise x) => (st', Raise x)
  | (st', Diverge) => (st', Diverge)
  end.

Definition count_keyboards := count_in keyboards.
Definition count_mice := count_in mice.
Definition count_gamepads := count_in gamepads.

(** Shared shape of [get_keyboard_info], [get_mouse_info], [get_gamepad_info];
    the pair [(None, None)] is [None]. *)
Definition get_info_in (select : cache → list interface_info) (index : Z)
    (e : env) (st : state) : state * outcome (option (Z * Z)) :=
  if index <? 0 then (st, Raise (IndexError "Device index cannot be negative"))
  else
    match _refresh_device_cache false e st with
    | (st', Ret _) =>
      (st', Ret (if index <? Z.of_nat (length (select (_device_cache st')))
                 then match select (_device_cache st') !! Z.to_nat index with
                      | Some device_info =>
                        Some (Info.interface_index device_info,
                              Info.endpoint_address device_info)
                      | None => None
                      end
                 else None))
    | (st', Raise x) => (st', Raise x)
    | (st', Diverge) => (st', Diverge)
    end.

Definition get_keyboard_info := get_info_in keyboards.
Definition get_mouse_info := get_info_in mice.
Definition get_gamepad_info := get_info_in gamepads.

(** Shared shape of [get_keyboard_device], [get_mouse_device],
    [get_gamepad_device]. *)
Definition get_device_in (select : cache → list interface_info) (index : Z)
    (e : env) (st : state) : state * outcome (option Device.t) :=
  if index <? 0 then (st, Raise (IndexError "Device index cannot be negative"))
  else
    match _refresh_device_cache false e st with
    | (st', Ret _) =>
      (st', Ret (if index <? Z.of_nat (length (select (_device_cache st')))
                 then Info.device <$> select (_device_cache st') !! Z.to_nat index
                 else None))
    | (st', Raise x) => (st', Raise x)
    | (st', Diverge) => (st', Diverge)
    end.

Definition get_keyboard_device := get_device_in keyboards.
Definition get_mouse_device := get_device_in mice.
Definition get_gamepad_device := get_device_in gamepads.

(** The [if/elif] chain that picks the device getter; [None] is the final
    [else]. *)
Definition device_getter (device_type : string)
    : option (Z → env → state → state * outcome (option Device.t)) :=
  if String.eqb device_type "keyboard" then Some get_keyboard_device
  else if String.eqb device_type "mouse" then Some get_mouse_device
  else if String.eqb device_type "gamepad" then Some get_gamepad_device
  else None.

Definition get_composite_device_info (e : env) (st : state)
    : state * outcome (gmap string Composite.t) :=
  match _refresh_device_cache false e st with
  | (st', Ret _) => (st', Ret (composite_devices (_device_cache st')))
  | (st', Raise x) => (st', Raise x)
  | (st', Diverge) => (st', Diverge)
  end.

(** [except Exception: return False, []] around the whole body. *)
Definition is_composite_device (device_type : string) (index : Z) (e : env)
    (st : state) : state * outcome (bool * list string) :=
  match device_getter device_type with
  | None => (st, Ret (false, []))
  | Some getter =>
    match getter index e st with
    | (st', Ret None) => (st', Ret (false, []))
    | (st', Ret (Some device)) =>
      let device_id := lookup_device_id device in
      match composite_devices (_device_cache st') !! device_id with
      | Some composite_info =>
        (st', Ret (true,
                   List.filter (fun t => negb (String.eqb t device_type))
                     (Composite.types composite_info)))
      | None => (st', Ret (false, []))
      end
    | (st', Raise _) => (st', Ret (false, []))
    | (st', Diverge) => (st', Diverge)
    end
  end.

Module Companion.
(** A value of the dict returned by [get_companion_interfaces]. *)
Record t : Type := mk {
  interface_index : Z;
  endpoint_address : Z;
  interface_info : Info.t
}.
End Companion.

(** The loop over [composite_info['interfaces_by_type'].items()]. *)
Fixpoint companions_loop (items : list (string * list interface_info))
    (device_type : string) (companions : gmap string Companion.t)
    : outcome (gmap string Companion.t) :=
  match items with
  | [] => Ret companions
  | (companion_type, interfaces) :: rest =>
    if negb (String.eqb companion_type device_type) then
      best_interface ← _select_best_interface_for_type interfaces companion_type;
      companions_loop rest device_type
        (<[companion_type :=
             Companion.mk (Info.interface_index best_interface)
               (Info.endpoint_address best_interface) best_interface]> companions)
    else companions_loop rest device_type companions
  end.

(** [except Exception as e: print(...); return {}] around the whole body. *)
Definition get_companion_interfaces (device_type : string) (index : Z) (e : env)
    (st : state) : state * outcome (gmap string Companion.t) :=
  match device_getter device_type with
  | None => (st, Ret ∅)
  | Some getter =>
    match getter index e st with
    | (st', Ret None) => (st', Ret ∅)
    | (st', Ret (Some device)) =>
      let device_id := lookup_device_id device in
      match composite_devices (_device_cache st') !! device_id with
      | Some composite_info =>
        match companions_loop (Composite.interfaces_by_type composite_info)
                device_type ∅ with
        | Ret companions => (st', Ret companions)
        | Raise _ => (st', Ret ∅)
        | Diverge => (st', Diverge)
        end
      | None => (st', Ret ∅)
      end
    | (st', Raise _) => (st', Ret ∅)
    | (st', Diverge) => (st', Diverge)
    end
  end.

Definition force_refresh (e : env) (st : state) : state * outcome unit :=
  _refresh_device_cache true e st.

(** [except Exception: return False] around the whole body; the inner
    [try] turns a [USBError] of the descriptor read into [False]. *)
Definition is_device_connected (device_type : string) (index : Z) (e : env)
    (st : state) : state * outcome bool :=
  match (match device_getter device_type with
         | Some getter => getter index e st
         | None => (st, Ret None)
         end) with
  | (st', Ret None) => (st', Ret false)
  | (st', Ret (Some device)) =>
    match get_device_descriptor device with
    | Ret desc => (st', Ret (bool_decide (length desc = 18%nat)))
    | Raise _ => (st', Ret false)
    | Diverge => (st', Diverge)
    end
  | (st', Raise _) => (st', Ret false)
  | (st', Diverge) => (st', Diverge)
  end.

Definition get_info (device_type : string) (index : Z) (e : env) (st : state)
    : state * outcome (option (Z * Z)) :=
  if String.eqb device_type "keyboard" then get_keyboard_info index e st
  else if String.eqb device_type "mouse" then get_mouse_info index e st
  else if String.eqb device_type "gamepad" then get_gamepad_info index e st
  else (st, Raise (ValueError
               ("Invalid device_type: " +:+ device_type +:+ ". Must be 'keyboard', "
                +:+ spaces 26 +:+ "'mouse', or 'gamepad'"))).

(** ** Example devices *)

(** A well-behaved device serving one configuration blob: each transfer
    copies as much of the blob as the buffer holds and reports that count. *)
Definition serve (blob : list byte) (bmRequestType bRequest wValue wIndex : Z)
    (buf_len : nat) : transfer_result :=
  Transferred (Z.of_nat (Nat.min buf_len (length blob))) (take buf_len blob).

Definition device_of_blob (v p : N) (serial manuf prod : attr) (blob : list byte)
    : Device.t :=
  Device.mk v p serial manuf prod (serve blob).

(** Configuration header ([wTotalLength] = 59) and a boot keyboard
    interface, then the records that follow it: HID descriptor, IN endpoint
    0x81, boot mouse interface, HID descriptor, IN endpoint 0x82. *)
Definition combo_prefix : list byte :=
  [x09; x02; x3b; x00; x02; x01; x00; xa0; x32;
   x09; x04; x00; x00; x01; x03; x01; x01; x00].

Definition combo_records : list (list byte) :=
  [[x09; x21; x11; x01; x00; x01; x22; x41; x00];
   [x07; x05; x81; x03; x08; x00; x0a];
   [x09; x04; x01; x00; x01; x03; x01; x02; x00];
   [x09; x21; x11; x01; x00; x01; x22; x34; x00];
   [x07; x05; x82; x03; x04; x00; x0a]].

Definition combo_blob : list byte := combo_prefix ++ concat combo_records.

Definition combo_device : Device.t :=
  device_of_blob 0x1234 0x5678 (Str "A1") (Str "Acme") (Str "Combo") combo_blob.

Definition started (devices : list Device.t) (now : Z) : env :=
  {| fuel := 100; usb_core_find := Ret devices; monotonic := now |}.

(** Configuration header followed by a descriptor whose length byte is 0. *)
Definition zero_length_blob : list byte :=
  [x09; x02; x0b; x00; x01; x01; x00; xa0; x32; x00; x21].

Definition zero_length_device : Device.t :=
  device_of_blob 0x1111 0x2222 (Str "Z0") (Str "Acme") (Str "Broken")
    zero_length_blob.

Definition sample_info (p : attr) (sub proto : Z) (v q : N) : interface_info :=
  Info.mk combo_device 0 0x81 HID_CLASS sub proto v q (Str "Acme") p.

Definition raising_callback : callback :=
  {| cb_id := 1; cb_run := fun _ _ _ => Some (ValueError "boom") |}.

Definition quiet_callback : callback :=
  {| cb_id := 2; cb_run := fun _ _ _ => None |}.

Definition cache_with_keyboards (n : nat) : cache :=
  with_buckets initial_cache
    (replicate n (sample_info (Str "Combo") 1 1 0x1234 0x5678)) [] [].

(** A blob cut off inside an interface record: reading the class byte runs
    past the end. *)
Definition truncated_blob : list byte :=
  [x09; x02; x0d; x00; x01; x01; x00; xa0; x32; x09; x04; x00; x00].

Definition truncated_device : Device.t :=
  device_of_blob 0x3333 0x4444 (Str "T1") (Str "Acme") (Str "Cut") truncated_blob.

(** A device that answers the header probe with 4 bytes only. *)
Definition short_read_device : Device.t :=
  Device.mk 0x5555 0x6666 (Str "S1") (Str "Acme") (Str "Short")
    (fun bmRequestType bRequest wValue wIndex buf_len =>
       Transferred 4 (take 4 combo_blob)).

(** ** Reference definitions following the specification *)

(** A descriptor record is a byte list whose first byte is its own length;
    the type is its second byte and, for an endpoint, the address its
    third. *)
Definition record_type (r : list byte) : Z := default 0 (byte_val <$> r !! 1%nat).
Definition record_address (r : list byte) : Z := default 0 (byte_val <$> r !! 2%nat).

Definition well_formed_record (r : list byte) : bool :=
  bool_decide (2 ≤ length r)%nat
  && bool_decide (byte_val <$> head r = Some (Z.of_nat (length r)))
  && (negb (record_type r =? DESC_ENDPOINT) || bool_decide (3 ≤ length r)%nat).

(** The address of the first endpoint record with bit 7 set that comes
    before the next interface record, if there is one. *)
Fixpoint first_input_endpoint (records : list (list byte)) : option Z :=
  match records with
  | [] => None
  | r :: rest =>
    if record_type r =? DESC_INTERFACE then None
    else if (record_type r =? DESC_ENDPOINT) && Z.testbit (record_address r) 7
    then Some (record_address r)
    else first_input_endpoint rest
  end.

(** Little-endian 16-bit value at byte offsets [off] and [off + 1]. *)
Definition le16 (buf : list byte) (off : nat) : Z :=
  default 0 (byte_val <$> buf !! off)
  + 256 * default 0 (byte_val <$> buf !! S off).

Inductive classification : Type := Keyboard | Mouse | Gamepad.

Definition classification_name (c : classification) : string :=
  match c with
  | Keyboard => "keyboard"
  | Mouse => "mouse"
  | Gamepad => "gamepad"
  end.

Definition product_string (info : interface_info) : string :=
  match Info.product info with
  | Str s => s
  | _ => ""
  end.

(** Stage 1: the boot-protocol shortcut. *)
Definition boot_stage (info : interface_info) : option classification :=
  if bool_decide (Info.interface_subclass info = 1) then
    if bool_decide (Info.interface_protocol info = 1) then Some Keyboard
    else if bool_decide (Info.interface_protocol info = 2) then Some Mouse
    else None
  else None.

(** Case-insensitive substring match against a keyword list. *)
Definition keyword_hit (keywords : list string) (s : string) : bool :=
  existsb (fun keyword => str_in (lower keyword) (lower s)) keywords.

(** Stage 2: keyboard, then mouse, then gamepad keywords. *)
Definition keyword_stage (info : interface_info) : option classification :=
  if keyword_hit keyboard_keywords (product_string info) then Some Keyboard
  else if keyword_hit mouse_keywords (product_string info) then Some Mouse
  else if keyword_hit gamepad_keywords (product_string info) then Some Gamepad
  else None.

(** Stage 3: the known (vendor id, product id) tables. *)
Definition known_id_stage (info : interface_info) : option classification :=
  if bool_decide ((Info.vid info, Info.pid info) ∈ known_keyboards) then Some Keyboard
  else if bool_decide ((Info.vid info, Info.pid info) ∈ known_mice) then Some Mouse
  else if bool_decide ((Info.vid info, Info.pid info) ∈ known_gamepads) then Some Gamepad
  else None.

Fixpoint first_match (stages : list (option classification))
    (fallback : classification) : classification :=
  match stages with
  | [] => fallback
  | Some c :: _ => c
  | None :: rest => first_match rest fallback
  end.

(** The four stages, first match wins, gamepad by default. *)
Definition classify_staged (info : interface_info) : classification :=
  first_match [boot_stage info; keyword_stage info; known_id_stage info] Gamepad.

(** The call a callback receives, as recorded in the log. *)
Definition call_of (device_type action : string) (index : Z) (cb : callback)
    : call :=
  {| call_cb := cb_id cb; call_device_type := device_type;
     call_action := action; call_index := index;
     call_raised := bool_decide (is_Some (cb_run cb device_type action index)) |}.

Definition call_is_for (id : nat) (device_type : string) (c : call) : bool :=
  Nat.eqb (call_cb c) id && String.eqb (call_device_type c) device_type.

(** The calls one bucket contributes to a notification: one per callback
    when its size changed, none otherwise. *)
Definition bucket_calls (callbacks : list callback) (old_cache new_cache : cache)
    (device_type : string) : list call :=
  let old_count := bucket_count old_cache device_type in
  let new_count := bucket_count new_cache device_type in
  if new_count >? old_count then
    map (call_of (drop_last device_type) "added" (new_count - 1)) callbacks
  else if new_count <? old_count then
    map (call_of (drop_last device_type) "removed" (old_count - 1)) callbacks
  else [].

(** The cache with another [last_scan] stamp. *)
Definition with_last_scan (l : option Z) (c : cache) : cache :=
  {| keyboards := keyboards c; mice := mice c; gamepads := gamepads c;
     composite_devices := composite_devices c; last_scan := l |}.

(** ** Further functions of the module *)

Definition CLASS_HID : Z := 0x03.

(** The loop of [find_boot_mouse_endpoint]; [current_interface] is the
    number of the boot mouse interface being walked, if any. *)
Fixpoint find_boot_mouse_loop (fuel : nat) (config_descriptor : list byte)
    (i : nat) (current_interface : option Z) : outcome (option (Z * Z)) :=
  match fuel with
  | O => Diverge
  | S fuel' =>
    if bool_decide (i < length config_descriptor)%nat then
      descriptor_len ← getitem config_descriptor i;
      descriptor_type ← getitem config_descriptor (i + 1);
      if descriptor_type =? DESC_INTERFACE then
        interface_number ← getitem config_descriptor (i + 2);
        interface_class ← getitem config_descriptor (i + 5);
        interface_subclass ← getitem config_descriptor (i + 6);
        interface_protocol ← getitem config_descriptor (i + 7);
        find_boot_mouse_loop fuel' config_descriptor
          (i + Z.to_nat descriptor_len)
          (if (interface_class =? CLASS_HID) && (interface_subclass =? 1)
              && (interface_protocol =? 2)
           then Some interface_number else None)
      else
        match current_interface with
        | Some current =>
          if descriptor_type =? DESC_ENDPOINT then
            endpoint_address ← getitem config_descriptor (i + 2);
            if truthy (Z.land endpoint_address DIR_IN)
            then Ret (Some (current, endpoint_address))
            else find_boot_mouse_loop fuel' config_descriptor
                   (i + Z.to_nat descriptor_len) current_interface
          else find_boot_mouse_loop fuel' config_descriptor
                 (i + Z.to_nat descriptor_len) current_interface
        | None => find_boot_mouse_loop fuel' config_descriptor
                    (i + Z.to_nat descriptor_len) current_interface
        end
    else Ret None
  end.

(** [find_boot_mouse_endpoint(device)]; the pair [(None, None)] is [None]. *)
Definition find_boot_mouse_endpoint (fuel : nat) (device : Device.t)
    : outcome (option (Z * Z)) :=
  config_descriptor ← get_configuration_descriptor device 0;
  find_boot_mouse_loop fuel config_descriptor 0 None.

Module Summary.
(** One element of a ['devices'] list of [list_all_hid_devices]. *)
Record entry : Type := mk_entry {
  index : Z;
  vid : N;
  pid : N;
  manufacturer : attr;
  product : attr;
  interface_index : Z;
  endpoint_address : Z
}.
(** The value under ['keyboards'], ['mice'] or ['gamepads']. *)
Record t : Type := mk {
  count : Z;
  devices : list entry
}.
End Summary.

(** The comprehension over [enumerate(_device_cache[...])]. *)
Definition summarize (l : list interface_info) : Summary.t :=
  Summary.mk (Z.of_nat (length l))
    (imap (fun i dev =>
             Summary.mk_entry (Z.of_nat i) (Info.vid dev) (Info.pid dev)
               (Info.manufacturer dev) (Info.product dev)
               (Info.interface_index dev) (Info.endpoint_address dev)) l).

(** [list_all_hid_devices()]: the summaries of the keyboards, mice and
    gamepads buckets, in that order. *)
Definition list_all_hid_devices (e : env) (st : state)
    : state * outcome (Summary.t * Summary.t * Summary.t) :=
  match _refresh_device_cache true e st with
  | (st', Ret _) =>
    (st', Ret (summarize (keyboards (_device_cache st')),
               summarize (mice (_device_cache st')),
               summarize (gamepads (_device_cache st'))))
  | (st', Raise x) => (st', Raise x)
  | (st', Diverge) => (st', Diverge)
  end.

(** ** Predicates used by the further properties *)

(** No two entries of a bucket belong to the same device, where "same" is
    the comparison of [_device_already_cached]. *)
Fixpoint distinct_devices (l : list interface_info) : bool :=
  match l with
  | [] => true
  | a :: rest =>
    forallb (fun b => negb (same_device (Info.device a) (Info.device b))) rest
    && distinct_devices rest
  end.

(** An interface record as [_analyze_device] builds it for [d]: an HID
    interface of [d] with an input endpoint. *)
Definition interface_of (d : Device.t) (info : interface_info) : Prop :=
  Info.device info = d
  ∧ Info.interface_class info = HID_CLASS
  ∧ Z.testbit (Info.endpoint_address info) 7 = true
  ∧ Info.vid info = Device.idVendor d
  ∧ Info.pid info = Device.idProduct d.

(** An entry of the bucket for classification [t]. *)
Definition entry_ok (t : string) (info : interface_info) : Prop :=
  _classify_hid_device info = t ∧ interface_of (Info.device info) info.

Definition buckets_sound (c : cache) : Prop :=
  Forall (entry_ok "keyboard") (keyboards c)
  ∧ Forall (entry_ok "mouse") (mice c)
  ∧ Forall (entry_ok "gamepad") (gamepads c).

Definition buckets_distinct (c : cache) : Prop :=
  distinct_devices (keyboards c) = true
  ∧ distinct_devices (mice c) = true
  ∧ distinct_devices (gamepads c) = true.

(** A grouping of one device's interfaces by classification. *)
Definition groups_of (d : Device.t)
    (by_type : list (string * list interface_info)) : Prop :=
  NoDup (map fst by_type)
  ∧ Forall (fun item =>
              item.2 ≠ []
              ∧ Forall (fun info => _classify_hid_device info = item.1
                                    ∧ interface_of d info) item.2) by_type.

(** A composite record as the scan files it. *)
Definition composite_ok (key : string) (r : Composite.t) : Prop :=
  key = analysis_device_id (Composite.device r)
  ∧ (2 ≤ length (Composite.types r))%nat
  ∧ Composite.types r = map fst (Composite.interfaces_by_type r)
  ∧ groups_of (Composite.device r) (Composite.interfaces_by_type r).

Definition composites_sound (c : cache) : Prop :=
  map_Forall composite_ok (composite_devices c).

(** The exceptions [_analyze_device] handles itself. *)
Definition handled_by_analysis (x : exn) : bool :=
  match x with
  | USBError | IndexError _ | AttributeError _ => true
  | _ => false
  end.

Definition is_value_error (x : exn) : bool :=
  match x with
  | ValueError _ => true
  | _ => false
  end.

(** Interface records carry at least the eight bytes the walk reads. *)
Definition well_formed_interface (r : list byte) : bool :=
  negb (record_type r =? DESC_INTERFACE) || bool_decide (8 ≤ length r)%nat.

Definition record_byte (r : list byte) (k : nat) : Z :=
  default 0 (byte_val <$> r !! k).

(** The boot mouse interface and its first input endpoint, read off the
    records: an interface record selects or deselects the current
    interface, and the first endpoint with bit 7 set under a selected
    interface is the answer. *)
Fixpoint first_boot_mouse (records : list (list byte)) (current : option Z)
    : option (Z * Z) :=
  match records with
  | [] => None
  | r :: rest =>
    if record_type r =? DESC_INTERFACE then
      first_boot_mouse rest
        (if bool_decide (record_byte r 5 = 3 ∧ record_byte r 6 = 1
                         ∧ record_byte r 7 = 2)
         then Some (record_byte r 2) else None)
    else
      match current with
      | Some number =>
        if (record_type r =? DESC_ENDPOINT) && Z.testbit (record_address r) 7
        then Some (number, record_address r)
        else first_boot_mouse rest current
      | None => first_boot_mouse rest current
      end
  end.

(** The combined device as a list of records from offset 0, and a device
    that cannot be read at all. *)
Definition combo_all_records : list (list byte) :=
  [[x09; x02; x3b; x00; x02; x01; x00; xa0; x32];
   [x09; x04; x00; x00; x01; x03; x01; x01; x00]] ++ combo_records.

Definition unreadable_device : Device.t :=
  Device.mk 0x7777 0x8888 (Str "U1") (Str "Acme") (Str "Mute")
    (fun bmRequestType bRequest wValue wIndex buf_len => TransferError).

Definition anonymous_device : Device.t :=
  device_of_blob 0x1234 0x5678 (Str "A1") PyNone (Str "Combo") combo_blob.

(** The same, position by position: an earlier entry and a later entry of
    a bucket never compare as the same device. *)
Definition no_device_twice (l : list interface_info) : Prop :=
  ∀ i j a b, (i < j)%nat → l !! i = Some a → l !! j = Some b →
             same_device (Info.device a) (Info.device b) = false.

(** What every scan keeps true of the cache. *)
Definition cache_inv (c : cache) : Prop :=
  buckets_sound c ∧ buckets_distinct c ∧ composites_sound c.

(** A summary that reports a bucket faithfully: its count is the bucket's
    size, and its entries are the bucket's, in order and numbered from 0. *)
Definition summary_matches (s : Summary.t) (l : list interface_info) : Prop :=
  Summary.count s = Z.of_nat (length l)
  ∧ length (Summary.devices s) = length l
  ∧ ∀ i entry, Summary.devices s !! i = Some entry →
      Summary.index entry = Z.of_nat i
      ∧ ∃ info, l !! i = Some info
                ∧ Summary.vid entry = Info.vid info
                ∧ Summary.pid entry = Info.pid info
                ∧ Summary.manufacturer entry = Info.manufacturer info
                ∧ Summary.product entry = Info.product info
                ∧ Summary.interface_index entry = Info.interface_index info
                ∧ Summary.endpoint_address entry = Info.endpoint_address info.

(** Every entry of the three buckets satisfies [P]. *)
Definition buckets_all (P : interface_info → Prop) (c : cache) : Prop :=
  Forall P (keyboards c) ∧ Forall P (mice c) ∧ Forall P (gamepads c).

(** A second device serving the combined blob, under another vendor id. *)
Definition other_vendor_device : Device.t :=
  device_of_blob 0x046D 0xC52B (Str "L1") (Str "Logi") (Str "Combo") combo_blob.

(** The combined device again, with five blanks in front of its serial
    number: the id the lookup builds for it is the id the analysis builds
    for [combo_device]. *)
Definition padded_serial_device : Device.t :=
  device_of_blob 0x1234 0x5678 (Str "     A1") (Str "Acme") (Str "Combo")
    combo_blob.

(** What one callback is told about one bucket: nothing when its size is
    unchanged, otherwise one event, ['added'] with the last new index or
    ['removed'] with the last old index. *)
Definition bucket_events (old_cache new_cache : cache) (device_type : string)
    : list (string * Z) :=
  let old_count := bucket_count old_cache device_type in
  let new_count := bucket_count new_cache device_type in
  if new_count >? old_count then [("added", new_count - 1)]
  else if new_count <? old_count then [("removed", old_count - 1)]
  else [].

(** Two more devices like [combo_device], told apart by serial number. *)
Definition second_combo_device : Device.t :=
  device_of_blob 0x1234 0x5678 (Str "A2") (Str "Acme") (Str "Combo") combo_blob.

Definition third_combo_device : Device.t :=
  device_of_blob 0x1234 0x5678 (Str "A3") (Str "Acme") (Str "Combo") combo_blob.

(** The initial state with a raising and a quiet callback registered, in
    that order. *)
Definition watched_state : state :=
  register_device_change_callback quiet_callback
    (register_device_change_callback raising_callback initial_state).

(** * Properties *)

(** ** Bytes and buffer reads *)

Lemma byte_val_range (b : byte) : 0 ≤ byte_val b < 256.
Proof.
  unfold byte_val. pose proof (Byte.to_N_bounded b). lia.
Qed.

Lemma getitem_lookup (buf : list byte) (i : nat) (b : byte) :
  buf !! i = Some b → getitem buf i = Ret (byte_val b).
Proof. unfold getitem. intros ->. reflexivity. Qed.

Lemma getitem_middle (pre r post : list byte) (k : nat) (b : byte) :
  r !! k = Some b → getitem (pre ++ r ++ post) (length pre + k) = Ret (byte_val b).
Proof.
  intros Hk. apply getitem_lookup.
  rewrite lookup_app_r by lia.
  replace (length pre + k - length pre)%nat with k by lia.
  by apply lookup_app_l_Some.
Qed.

(** Testing [address & DIR_IN] is testing bit 7. *)
Lemma dir_in_bit (z : Z) : truthy (Z.land z DIR_IN) = Z.testbit z 7.
Proof.
  assert (Hland : Z.land z DIR_IN = if Z.testbit z 7 then 2 ^ 7 else 0).
  { apply Z.bits_inj'. intros n Hn. rewrite Z.land_spec.
    change DIR_IN with (2 ^ 7). rewrite Z.pow2_bits_eqb by lia.
    destruct (Z.eqb_spec 7 n) as [<-|Hne].
    - rewrite andb_true_r. destruct (Z.testbit z 7); [|by rewrite Z.bits_0].
      rewrite Z.pow2_bits_eqb by lia. by rewrite Z.eqb_refl.
    - rewrite andb_false_r. destruct (Z.testbit z 7); [|by rewrite Z.bits_0].
      rewrite Z.pow2_bits_eqb by lia. symmetry. by apply Z.eqb_neq. }
  unfold truthy. rewrite Hland. by destruct (Z.testbit z 7).
Qed.

(** ** The bounded endpoint search *)

Section EndpointSearch.

Lemma well_formed_record_inv (r : list byte) :
  well_formed_record r = true →
  ∃ b0 b1 tl, r = b0 :: b1 :: tl
    ∧ Z.to_nat (byte_val b0) = length r
    ∧ record_type r = byte_val b1
    ∧ (byte_val b1 = DESC_ENDPOINT →
       ∃ b2 tl', tl = b2 :: tl' ∧ record_address r = byte_val b2).
Proof.
  unfold well_formed_record. rewrite !andb_true_iff, orb_true_iff.
  rewrite !bool_decide_eq_true, negb_true_iff.
  intros [[Hlen Hhead] Hep].
  destruct r as [|b0 [|b1 tl]]; simpl in Hlen; try lia.
  exists b0, b1, tl. repeat split.
  - simpl in Hhead. injection Hhead as ->. by rewrite Nat2Z.id.
  - intros Ht. destruct Hep as [Hne | Hge].
    + unfold record_type in Hne. simpl in Hne.
      apply Z.eqb_neq in Hne. contradiction.
    + destruct tl as [|b2 tl']; simpl in Hge; [lia|]. by exists b2, tl'.
Qed.

Lemma find_loop_records (records : list (list byte)) :
  ∀ (pre : list byte) (fuel : nat),
    forallb well_formed_record records = true →
    (length records < fuel)%nat →
    find_input_endpoint_loop fuel (pre ++ concat records) (length pre)
    = Ret (first_input_endpoint records).
Proof.
  induction records as [|r rest IH]; intros pre fuel Hwf Hfuel.
  - destruct fuel as [|fuel]; [simpl in Hfuel; lia|]. simpl.
    rewrite bool_decide_eq_false_2; [done|]. rewrite length_app. simpl. lia.
  - destruct fuel as [|fuel]; [simpl in Hfuel; lia|].
    simpl in Hwf. apply andb_true_iff in Hwf as [Hr Hrest].
    destruct (well_formed_record_inv r Hr)
      as (b0 & b1 & tl & Hshape & Hb0 & Hty & Hep).
    assert (Hnext : find_input_endpoint_loop fuel (pre ++ r ++ concat rest)
                      (length pre + Z.to_nat (byte_val b0))
                    = Ret (first_input_endpoint rest)).
    { rewrite Hb0, <- length_app, (app_assoc pre).
      apply IH; [done|]. simpl in Hfuel. lia. }
    assert (H0 : r !! 0%nat = Some b0) by (by rewrite Hshape).
    assert (H1 : r !! 1%nat = Some b1) by (by rewrite Hshape).
    assert (Hlt : (length pre < length (pre ++ r ++ concat rest))%nat).
    { rewrite !length_app, Hshape. simpl. lia. }
    cbn [find_input_endpoint_loop first_input_endpoint concat].
    rewrite bool_decide_eq_true_2 by done.
    replace (getitem (pre ++ r ++ concat rest) (length pre))
      with (getitem (pre ++ r ++ concat rest) (length pre + 0))
      by (f_equal; lia).
    rewrite (getitem_middle pre r (concat rest) 0 b0) by done.
    cbn [mbind outcome_bind].
    rewrite (getitem_middle pre r (concat rest) 1 b1) by done.
    cbn [mbind outcome_bind]. rewrite Hty.
    destruct (Z.eqb_spec (byte_val b1) DESC_ENDPOINT) as [Heq|Hne].
    + destruct (Hep Heq) as (b2 & tl' & Htl & Haddr).
      assert (H2 : r !! 2%nat = Some b2) by (by rewrite Hshape, Htl).
      rewrite (getitem_middle pre r (concat rest) 2 b2) by done.
      cbn [mbind outcome_bind]. rewrite dir_in_bit, Haddr.
      rewrite Heq. change (DESC_ENDPOINT =? DESC_INTERFACE) with false.
      cbn [andb]. destruct (Z.testbit (byte_val b2) 7); [done|]. exact Hnext.
    + destruct (byte_val b1 =? DESC_INTERFACE); [done|]. exact Hnext.
Qed.

End EndpointSearch.

(** C9: on a blob that continues, from the start offset, as a sequence of
    length-prefixed records, [_find_input_endpoint] returns the address of
    the first endpoint record with bit 7 set that precedes the next
    interface record, and [None] when an interface record or the end of the
    blob comes first; endpoints behind the next interface are never
    reached. *)
Theorem find_input_endpoint_stops_at_interface
    (pre : list byte) (records : list (list byte)) (fuel : nat) :
  forallb well_formed_record records = true →
  (length records < fuel)%nat →
  _find_input_endpoint fuel (pre ++ concat records) (length pre)
  = Ret (first_input_endpoint records).
Proof.
  intros Hwf Hfuel. unfold _find_input_endpoint.
  by rewrite find_loop_records.
Qed.

Lemma find_input_endpoint_stops_at_interface_witness :
  forallb well_formed_record combo_records = true
  ∧ (length combo_records < 6)%nat
  ∧ _find_input_endpoint 6 combo_blob 18 = Ret (Some 0x81).
Proof.
  split; [reflexivity|]. split; [simpl; lia|].
  apply (find_input_endpoint_stops_at_interface combo_prefix combo_records 6);
    [reflexivity | simpl; lia].
Defined.

(** ** Classification *)

Section Classification.

Lemma ascii_lower_idem (c : ascii) : ascii_lower (ascii_lower c) = ascii_lower c.
Proof. destruct c as [[] [] [] [] [] [] [] []]; reflexivity. Qed.

Lemma lower_idem (s : string) : lower (lower s) = lower s.
Proof.
  induction s as [|c s IH]; [done|]. simpl. by rewrite ascii_lower_idem, IH.
Qed.

(** The early-return loop finds a hit exactly when some keyword occurs. *)
Lemma keyword_loop_existsb (keywords : list string) (p result : string) :
  keyword_loop keywords p result
  = if existsb (fun keyword => str_in keyword p) keywords
    then Some result else None.
Proof.
  induction keywords as [|k rest IH]; [done|]. simpl.
  destruct (str_in k p); [done|]. exact IH.
Qed.

Lemma keyword_hit_lower_case (keywords : list string) (s : string) :
  Forall (fun keyword => lower keyword = keyword) keywords →
  keyword_hit keywords s
  = existsb (fun keyword => str_in keyword (lower s)) keywords.
Proof.
  unfold keyword_hit. induction 1 as [|k rest Hk _ IH]; [done|].
  simpl. by rewrite Hk, IH.
Qed.

Lemma keywords_lower_case :
  Forall (fun keyword => lower keyword = keyword)
    (keyboard_keywords ++ mouse_keywords ++ gamepad_keywords).
Proof. repeat constructor. Qed.

Lemma product_lowered (info : interface_info) :
  lower (match Info.product info with
         | Str (String c s) => lower (String c s)
         | _ => ""
         end)
  = lower (product_string info).
Proof.
  unfold product_string. destruct (Info.product info) as [| |[|c s]]; try done.
  apply lower_idem.
Qed.

End Classification.

(** C6: [_classify_hid_device] is the four-stage, first-match-wins
    decision: the boot-protocol shortcut, then the case-insensitive keyword
    match on the product string (keyboard, mouse, gamepad keywords in that
    order), then the known vendor/product id tables, and gamepad
    otherwise. *)
Theorem classify_hid_device_staged (info : interface_info) :
  _classify_hid_device info = classification_name (classify_staged info).
Proof.
  pose proof keywords_lower_case as Hkw.
  apply Forall_app in Hkw as [Hk Hkw]. apply Forall_app in Hkw as [Hm Hg].
  unfold _classify_hid_device, classify_staged, boot_stage, keyword_stage,
    known_id_stage.
  rewrite product_lowered, !keyword_loop_existsb.
  rewrite (keyword_hit_lower_case _ _ Hk), (keyword_hit_lower_case _ _ Hm),
    (keyword_hit_lower_case _ _ Hg).
  change BOOT_SUBCLASS with 1. change KEYBOARD_PROTOCOL with 1.
  change MOUSE_PROTOCOL with 2.
  destruct (Z.eqb_spec (Info.interface_subclass info) 1) as [Hs|Hs];
    [rewrite (bool_decide_eq_true_2 _ Hs) | rewrite (bool_decide_eq_false_2 _ Hs)].
  - destruct (Z.eqb_spec (Info.interface_protocol info) 1) as [Hp|Hp];
      [rewrite (bool_decide_eq_true_2 _ Hp); reflexivity
      | rewrite (bool_decide_eq_false_2 _ Hp)].
    destruct (Z.eqb_spec (Info.interface_protocol info) 2) as [Hq|Hq];
      [rewrite (bool_decide_eq_true_2 _ Hq); reflexivity
      | rewrite (bool_decide_eq_false_2 _ Hq)].
    cbn [first_match].
    repeat (destruct (existsb _ _); [reflexivity|]).
    repeat (destruct (bool_decide _); [reflexivity|]). reflexivity.
  - cbn [first_match].
    repeat (destruct (existsb _ _); [reflexivity|]).
    repeat (destruct (bool_decide _); [reflexivity|]). reflexivity.
Qed.

(** ** Device filters *)

Section Filters.

Lemma empty_set_falsy `{Countable K} : set_truthy (Some (∅ : gset K)) = false.
Proof. unfold set_truthy. by apply bool_decide_eq_false_2; intros []. Qed.

Lemma manufacturer_lower_returns (a : attr) :
  a ≠ PyNone → ∃ s, manufacturer_lower a = Ret s.
Proof. destruct a; [by eexists| done | by eexists]. Qed.

End Filters.

(** C10: after [set_device_filter] with an empty [allowed_vids] set the
    filter decides every device as if no vendor allow-list were set, and
    likewise for an empty [allowed_manufacturers] set; with both empty and
    nothing blocked every interface whose manufacturer is a string
    passes. *)
Theorem empty_allow_list_allows_all (f : filters) (info : interface_info) :
  _device_passes_filter (set_device_filter (Some ∅) None None None f) info
  = _device_passes_filter
      {| allowed_vids := None; blocked_vids := blocked_vids f;
         allowed_manufacturers := allowed_manufacturers f;
         blocked_manufacturers := blocked_manufacturers f |} info
  ∧ _device_passes_filter (set_device_filter None None (Some ∅) None f) info
    = _device_passes_filter
        {| allowed_vids := allowed_vids f; blocked_vids := blocked_vids f;
           allowed_manufacturers := None;
           blocked_manufacturers := blocked_manufacturers f |} info
  ∧ (Info.manufacturer info ≠ PyNone →
     _device_passes_filter
       (set_device_filter (Some ∅) None (Some ∅) None initial_filters) info
     = Ret true).
Proof.
  split; [|split].
  - unfold _device_passes_filter, set_device_filter. cbn [allowed_vids
      blocked_vids allowed_manufacturers blocked_manufacturers].
    reflexivity.
  - unfold _device_passes_filter, set_device_filter. cbn [allowed_vids
      blocked_vids allowed_manufacturers blocked_manufacturers].
    destruct (manufacturer_lower (Info.manufacturer info)); [|done..].
    cbn [mbind outcome_bind].
    rewrite (set_map_empty (C:=gset string) (D:=gset string) lower).
    reflexivity.
  - intros Hm. destruct (manufacturer_lower_returns _ Hm) as [s Hs].
    unfold _device_passes_filter, set_device_filter, initial_filters.
    cbn [allowed_vids blocked_vids allowed_manufacturers blocked_manufacturers].
    rewrite Hs. cbn [mbind outcome_bind].
    rewrite (set_map_empty (C:=gset string) (D:=gset string) lower).
    change (set_truthy (Some (∅ : gset N))) with false.
    change (set_truthy (Some (∅ : gset string))) with false.
    cbn [andb].
    rewrite !bool_decide_eq_false_2 by set_solver. done.
Qed.

Lemma empty_allow_list_allows_all_witness :
  Info.manufacturer (sample_info (Str "Combo") 1 1 0x1234 0x5678) ≠ PyNone
  ∧ _device_passes_filter
      (set_device_filter (Some ∅) None (Some ∅) None initial_filters)
      (sample_info (Str "Combo") 1 1 0x1234 0x5678)
    = Ret true.
Proof.
  split; [discriminate|].
  apply (empty_allow_list_allows_all initial_filters
           (sample_info (Str "Combo") 1 1 0x1234 0x5678)).
  discriminate.
Defined.

(** ** Fetching the configuration descriptor *)

Section Fetcher.

Lemma length_fill (n : nat) (data : list byte) : length (fill n data) = n.
Proof.
  unfold fill. rewrite length_take, length_app, length_replicate. lia.
Qed.

(** For two byte values, [(hi << 8) | lo] is the little-endian sum. *)
Lemma shift_or_bytes (hi lo : Z) :
  0 ≤ hi → 0 ≤ lo < 256 → Z.lor (Z.shiftl hi 8) lo = lo + 256 * hi.
Proof.
  intros Hhi Hlo.
  assert (Hdisjoint : Z.land (Z.shiftl hi 8) lo = 0).
  { apply Z.bits_inj'. intros k Hk. rewrite Z.land_spec, Z.bits_0.
    destruct (Z.lt_ge_cases k 8) as [Hlt|Hge].
    - by rewrite Z.shiftl_spec_low.
    - apply andb_false_intro2.
      destruct (Z.eq_dec lo 0) as [->|Hnz]; [apply Z.bits_0|].
      apply Z.bits_above_log2; [lia|].
      assert (Z.log2 lo < 8); [|lia].
      apply Z.log2_lt_pow2; lia. }
  rewrite <- (Z.lxor_lor _ _ Hdisjoint), <- (Z.add_nocarry_lxor _ _ Hdisjoint).
  rewrite Z.shiftl_mul_pow2 by lia. lia.
Qed.

(** What the code reads from the probed header is [le16] at offset 2. *)
Lemma total_length_le16 (buf : list byte) :
  length buf = 9%nat →
  ∃ b2 b3, getitem buf 3 = Ret b3 ∧ getitem buf 2 = Ret b2
           ∧ Z.lor (Z.shiftl b3 8) b2 = le16 buf 2.
Proof.
  intros Hlen.
  destruct (lookup_lt_is_Some_2 buf 2) as [x2 H2]; [lia|].
  destruct (lookup_lt_is_Some_2 buf 3) as [x3 H3]; [lia|].
  exists (byte_val x2), (byte_val x3).
  rewrite (getitem_lookup _ _ _ H2), (getitem_lookup _ _ _ H3).
  repeat split. unfold le16. rewrite H2, H3. simpl.
  pose proof (byte_val_range x2). pose proof (byte_val_range x3).
  apply shift_or_bytes; lia.
Qed.

End Fetcher.

(** C5: the fetch first asks for exactly 9 bytes; a control transfer
    reports at most the bytes its buffer holds, and whenever that first
    count is not 9 the fetch fails with the [ValueError] of the length
    check.  Otherwise it decodes [wTotalLength] little-endian from bytes 2
    and 3 of the header, asks for [wTotalLength] bytes, and fails with the
    [ValueError] of the mismatch check whenever the second count is not
    [wTotalLength]; on equal counts it returns the full buffer. *)
Theorem configuration_descriptor_length_checked
    (device : Device.t) (index n : Z) (data : list byte) :
  Device.ctrl_transfer device 0x80 6 (Z.lor 0x200 index) 0 9 = Transferred n data →
  n ≤ 9 →
  let total_length := le16 (fill 9 data) 2 in
  (n ≠ 9 →
   get_configuration_descriptor device index
   = Raise (ValueError "Invalid configuration descriptor length"))
  ∧ (n = 9 →
     match Device.ctrl_transfer device 0x80 6 (Z.lor 0x200 index) 0
             (Z.to_nat total_length) with
     | TransferError => get_configuration_descriptor device index = Raise USBError
     | Transferred m full =>
       (m ≠ total_length →
        get_configuration_descriptor device index
        = Raise (ValueError "Configuration descriptor length mismatch"))
       ∧ (m = total_length →
          get_configuration_descriptor device index
          = Ret (fill (Z.to_nat total_length) full))
     end).
Proof.
  intros Hprobe Hfits total_length. split.
  - intros Hne. unfold get_configuration_descriptor, get_descriptor.
    change (Z.lor DIR_IN 0) with 0x80.
    change (Z.lor (Z.shiftl DESC_CONFIGURATION 8) index) with (Z.lor 0x200 index).
    rewrite Hprobe. cbn [mbind outcome_bind].
    by rewrite (proj2 (Z.ltb_lt n 9)) by lia.
  - intros ->.
    destruct (total_length_le16 (fill 9 data) (length_fill 9 data))
      as (b2 & b3 & H3 & H2 & Htotal).
    unfold get_configuration_descriptor, get_descriptor.
    change (Z.lor DIR_IN 0) with 0x80.
    change (Z.lor (Z.shiftl DESC_CONFIGURATION 8) index) with (Z.lor 0x200 index).
    rewrite Hprobe. cbn [mbind outcome_bind].
    change (9 <? 9) with false. cbv iota.
    rewrite H3. cbn [mbind outcome_bind].
    rewrite H2. cbn [mbind outcome_bind]. rewrite Htotal.
    fold total_length.
    destruct (Device.ctrl_transfer device 128 6 (Z.lor 512 index) 0
                (Z.to_nat total_length)) as [m full|]; [|reflexivity].
    cbn [mbind outcome_bind]. split; intros Hm.
    + by rewrite (proj2 (Z.eqb_neq m total_length) Hm).
    + by rewrite (proj2 (Z.eqb_eq m total_length) Hm).
Qed.

Lemma configuration_descriptor_length_checked_witness :
  (Device.ctrl_transfer short_read_device 0x80 6 (Z.lor 0x200 0) 0 9
   = Transferred 4 (take 4 combo_blob)
   ∧ 4 ≤ 9 ∧ 4 ≠ 9
   ∧ get_configuration_descriptor short_read_device 0
     = Raise (ValueError "Invalid configuration descriptor length"))
  ∧ (Device.ctrl_transfer combo_device 0x80 6 (Z.lor 0x200 0) 0 9
     = Transferred 9 (take 9 combo_blob)
     ∧ 9 ≤ 9
     ∧ le16 (fill 9 (take 9 combo_blob)) 2 = 59
     ∧ get_configuration_descriptor combo_device 0 = Ret combo_blob).
Proof.
  split.
  - split; [reflexivity|]. split; [lia|]. split; [lia|].
    exact (proj1 (configuration_descriptor_length_checked short_read_device 0 4
                    (take 4 combo_blob) eq_refl ltac:(lia)) ltac:(lia)).
  - split; [reflexivity|]. split; [lia|]. split; [reflexivity|].
    pose proof (proj2 (configuration_descriptor_length_checked combo_device 0 9
                         (take 9 combo_blob) eq_refl ltac:(lia)) eq_refl) as H.
    destruct H as [_ H]. exact (H eq_refl).
Defined.

(** ** Change notification *)

Section Notification.

Lemma invoke_callbacks_log (callbacks : list callback)
    (device_type action : string) (index : Z) (log : list call) :
  invoke_callbacks callbacks device_type action index log
  = log ++ map (call_of device_type action index) callbacks.
Proof.
  revert log. induction callbacks as [|c rest IH]; intros log; simpl.
  - by rewrite app_nil_r.
  - unfold call_of at 1.
    destruct (cb_run c device_type action index) as [e|];
      rewrite IH, <- app_assoc; reflexivity.
Qed.

Lemma notify_type_log (callbacks : list callback) (old_cache new_cache : cache)
    (device_type : string) (log : list call) :
  notify_type callbacks old_cache new_cache device_type log
  = log ++ bucket_calls callbacks old_cache new_cache device_type.
Proof.
  unfold notify_type, bucket_calls. cbv zeta.
  repeat case_match; rewrite ?invoke_callbacks_log, ?app_nil_r; reflexivity.
Qed.

Lemma notify_log (callbacks : list callback) (old_cache new_cache : cache)
    (log : list call) :
  _notify_device_changes callbacks old_cache new_cache log
  = log ++ bucket_calls callbacks old_cache new_cache "keyboards"
        ++ bucket_calls callbacks old_cache new_cache "mice"
        ++ bucket_calls callbacks old_cache new_cache "gamepads".
Proof.
  unfold _notify_device_changes, device_types. simpl.
  rewrite !notify_type_log, <- !app_assoc. reflexivity.
Qed.

Lemma filter_calls_other_type (id : nat) (t t' action : string) (index : Z)
    (callbacks : list callback) :
  t ≠ t' →
  List.filter (call_is_for id t) (map (call_of t' action index) callbacks) = [].
Proof.
  intros Hne. induction callbacks as [|c rest IH]; [done|]. simpl.
  unfold call_is_for at 1. simpl.
  rewrite (proj2 (String.eqb_neq t' t)) by congruence.
  by rewrite andb_false_r.
Qed.

Lemma filter_calls_other_id (id : nat) (t action : string) (index : Z)
    (callbacks : list callback) :
  id ∉ cb_id <$> callbacks →
  List.filter (call_is_for id t) (map (call_of t action index) callbacks) = [].
Proof.
  induction callbacks as [|c rest IH]; [done|]. intros Hnot.
  rewrite fmap_cons, not_elem_of_cons in Hnot. destruct Hnot as [Hne Hrest].
  simpl. unfold call_is_for at 1. simpl.
  rewrite (proj2 (Nat.eqb_neq (cb_id c) id)) by congruence.
  simpl. by apply IH.
Qed.

Lemma filter_calls_own (cb : callback) (t action : string) (index : Z)
    (callbacks : list callback) :
  NoDup (cb_id <$> callbacks) → cb ∈ callbacks →
  List.filter (call_is_for (cb_id cb) t) (map (call_of t action index) callbacks)
  = [call_of t action index cb].
Proof.
  induction callbacks as [|c rest IH]; intros Hnd Hin.
  - by apply elem_of_nil in Hin.
  - rewrite fmap_cons in Hnd. apply NoDup_cons in Hnd as [Hfresh Hnd].
    simpl. unfold call_is_for at 1. simpl. rewrite String.eqb_refl, andb_true_r.
    apply elem_of_cons in Hin as [->|Hin].
    + rewrite Nat.eqb_refl. by rewrite filter_calls_other_id.
    + assert (cb_id c ≠ cb_id cb) as Hne.
      { intros Heq. apply Hfresh. rewrite Heq. by apply list_elem_of_fmap_2. }
      rewrite (proj2 (Nat.eqb_neq _ _) Hne). by apply IH.
Qed.

Lemma filter_bucket_calls_other (id : nat) (t : string)
    (callbacks : list callback) (old_cache new_cache : cache)
    (device_type : string) :
  t ≠ drop_last device_type →
  List.filter (call_is_for id t)
    (bucket_calls callbacks old_cache new_cache device_type) = [].
Proof.
  intros Hne. unfold bucket_calls. cbv zeta.
  repeat case_match; try done; by apply filter_calls_other_type.
Qed.

(** Registration keeps the callback identities distinct, which is what the
    notification theorem asks of the list. *)
Lemma register_keeps_ids_distinct (cb : callback) (st : state) :
  NoDup (cb_id <$> _device_change_callbacks st) →
  NoDup (cb_id <$> _device_change_callbacks
                     (register_device_change_callback cb st)).
Proof.
  intros Hnd. unfold register_device_change_callback.
  destruct (existsb _ _) eqn:Hex; [done|]. simpl.
  rewrite fmap_app. apply NoDup_app. split; [done|]. split.
  - intros id Hin Hnew. apply list_elem_of_singleton in Hnew as ->.
    apply list_elem_of_fmap in Hin as (c & Hid & Hc).
    assert (existsb (fun c => Nat.eqb (cb_id c) (cb_id cb))
              (_device_change_callbacks st) = true) as Htrue.
    { apply existsb_exists. exists c. split; [by apply list_elem_of_In|].
      apply Nat.eqb_eq. congruence. }
    congruence.
  - apply NoDup_singleton.
Qed.

End Notification.

Section RebuildNotification.

Lemma filter_id_other (id : nat) (t action : string) (index : Z)
    (callbacks : list callback) :
  id ∉ cb_id <$> callbacks →
  List.filter (fun c => Nat.eqb (call_cb c) id)
    (map (call_of t action index) callbacks) = [].
Proof.
  induction callbacks as [|c rest IH]; [done|]. intros Hnot.
  rewrite fmap_cons, not_elem_of_cons in Hnot. destruct Hnot as [Hne Hrest].
  simpl. rewrite (proj2 (Nat.eqb_neq (cb_id c) id)) by congruence.
  by apply IH.
Qed.

Lemma filter_id_own (cb : callback) (t action : string) (index : Z)
    (callbacks : list callback) :
  NoDup (cb_id <$> callbacks) → cb ∈ callbacks →
  List.filter (fun c => Nat.eqb (call_cb c) (cb_id cb))
    (map (call_of t action index) callbacks)
  = [call_of t action index cb].
Proof.
  induction callbacks as [|c rest IH]; intros Hnd Hin.
  - by apply elem_of_nil in Hin.
  - rewrite fmap_cons in Hnd. apply NoDup_cons in Hnd as [Hfresh Hnd].
    simpl. apply elem_of_cons in Hin as [->|Hin].
    + rewrite Nat.eqb_refl. by rewrite filter_id_other.
    + assert (cb_id c ≠ cb_id cb) as Hne.
      { intros Heq. apply Hfresh. rewrite Heq. by apply list_elem_of_fmap_2. }
      rewrite (proj2 (Nat.eqb_neq _ _) Hne). by apply IH.
Qed.

(** What one callback hears of one bucket, by action and index. *)
Lemma bucket_calls_events (cb : callback) (callbacks : list callback)
    (old_cache new_cache : cache) (device_type : string) :
  NoDup (cb_id <$> callbacks) → cb ∈ callbacks →
  map (fun c => (call_action c, call_index c))
    (List.filter (fun c => Nat.eqb (call_cb c) (cb_id cb))
       (bucket_calls callbacks old_cache new_cache device_type))
  = bucket_events old_cache new_cache device_type.
Proof.
  intros Hnd Hin. unfold bucket_calls, bucket_events. cbv zeta.
  repeat case_match; try done; by rewrite filter_id_own.
Qed.

(** The calls one callback receives under a given name, from the bucket
    that passes that name. *)
Lemma bucket_calls_named (cb : callback) (callbacks : list callback)
    (old_cache new_cache : cache) (device_type : string) :
  NoDup (cb_id <$> callbacks) → cb ∈ callbacks →
  List.filter (call_is_for (cb_id cb) (drop_last device_type))
    (bucket_calls callbacks old_cache new_cache device_type)
  = map (fun ev => call_of (drop_last device_type) ev.1 ev.2 cb)
      (bucket_events old_cache new_cache device_type).
Proof.
  intros Hnd Hin. unfold bucket_calls, bucket_events. cbv zeta.
  repeat case_match; try done; by rewrite filter_calls_own.
Qed.

(** A refresh that rebuilds and whose scan returns appends exactly the
    notification of the registered callbacks to the log, and returns. *)
Lemma rebuild_log (force : bool) (e : env) (st : state) :
  negb force && cache_is_fresh st (monotonic e) = false →
  (scan_all e (_device_filters st) (cleared (_device_cache st))).2 = Ret () →
  (_refresh_device_cache force e st).2 = Ret ()
  ∧ calls (_refresh_device_cache force e st).1
    = calls st
      ++ match _device_change_callbacks st with
         | [] => []
         | callbacks =>
           bucket_calls callbacks (_device_cache st)
             (_device_cache (_refresh_device_cache force e st).1) "keyboards"
           ++ bucket_calls callbacks (_device_cache st)
                (_device_cache (_refresh_device_cache force e st).1) "mice"
           ++ bucket_calls callbacks (_device_cache st)
                (_device_cache (_refresh_device_cache force e st).1) "gamepads"
         end.
Proof.
  intros Hgate. unfold _refresh_device_cache. rewrite Hgate.
  destruct (scan_all e (_device_filters st) (cleared (_device_cache st)))
    as [c r]. simpl. intros ->. split; [done|]. simpl.
  destruct (_device_change_callbacks st) as [|cb cbs];
    [by rewrite app_nil_r|].
  by rewrite notify_log.
Qed.

End RebuildNotification.

(** C3, as amended: when a refresh rebuilds the cache and its scan
    returns, the refresh returns whatever the callbacks do, and the calls
    it adds to the log are the notification of the rebuild: every
    registered callback is invoked, per bucket in the order keyboards,
    mice, gamepads, exactly once for a bucket whose size changed (not once
    per unit of the difference) and not at all for an unchanged one, with
    ['added'] and the last new index when the bucket grew and ['removed']
    and the last old index when it shrank; for the keyboards and the
    gamepads bucket the first argument is ['keyboard'] and ['gamepad'].
    A raising callback stops neither the callbacks after it nor the
    refresh. *)
Theorem rebuild_notifies_once_per_changed_bucket
    (force : bool) (e : env) (st : state) (cb : callback) :
  negb force && cache_is_fresh st (monotonic e) = false →
  (scan_all e (_device_filters st) (cleared (_device_cache st))).2 = Ret () →
  NoDup (cb_id <$> _device_change_callbacks st) →
  cb ∈ _device_change_callbacks st →
  let st' := (_refresh_device_cache force e st).1 in
  let old_cache := _device_cache st in
  let new_cache := _device_cache st' in
  (_refresh_device_cache force e st).2 = Ret ()
  ∧ ∃ new_calls,
      calls st' = calls st ++ new_calls
      ∧ map (fun c => (call_action c, call_index c))
          (List.filter (fun c => Nat.eqb (call_cb c) (cb_id cb)) new_calls)
        = bucket_events old_cache new_cache "keyboards"
          ++ bucket_events old_cache new_cache "mice"
          ++ bucket_events old_cache new_cache "gamepads"
      ∧ List.filter (call_is_for (cb_id cb) "keyboard") new_calls
        = map (fun ev => call_of "keyboard" ev.1 ev.2 cb)
            (bucket_events old_cache new_cache "keyboards")
      ∧ List.filter (call_is_for (cb_id cb) "gamepad") new_calls
        = map (fun ev => call_of "gamepad" ev.1 ev.2 cb)
            (bucket_events old_cache new_cache "gamepads").
Proof.
  intros Hgate Hscan Hnd Hin st' old_cache new_cache.
  destruct (rebuild_log force e st Hgate Hscan) as [Hret Hlog].
  split; [exact Hret|]. fold st' in Hlog. fold new_cache in Hlog.
  fold old_cache in Hlog.
  destruct (_device_change_callbacks st) as [|c0 cbs] eqn:Hcbs;
    [by apply elem_of_nil in Hin|].
  eexists. split; [exact Hlog|]. split; [|split].
  - rewrite !List.filter_app, !map_app.
    by rewrite !(bucket_calls_events cb (c0 :: cbs)).
  - pose proof (bucket_calls_named cb (c0 :: cbs) old_cache new_cache
                  "keyboards" Hnd Hin) as Hown.
    change (drop_last "keyboards") with "keyboard" in Hown.
    rewrite !List.filter_app, Hown.
    rewrite !filter_bucket_calls_other by (simpl; discriminate).
    by rewrite !app_nil_r.
  - pose proof (bucket_calls_named cb (c0 :: cbs) old_cache new_cache
                  "gamepads" Hnd Hin) as Hown.
    change (drop_last "gamepads") with "gamepad" in Hown.
    rewrite !List.filter_app, Hown.
    by rewrite !filter_bucket_calls_other by (simpl; discriminate).
Qed.

Lemma rebuild_notifies_once_per_changed_bucket_witness :
  negb true
  && cache_is_fresh watched_state
       (monotonic (started [combo_device; second_combo_device] 5)) = false
  ∧ (scan_all (started [combo_device; second_combo_device] 5)
       (_device_filters watched_state)
       (cleared (_device_cache watched_state))).2 = Ret ()
  ∧ NoDup (cb_id <$> _device_change_callbacks watched_state)
  ∧ quiet_callback ∈ _device_change_callbacks watched_state
  ∧ (_refresh_device_cache true (started [combo_device; second_combo_device] 5)
       watched_state).2 = Ret ()
  ∧ bucket_events (_device_cache watched_state)
      (_device_cache
         (_refresh_device_cache true
            (started [combo_device; second_combo_device] 5) watched_state).1)
      "keyboards"
    = [("added", 1)].
Proof.
  assert (H1 : negb true
               && cache_is_fresh watched_state
                    (monotonic (started [combo_device; second_combo_device] 5))
               = false) by reflexivity.
  assert (H2 : (scan_all (started [combo_device; second_combo_device] 5)
                  (_device_filters watched_state)
                  (cleared (_device_cache watched_state))).2 = Ret ())
    by (vm_compute; reflexivity).
  assert (H3 : NoDup (cb_id <$> _device_change_callbacks watched_state)).
  { apply (bool_decide_unpack _). vm_compute. exact I. }
  assert (H4 : quiet_callback ∈ _device_change_callbacks watched_state).
  { apply list_elem_of_further, list_elem_of_here. }
  split; [exact H1|]. split; [exact H2|]. split; [exact H3|].
  split; [exact H4|]. split.
  - exact (proj1 (rebuild_notifies_once_per_changed_bucket true
                    (started [combo_device; second_combo_device] 5)
                    watched_state quiet_callback H1 H2 H3 H4)).
  - vm_compute. reflexivity.
Defined.

(** C3 as stated fails: a rebuild that takes the keyboards bucket from 0
    to 3 entries invokes a registered callback for keyboards once, with
    index 2, not three times; and a rebuild cut short by the [ValueError]
    of a short descriptor read changes a bucket's size and invokes no
    callback at all. *)
Lemma rebuild_does_not_notify_per_unit :
  (let st' := (force_refresh
                 (started [combo_device; second_combo_device;
                           third_combo_device] 5) watched_state).1 in
   bucket_count (_device_cache st') "keyboards"
   - bucket_count (_device_cache watched_state) "keyboards" = 3
   ∧ List.filter (call_is_for (cb_id quiet_callback) "keyboard") (calls st')
     = [call_of "keyboard" "added" 2 quiet_callback]
   ∧ length (List.filter (call_is_for (cb_id quiet_callback) "keyboard")
               (calls st')) ≠ 3%nat)
  ∧ (let r := force_refresh (started [combo_device; short_read_device] 5)
                watched_state in
     bucket_count (_device_cache r.1) "keyboards"
     - bucket_count (_device_cache watched_state) "keyboards" = 1
     ∧ r.2 = Raise (ValueError "Invalid configuration descriptor length")
     ∧ calls r.1 = []).
Proof.
  vm_compute. split.
  - split; [reflexivity|]. split; [reflexivity|]. discriminate.
  - split; [reflexivity|]. split; reflexivity.
Qed.

(** ** Invalid arguments *)

Section InvalidArguments.

Lemma get_info_in_negative select (index : Z) (e : env) (st : state) :
  index < 0 →
  get_info_in select index e st
  = (st, Raise (IndexError "Device index cannot be negative")).
Proof. intros H. unfold get_info_in. by rewrite (proj2 (Z.ltb_lt _ _) H). Qed.

Lemma get_device_in_negative select (index : Z) (e : env) (st : state) :
  index < 0 →
  get_device_in select index e st
  = (st, Raise (IndexError "Device index cannot be negative")).
Proof. intros H. unfold get_device_in. by rewrite (proj2 (Z.ltb_lt _ _) H). Qed.

(** Whatever getter the type selects, a negative index makes it raise
    before the cache is touched. *)
Lemma device_getter_negative (device_type : string) getter (index : Z)
    (e : env) (st : state) :
  index < 0 → device_getter device_type = Some getter →
  getter index e st = (st, Raise (IndexError "Device index cannot be negative")).
Proof.
  intros H. unfold device_getter. repeat case_match; intros [= <-];
    by apply get_device_in_negative.
Qed.

Lemma unknown_type_eqb (device_type : string) :
  device_type ∉ ["keyboard"; "mouse"; "gamepad"] →
  String.eqb device_type "keyboard" = false
  ∧ String.eqb device_type "mouse" = false
  ∧ String.eqb device_type "gamepad" = false.
Proof.
  intros H. rewrite !not_elem_of_cons in H. destruct H as (H1 & H2 & H3 & _).
  by rewrite !String.eqb_neq.
Qed.

End InvalidArguments.

(** C4, as amended: with a negative index the info and device getters and
    [get_info] raise [IndexError] before touching the cache, and [get_info]
    raises [ValueError] for an unrecognised type; [is_composite_device],
    [get_companion_interfaces] and [is_device_connected] catch these errors
    and return [(False, [])], [{}] and [False] instead. *)
Theorem invalid_arguments_by_operation
    (index : Z) (unknown : string) (e : env) (st : state) :
  index < 0 →
  unknown ∉ ["keyboard"; "mouse"; "gamepad"] →
  let negative := IndexError "Device index cannot be negative" in
  (get_keyboard_info index e st = (st, Raise negative)
   ∧ get_mouse_info index e st = (st, Raise negative)
   ∧ get_gamepad_info index e st = (st, Raise negative)
   ∧ get_keyboard_device index e st = (st, Raise negative)
   ∧ get_mouse_device index e st = (st, Raise negative)
   ∧ get_gamepad_device index e st = (st, Raise negative))
  ∧ (∀ device_type, device_type ∈ ["keyboard"; "mouse"; "gamepad"] →
       get_info device_type index e st = (st, Raise negative))
  ∧ (∀ i, ∃ msg, get_info unknown i e st = (st, Raise (ValueError msg)))
  ∧ (∀ device_type,
       is_composite_device device_type index e st = (st, Ret (false, []))
       ∧ get_companion_interfaces device_type index e st = (st, Ret ∅)
       ∧ is_device_connected device_type index e st = (st, Ret false))
  ∧ (∀ i,
       is_composite_device unknown i e st = (st, Ret (false, []))
       ∧ get_companion_interfaces unknown i e st = (st, Ret ∅)
       ∧ is_device_connected unknown i e st = (st, Ret false)).
Proof.
  intros Hneg Hunknown negative.
  destruct (unknown_type_eqb unknown Hunknown) as (Hk & Hm & Hg).
  split; [|split; [|split; [|split]]].
  - unfold get_keyboard_info, get_mouse_info, get_gamepad_info,
      get_keyboard_device, get_mouse_device, get_gamepad_device.
    rewrite !get_info_in_negative, !get_device_in_negative by done. done.
  - intros device_type Hin. unfold get_info,
      get_keyboard_info, get_mouse_info, get_gamepad_info.
    repeat (apply elem_of_cons in Hin as [->|Hin]);
      [| | |by apply elem_of_nil in Hin]; simpl;
      by apply get_info_in_negative.
  - intros i. unfold get_info. rewrite Hk, Hm, Hg. by eexists.
  - intros device_type.
    unfold is_composite_device, get_companion_interfaces, is_device_connected.
    destruct (device_getter device_type) as [getter|] eqn:Hgetter; [|done].
    by rewrite (device_getter_negative device_type getter index e st Hneg Hgetter).
  - intros i.
    unfold is_composite_device, get_companion_interfaces, is_device_connected,
      device_getter.
    by rewrite Hk, Hm, Hg.
Qed.

Lemma invalid_arguments_by_operation_witness :
  -1 < 0
  ∧ ("trackball" ∉ ["keyboard"; "mouse"; "gamepad"])
  ∧ get_keyboard_info (-1) (started [combo_device] 0) initial_state
    = (initial_state, Raise (IndexError "Device index cannot be negative")).
Proof.
  assert (Hneg : -1 < 0) by lia.
  assert (Hunknown : "trackball" ∉ ["keyboard"; "mouse"; "gamepad"]).
  { rewrite !not_elem_of_cons. repeat split; try discriminate. apply not_elem_of_nil. }
  split; [exact Hneg|]. split; [exact Hunknown|].
  exact (proj1 (proj1 (invalid_arguments_by_operation (-1) "trackball"
                         (started [combo_device] 0) initial_state
                         Hneg Hunknown))).
Defined.

(** C4 as stated fails: three query operations swallow the negative index
    and the unrecognised name and return an empty answer. *)
Lemma invalid_arguments_swallowed :
  (is_composite_device "keyboard" (-1) (started [combo_device] 0) initial_state).2
  = Ret (false, [])
  ∧ (get_companion_interfaces "mouse" (-1) (started [combo_device] 0)
       initial_state).2 = Ret ∅
  ∧ (is_device_connected "gamepad" (-1) (started [combo_device] 0)
       initial_state).2 = Ret false
  ∧ (is_composite_device "trackball" 0 (started [combo_device] 0)
       initial_state).2 = Ret (false, []).
Proof. repeat split; reflexivity. Qed.

(** ** The time-to-live gate *)

Section Freshness.

Lemma refresh_when_fresh (e : env) (st : state) :
  cache_is_fresh st (monotonic e) = true →
  _refresh_device_cache false e st = (st, Ret ()).
Proof. intros H. unfold _refresh_device_cache. by rewrite H. Qed.

(** Past the gate the enumeration runs once, whatever it yields. *)
Lemma refresh_scans_once (force : bool) (e : env) (st : state) :
  negb force && cache_is_fresh st (monotonic e) = false →
  scans (_refresh_device_cache force e st).1 = S (scans st)
  ∧ _cache_timeout (_refresh_device_cache force e st).1 = _cache_timeout st.
Proof.
  intros H. unfold _refresh_device_cache. rewrite H.
  destruct (scan_all e (_device_filters st) (cleared (_device_cache st)))
    as [c [[]|x|]]; done.
Qed.

Lemma refresh_returned (force : bool) (e : env) (st : state) :
  negb force && cache_is_fresh st (monotonic e) = false →
  returns (_refresh_device_cache force e st).2 = true →
  last_scan (_device_cache (_refresh_device_cache force e st).1)
  = Some (monotonic e).
Proof.
  intros H. unfold _refresh_device_cache. rewrite H.
  destruct (scan_all e (_device_filters st) (cleared (_device_cache st)))
    as [c [[]|x|]]; done.
Qed.

Lemma zero_timeout_never_fresh (st : state) (now : Z) :
  _cache_timeout st = 0 → cache_is_fresh st now = false.
Proof.
  intros H. unfold cache_is_fresh. rewrite H.
  by destruct (last_scan (_device_cache st)).
Qed.

Lemma within_window_fresh (st : state) (now last : Z) :
  last_scan (_device_cache st) = Some last →
  0 < _cache_timeout st → now - last < _cache_timeout st →
  cache_is_fresh st now = true.
Proof.
  intros Hl Ht Hw. unfold cache_is_fresh. rewrite Hl.
  apply andb_true_intro. split; [by apply Z.gtb_lt | by apply Z.ltb_lt].
Qed.

Lemma count_in_refresh select (refresh : bool) (e : env) (st : state) :
  (count_in select refresh e st).1 = (_refresh_device_cache refresh e st).1
  ∧ returns (count_in select refresh e st).2
    = returns (_refresh_device_cache refresh e st).2.
Proof.
  unfold count_in. by destruct (_refresh_device_cache refresh e st) as [st' [[]|x|]].
Qed.

Lemma get_info_in_refresh select (index : Z) (e : env) (st : state) :
  0 ≤ index →
  (get_info_in select index e st).1 = (_refresh_device_cache false e st).1.
Proof.
  intros H. unfold get_info_in. rewrite (proj2 (Z.ltb_ge _ _) H).
  by destruct (_refresh_device_cache false e st) as [st' [[]|x|]].
Qed.

Lemma get_device_in_refresh select (index : Z) (e : env) (st : state) :
  0 ≤ index →
  (get_device_in select index e st).1 = (_refresh_device_cache false e st).1.
Proof.
  intros H. unfold get_device_in. rewrite (proj2 (Z.ltb_ge _ _) H).
  by destruct (_refresh_device_cache false e st) as [st' [[]|x|]].
Qed.

End Freshness.

(** C7: with a timeout of 0 every query (any count, and any info or device
    getter with a valid index) runs the enumeration once; with a positive
    timeout and the last scan inside the window a query returns the cache
    as it is, without scanning; so two counts in immediate succession, the
    first of which finds the cache stale and returns, scan exactly once;
    and a forced refresh always scans. *)
Theorem cache_timeout_gates_scans
    (select : cache → list interface_info) (e1 e2 : env) (st : state) :
  (∀ index, 0 ≤ index →
     let st0 := set_cache_timeout 0 st in
     scans (_refresh_device_cache false e1 st0).1 = S (scans st0)
     ∧ scans (count_in select false e1 st0).1 = S (scans st0)
     ∧ scans (get_info_in select index e1 st0).1 = S (scans st0)
     ∧ scans (get_device_in select index e1 st0).1 = S (scans st0)
     ∧ _cache_timeout (count_in select false e1 st0).1 = 0)
  ∧ (∀ last, last_scan (_device_cache st) = Some last →
       0 < _cache_timeout st → monotonic e1 - last < _cache_timeout st →
       _refresh_device_cache false e1 st = (st, Ret ())
       ∧ count_in select false e1 st
         = (st, Ret (Z.of_nat (length (select (_device_cache st))))))
  ∧ (0 < _cache_timeout st →
     cache_is_fresh st (monotonic e1) = false →
     returns (count_in select false e1 st).2 = true →
     monotonic e2 - monotonic e1 < _cache_timeout st →
     scans (count_in select false e2 (count_in select false e1 st).1).1
     = S (scans st))
  ∧ scans (force_refresh e1 st).1 = S (scans st).
Proof.
  split; [|split; [|split]].
  - intros index Hindex st0.
    assert (Hzero : _cache_timeout st0 = 0) by reflexivity.
    assert (Hstale : negb false && cache_is_fresh st0 (monotonic e1) = false)
      by (by rewrite zero_timeout_never_fresh).
    destruct (refresh_scans_once false e1 st0 Hstale) as [Hscan Htimeout].
    rewrite (proj1 (count_in_refresh select false e1 st0)),
      (get_info_in_refresh select index e1 st0 Hindex),
      (get_device_in_refresh select index e1 st0 Hindex).
    repeat split; try exact Hscan. by rewrite Htimeout.
  - intros last Hlast Hpos Hwindow.
    pose proof (within_window_fresh st (monotonic e1) last Hlast Hpos Hwindow)
      as Hfresh.
    unfold count_in. by rewrite (refresh_when_fresh e1 st Hfresh).
  - intros Hpos Hstale Hret Hwindow.
    destruct (count_in_refresh select false e1 st) as [Hst Hr].
    rewrite Hr in Hret. rewrite Hst.
    destruct (refresh_scans_once false e1 st Hstale) as [Hscan Htimeout].
    pose proof (refresh_returned false e1 st Hstale Hret) as Hlast.
    rewrite (proj1 (count_in_refresh select false e2 _)).
    rewrite refresh_when_fresh; [exact Hscan|].
    apply (within_window_fresh _ _ (monotonic e1)); [done| |]; by rewrite Htimeout.
  - unfold force_refresh. by apply refresh_scans_once.
Qed.

Lemma cache_timeout_gates_scans_witness :
  0 < _cache_timeout initial_state
  ∧ cache_is_fresh initial_state (monotonic (started [combo_device] 5)) = false
  ∧ returns (count_in keyboards false (started [combo_device] 5) initial_state).2
    = true
  ∧ monotonic (started [combo_device] 6) - monotonic (started [combo_device] 5)
    < _cache_timeout initial_state
  ∧ scans (count_in keyboards false (started [combo_device] 6)
             (count_in keyboards false (started [combo_device] 5)
                initial_state).1).1
    = 1%nat.
Proof.
  assert (H1 : 0 < _cache_timeout initial_state) by (simpl; lia).
  assert (H2 : cache_is_fresh initial_state (monotonic (started [combo_device] 5))
               = false) by reflexivity.
  assert (H3 : returns (count_in keyboards false (started [combo_device] 5)
                          initial_state).2 = true) by (vm_compute; reflexivity).
  assert (H4 : monotonic (started [combo_device] 6)
               - monotonic (started [combo_device] 5)
               < _cache_timeout initial_state) by (simpl; lia).
  repeat (split; [assumption|]).
  exact (proj1 (proj2 (proj2 (cache_timeout_gates_scans keyboards
                                (started [combo_device] 5)
                                (started [combo_device] 6) initial_state)))
           H1 H2 H3 H4).
Defined.

(** ** Refreshing twice *)

Section Idempotence.

(** The scan never reads [last_scan]: it commutes with restamping. *)
Lemma store_best_stamp (l : option Z) (c : cache) (device : Device.t)
    (device_type : string) (best : interface_info) :
  store_best (with_last_scan l c) device device_type best
  = with_last_scan l (store_best c device device_type best).
Proof.
  unfold store_best, _device_already_cached, bucket. simpl.
  repeat case_match; reflexivity.
Qed.

Lemma store_loop_stamp (l : option Z) (device : Device.t)
    (items : list (string * list interface_info)) (c : cache) :
  store_loop device items (with_last_scan l c)
  = ((with_last_scan l (store_loop device items c).1),
     (store_loop device items c).2).
Proof.
  revert c. induction items as [|[t ifaces] rest IH]; intros c; [done|].
  simpl. destruct (_select_best_interface_for_type ifaces t); [|done..].
  by rewrite store_best_stamp, IH.
Qed.

Lemma analyze_body_stamp (l : option Z) (n : nat) (f : filters)
    (device : Device.t) (c : cache) :
  analyze_body n f device (with_last_scan l c)
  = ((with_last_scan l (analyze_body n f device c).1),
     (analyze_body n f device c).2).
Proof.
  unfold analyze_body.
  destruct (get_configuration_descriptor device 0) as [cfg|x|]; [|done..].
  destruct (analyze_loop n f device cfg 0 []) as [[|i hid]|x|]; [done| |done..].
  rewrite store_loop_stamp.
  destruct (store_loop device (classify_interfaces (i :: hid)) c)
    as [c' [[]|x|]]; simpl; [|done..].
  by case_bool_decide.
Qed.

Lemma analyze_device_stamp (l : option Z) (n : nat) (f : filters)
    (device : Device.t) (c : cache) :
  _analyze_device n f device (with_last_scan l c)
  = ((with_last_scan l (_analyze_device n f device c).1),
     (_analyze_device n f device c).2).
Proof.
  unfold _analyze_device. rewrite analyze_body_stamp.
  destruct (analyze_body n f device c) as [c' [[]|[]|]]; reflexivity.
Qed.

Lemma scan_devices_stamp (l : option Z) (n : nat) (f : filters)
    (devices : list Device.t) (c : cache) :
  scan_devices n f devices (with_last_scan l c)
  = ((with_last_scan l (scan_devices n f devices c).1),
     (scan_devices n f devices c).2).
Proof.
  revert c. induction devices as [|d rest IH]; intros c; [done|].
  simpl. rewrite analyze_device_stamp.
  destruct (_analyze_device n f d c) as [c' [[]|x|]]; simpl; [|done..].
  apply IH.
Qed.

Lemma scan_all_stamp (l : option Z) (e : env) (f : filters) (c : cache) :
  scan_all e f (with_last_scan l c)
  = ((with_last_scan l (scan_all e f c).1), (scan_all e f c).2).
Proof.
  unfold scan_all. destruct (usb_core_find e) as [devices|x|].
  - rewrite scan_devices_stamp.
    destruct (scan_devices (fuel e) f devices c) as [c' [[]|[]|]]; reflexivity.
  - destruct x; reflexivity.
  - reflexivity.
Qed.

(** The scan depends on the environment through the devices found and the
    loop budget only. *)
Lemma scan_all_env (e1 e2 : env) (f : filters) (c : cache) :
  usb_core_find e2 = usb_core_find e1 → fuel e2 = fuel e1 →
  scan_all e2 f c = scan_all e1 f c.
Proof. intros Hfind Hfuel. unfold scan_all. by rewrite Hfind, Hfuel. Qed.

Lemma cleared_stamp (c : cache) :
  cleared c = with_last_scan (last_scan c) (cleared initial_cache).
Proof. reflexivity. Qed.

Lemma notify_same_counts (callbacks : list callback)
    (old_cache new_cache : cache) (log : list call) :
  length (keyboards new_cache) = length (keyboards old_cache) →
  length (mice new_cache) = length (mice old_cache) →
  length (gamepads new_cache) = length (gamepads old_cache) →
  _notify_device_changes callbacks old_cache new_cache log = log.
Proof.
  intros Hk Hm Hg. rewrite notify_log. unfold bucket_calls, bucket_count.
  simpl. rewrite Hk, Hm, Hg.
  rewrite ?Z.gtb_ltb, ?Z.ltb_irrefl. simpl. by rewrite !app_nil_r.
Qed.

End Idempotence.

(** C8: when the devices found are unchanged and the first forced refresh
    terminates, a second forced refresh leaves the keyboard, mouse and
    gamepad buckets identical, ends the same way, and invokes no change
    callback. *)
Theorem forced_refresh_twice (e1 e2 : env) (st : state) :
  usb_core_find e2 = usb_core_find e1 →
  fuel e2 = fuel e1 →
  (force_refresh e1 st).2 ≠ Diverge →
  let st1 := (force_refresh e1 st).1 in
  let st2 := (force_refresh e2 st1).1 in
  keyboards (_device_cache st2) = keyboards (_device_cache st1)
  ∧ mice (_device_cache st2) = mice (_device_cache st1)
  ∧ gamepads (_device_cache st2) = gamepads (_device_cache st1)
  ∧ calls st2 = calls st1
  ∧ (force_refresh e2 st1).2 = (force_refresh e1 st).2.
Proof.
  intros Hfind Hfuel Hterm st1 st2. subst st1 st2. revert Hterm.
  unfold force_refresh, _refresh_device_cache. cbn [negb andb].
  rewrite (cleared_stamp (_device_cache st)), scan_all_stamp.
  destruct (scan_all e1 (_device_filters st) (cleared initial_cache))
    as [c0 r0] eqn:Hscan.
  destruct r0 as [[]|x|]; cbn [fst snd]; intros Hterm; [| |done].
  - cbn [_device_cache _device_filters _device_change_callbacks calls].
    rewrite cleared_stamp, scan_all_stamp, (scan_all_env e1 e2) by done.
    rewrite Hscan. cbn [fst snd _device_cache calls keyboards mice gamepads
                          with_last_scan].
    repeat split.
    destruct (_device_change_callbacks st) as [|cb cbs]; [done|].
    by apply notify_same_counts.
  - cbn [_device_cache _device_filters _device_change_callbacks calls].
    rewrite cleared_stamp, scan_all_stamp, (scan_all_env e1 e2) by done.
    rewrite Hscan. done.
Qed.

Lemma forced_refresh_twice_witness :
  usb_core_find (started [combo_device] 9) = usb_core_find (started [combo_device] 5)
  ∧ fuel (started [combo_device] 9) = fuel (started [combo_device] 5)
  ∧ (force_refresh (started [combo_device] 5)
       (register_device_change_callback quiet_callback initial_state)).2
    ≠ Diverge
  ∧ calls (force_refresh (started [combo_device] 9)
             (force_refresh (started [combo_device] 5)
                (register_device_change_callback quiet_callback
                   initial_state)).1).1
    = calls (force_refresh (started [combo_device] 5)
               (register_device_change_callback quiet_callback
                  initial_state)).1.
Proof.
  assert (Hterm : (force_refresh (started [combo_device] 5)
                     (register_device_change_callback quiet_callback
                        initial_state)).2 ≠ Diverge)
    by (vm_compute; discriminate).
  split; [reflexivity|]. split; [reflexivity|]. split; [exact Hterm|].
  exact (proj1 (proj2 (proj2 (proj2 (forced_refresh_twice
           (started [combo_device] 5) (started [combo_device] 9)
           (register_device_change_callback quiet_callback initial_state)
           eq_refl eq_refl Hterm))))).
Defined.

(** ** Device ids and companion lookup *)

Section DeviceIds.

Lemma string_length_app (s t : string) :
  String.length (s +:+ t) = (String.length s + String.length t)%nat.
Proof. induction s as [|c s IH]; simpl; [done|]. by rewrite IH. Qed.

Lemma length_spaces (n : nat) : String.length (spaces n) = n.
Proof. induction n as [|n IH]; simpl; [done|]. by rewrite IH. Qed.

(** The two f-strings never agree on a device: the ids differ in
    length by five blanks. *)
Lemma device_ids_differ (device : Device.t) :
  analysis_device_id device ≠ lookup_device_id device.
Proof.
  intros Heq. apply (f_equal String.length) in Heq. revert Heq.
  unfold analysis_device_id, lookup_device_id.
  rewrite !string_length_app, !length_spaces. simpl. lia.
Qed.

End DeviceIds.

(** C1 at a device with a boot keyboard and a boot mouse interface: the
    scan files the keyboard and the mouse interface and records the
    composite device with both classifications, but the id under which it
    is recorded is never the id the lookup computes, so
    [get_companion_interfaces('keyboard', 0)] returns the empty mapping and
    [is_composite_device('keyboard', 0)] answers [(False, [])]. *)
Theorem companion_lookup_misses_recorded_composite :
  (∀ device, analysis_device_id device ≠ lookup_device_id device)
  ∧ let st := (force_refresh (started [combo_device] 5) initial_state).1 in
    (Composite.types <$>
       composite_devices (_device_cache st) !! analysis_device_id combo_device)
    = Some ["keyboard"; "mouse"]
    ∧ map Info.interface_index (keyboards (_device_cache st)) = [0]
    ∧ map (fun i => (Info.interface_index i, Info.endpoint_address i))
        (mice (_device_cache st)) = [(1, 0x82)]
    ∧ composite_devices (_device_cache st) !! lookup_device_id combo_device = None
    ∧ (get_companion_interfaces "keyboard" 0 (started [combo_device] 6) st).2
      = Ret ∅
    ∧ (is_composite_device "keyboard" 0 (started [combo_device] 6) st).2
      = Ret (false, []).
Proof.
  split; [exact device_ids_differ|].
  vm_compute. repeat split.
Qed.

(** ** Zero-length descriptors *)

Section ZeroLength.

(** A record that is not an interface is stepped over. *)
Lemma analyze_loop_skip (n : nat) (f : filters) (device : Device.t)
    (cfg : list byte) (i : nat) (hid : list interface_info) (l t : byte) :
  cfg !! i = Some l → cfg !! (i + 1)%nat = Some t →
  byte_val t ≠ DESC_INTERFACE →
  analyze_loop (S n) f device cfg i hid
  = analyze_loop n f device cfg (i + Z.to_nat (byte_val l)) hid.
Proof.
  intros Hl Ht Hne. cbn [analyze_loop].
  rewrite bool_decide_eq_true_2 by (by eapply lookup_lt_Some).
  rewrite (getitem_lookup _ _ _ Hl). cbn [mbind outcome_bind].
  rewrite (getitem_lookup _ _ _ Ht). cbn [mbind outcome_bind].
  by rewrite (proj2 (Z.eqb_neq _ _) Hne).
Qed.

(** At a record of declared length 0 the walk never moves on. *)
Lemma analyze_loop_zero_length (n : nat) (f : filters) (device : Device.t)
    (cfg : list byte) (i : nat) (hid : list interface_info) (t : byte) :
  cfg !! i = Some x00 → cfg !! (i + 1)%nat = Some t →
  byte_val t ≠ DESC_INTERFACE →
  analyze_loop n f device cfg i hid = Diverge.
Proof.
  intros Hl Ht Hne. induction n as [|n IH]; [done|].
  rewrite (analyze_loop_skip n f device cfg i hid x00 t Hl Ht Hne).
  change (Z.to_nat (byte_val x00)) with 0%nat. by rewrite Nat.add_0_r.
Qed.

End ZeroLength.

(** C2 at a blob whose second descriptor declares length 0: whatever the
    loop budget, analysing the device never returns, and neither does a
    scan that meets this device before a sound one. *)
Theorem zero_length_descriptor_never_returns :
  (∀ n f c, _analyze_device n f zero_length_device c = (c, Diverge))
  ∧ (∀ n now st,
       (force_refresh {| fuel := n;
                         usb_core_find := Ret [zero_length_device; combo_device];
                         monotonic := now |} st).2 = Diverge).
Proof.
  assert (Hdev : ∀ n f c, _analyze_device n f zero_length_device c = (c, Diverge)).
  { intros n f c. unfold _analyze_device, analyze_body.
    change (get_configuration_descriptor zero_length_device 0)
      with (Ret zero_length_blob).
    destruct n as [|n]; [reflexivity|].
    rewrite (analyze_loop_skip n f zero_length_device zero_length_blob 0 []
               x09 x02); [|reflexivity|reflexivity|discriminate].
    change (0 + Z.to_nat (byte_val x09))%nat with 9%nat.
    by rewrite (analyze_loop_zero_length n f zero_length_device zero_length_blob
                  9 [] x21). }
  split; [exact Hdev|].
  intros n now st. unfold force_refresh, _refresh_device_cache, scan_all.
  cbn [negb andb usb_core_find fuel scan_devices]. by rewrite Hdev.
Qed.

(** ** Termination on well-formed blobs *)

Section Termination.

Lemma bind_not_diverge {A B} (m : outcome A) (k : A → outcome B) :
  m ≠ Diverge → (∀ a, m = Ret a → k a ≠ Diverge) → m ≫= k ≠ Diverge.
Proof. destruct m as [a|x|]; intros Hm Hk; [by apply Hk|done|done]. Qed.

Lemma getitem_not_diverge (buf : list byte) (i : nat) : getitem buf i ≠ Diverge.
Proof. unfold getitem. by destruct (buf !! i). Qed.

Lemma passes_filter_not_diverge (f : filters) (info : interface_info) :
  _device_passes_filter f info ≠ Diverge.
Proof.
  unfold _device_passes_filter.
  destruct (manufacturer_lower (Info.manufacturer info)) as [s|x|] eqn:Hm;
    [|done|by destruct (Info.manufacturer info)].
  cbn [mbind outcome_bind]. by repeat case_match.
Qed.

(** With more fuel than records the interface walk returns or raises. *)
Lemma analyze_loop_terminates (records : list (list byte)) :
  ∀ (pre : list byte) (n : nat) (f : filters) (device : Device.t)
    (hid : list interface_info),
    forallb well_formed_record records = true →
    (length records < n)%nat →
    analyze_loop n f device (pre ++ concat records) (length pre) hid ≠ Diverge.
Proof.
  induction records as [|r rest IH]; intros pre n f device hid Hwf Hn.
  - destruct n as [|n]; [simpl in Hn; lia|]. simpl.
    rewrite bool_decide_eq_false_2; [done|]. rewrite length_app. simpl. lia.
  - destruct n as [|n]; [simpl in Hn; lia|].
    simpl in Hwf. apply andb_true_iff in Hwf as [Hr Hrest].
    destruct (well_formed_record_inv r Hr)
      as (b0 & b1 & tl & Hshape & Hb0 & Hty & Hep).
    assert (Hnext : ∀ hid', analyze_loop n f device (pre ++ r ++ concat rest)
                             (length pre + Z.to_nat (byte_val b0)) hid'
                           ≠ Diverge).
    { intros hid'. rewrite Hb0, <- length_app, (app_assoc pre).
      apply IH; [done|]. simpl in Hn. lia. }
    assert (Hfind : _find_input_endpoint (S n) (pre ++ r ++ concat rest)
                      (length pre + Z.to_nat (byte_val b0))
                    = Ret (first_input_endpoint rest)).
    { unfold _find_input_endpoint.
      rewrite Hb0, <- length_app, (app_assoc pre).
      rewrite find_loop_records; [done|done|]. simpl in Hn. lia. }
    assert (H0 : r !! 0%nat = Some b0) by (by rewrite Hshape).
    assert (H1 : r !! 1%nat = Some b1) by (by rewrite Hshape).
    assert (Hlt : (length pre < length (pre ++ r ++ concat rest))%nat).
    { rewrite !length_app, Hshape. simpl. lia. }
    cbn [analyze_loop concat].
    rewrite bool_decide_eq_true_2 by done.
    replace (getitem (pre ++ r ++ concat rest) (length pre))
      with (getitem (pre ++ r ++ concat rest) (length pre + 0))
      by (f_equal; lia).
    rewrite (getitem_middle pre r (concat rest) 0 b0) by done.
    cbn [mbind outcome_bind].
    rewrite (getitem_middle pre r (concat rest) 1 b1) by done.
    cbn [mbind outcome_bind].
    apply bind_not_diverge; [|intros hid' _; apply Hnext].
    destruct (byte_val b1 =? DESC_INTERFACE); [|done].
    apply bind_not_diverge; [apply getitem_not_diverge|intros number _].
    apply bind_not_diverge; [apply getitem_not_diverge|intros class _].
    apply bind_not_diverge; [apply getitem_not_diverge|intros subclass _].
    apply bind_not_diverge; [apply getitem_not_diverge|intros protocol _].
    destruct (class =? HID_CLASS); [|done]. rewrite Hfind. cbn [mbind outcome_bind].
    destruct (first_input_endpoint rest); [|done].
    apply bind_not_diverge; [apply passes_filter_not_diverge|].
    intros [] _; done.
Qed.

Lemma store_loop_not_diverge (device : Device.t)
    (items : list (string * list interface_info)) (c : cache) :
  (store_loop device items c).2 ≠ Diverge.
Proof.
  revert c. induction items as [|[t l] rest IH]; intros c; [done|]. simpl.
  destruct (_select_best_interface_for_type l t) as [b|x|] eqn:Hbest;
    [apply IH|done|].
  revert Hbest. unfold _select_best_interface_for_type.
  by repeat case_match.
Qed.

(** A device that serves a well-formed blob is analysed to completion:
    the analysis returns or raises. *)
Lemma analyze_device_terminates (records : list (list byte)) (n : nat)
    (f : filters) (device : Device.t) (c : cache) :
  get_configuration_descriptor device 0 = Ret (concat records) →
  forallb well_formed_record records = true →
  (length records < n)%nat →
  (_analyze_device n f device c).2 ≠ Diverge.
Proof.
  intros Hcfg Hwf Hn. unfold _analyze_device, analyze_body. rewrite Hcfg.
  pose proof (analyze_loop_terminates records [] n f device [] Hwf Hn) as Hterm.
  simpl in Hterm.
  destruct (analyze_loop n f device (concat records) 0 []) as [[|i hid]|x|];
    [done| |by destruct x|done].
  pose proof (store_loop_not_diverge device (classify_interfaces (i :: hid)) c)
    as Hstore.
  destruct (store_loop device (classify_interfaces (i :: hid)) c)
    as [c' [[]|x|]]; simpl in Hstore; [by case_bool_decide|by destruct x|done].
Qed.

End Termination.

(** ** Worked examples *)

Example classify_boot_keyboard :
  _classify_hid_device (sample_info (Str "Optical Mouse") 1 1 0 0) = "keyboard".
Proof. reflexivity. Qed.

Example classify_keyword_order :
  _classify_hid_device (sample_info (Str "Wireless KEYBOARD with TouchPad") 0 0 0 0)
  = "keyboard".
Proof. reflexivity. Qed.

Example classify_known_mouse :
  _classify_hid_device (sample_info (Str "USB Receiver") 0 0 0x046D 0xC077) = "mouse".
Proof. reflexivity. Qed.

Example classify_fallback :
  _classify_hid_device (sample_info PyNone 1 0 0x9999 0x0001) = "gamepad".
Proof. reflexivity. Qed.

(** An endpoint behind the next interface is not attributed to the earlier
    one. *)
Example endpoint_behind_next_interface :
  _find_input_endpoint 6
    (combo_prefix ++ [x09; x04; x01; x00; x01; x03; x01; x02; x00;
                      x07; x05; x82; x03; x04; x00; x0a]) 18
  = Ret None.
Proof. reflexivity. Qed.

(** A vendor allow-list that names another vendor leaves the cache empty. *)
Example allow_list_excludes_other_vendor :
  let st := update_filters (set_device_filter (Some {[0x046D%N]}) None None None)
              initial_state in
  (count_keyboards true (started [combo_device] 5) st).2 = Ret 0
  ∧ (count_mice true (started [combo_device] 5) st).2 = Ret 0.
Proof. vm_compute. by split. Qed.

(** A blob that runs out inside a record raises [IndexError], which drops
    that device only. *)
Example truncated_device_is_skipped :
  let st := (force_refresh (started [truncated_device; combo_device] 5)
               initial_state) in
  st.2 = Ret ()
  ∧ map Info.vid (keyboards (_device_cache st.1)) = [0x1234%N].
Proof. vm_compute. by split. Qed.

(** The [ValueError] of a short header read is not caught by the scan. *)
Example short_read_aborts_scan :
  (force_refresh (started [short_read_device; combo_device] 5) initial_state).2
  = Raise (ValueError "Invalid configuration descriptor length").
Proof. reflexivity. Qed.

(** The first scan of the combined device notifies once per grown bucket;
    a raising callback does not stop the one registered after it. *)
Example first_scan_notifications :
  map (fun c => (call_cb c, call_action c, call_index c, call_raised c))
    (calls (force_refresh (started [combo_device] 5)
              (register_device_change_callback quiet_callback
                 (register_device_change_callback raising_callback
                    initial_state))).1)
  = [(1%nat, "added", 0, true); (2%nat, "added", 0, false);
     (1%nat, "added", 0, true); (2%nat, "added", 0, false)].
Proof. reflexivity. Qed.

(** * Further properties *)

(** ** Descriptor fetches *)

(** A device descriptor that is returned has exactly 18 bytes, and is
    returned only when the transfer reported 18. *)
Theorem device_descriptor_is_18_bytes (device : Device.t) (buf : list byte) :
  get_device_descriptor device = Ret buf →
  length buf = 18%nat
  ∧ ∃ data, Device.ctrl_transfer device 0x80 6 0x100 0 18 = Transferred 18 data
            ∧ buf = fill 18 data.
Proof.
  unfold get_device_descriptor, get_descriptor.
  change (Z.lor DIR_IN 0) with 0x80.
  change (Z.lor (Z.shiftl DESC_DEVICE 8) 0) with 0x100.
  destruct (Device.ctrl_transfer device 128 6 256 0 18) as [count data|];
    [|done].
  cbn [mbind outcome_bind]. destruct (Z.eqb_spec count 18) as [->|Hne]; [|done].
  intros [= <-]. split; [apply length_fill|]. by exists data.
Qed.

Lemma device_descriptor_is_18_bytes_witness :
  get_device_descriptor combo_device = Ret (take 18 combo_blob)
  ∧ length (take 18 combo_blob) = 18%nat.
Proof.
  split; [reflexivity|].
  exact (proj1 (device_descriptor_is_18_bytes combo_device
                  (take 18 combo_blob) eq_refl)).
Defined.

Lemma fill_exact (n : nat) (data : list byte) :
  length data = n → fill n data = data.
Proof.
  intros <-. unfold fill. by rewrite take_app_length.
Qed.

Lemma le16_take (blob : list byte) (n : nat) :
  (4 ≤ n)%nat → le16 (take n blob) 2 = le16 blob 2.
Proof.
  intros Hn. unfold le16. by rewrite !lookup_take_lt by lia.
Qed.

(** Round trip: a device that serves a blob whose header states the blob's
    own length gets exactly that blob back. *)
Theorem configuration_descriptor_round_trip
    (v p : N) (serial manuf prod : attr) (blob : list byte) (index : Z) :
  (9 ≤ length blob)%nat →
  le16 blob 2 = Z.of_nat (length blob) →
  get_configuration_descriptor (device_of_blob v p serial manuf prod blob) index
  = Ret blob.
Proof.
  intros Hlen Htotal.
  unfold get_configuration_descriptor, get_descriptor, device_of_blob, serve.
  cbn [Device.ctrl_transfer mbind outcome_bind].
  rewrite Nat.min_l by lia. change (Z.of_nat 9 <? 9) with false. cbv iota.
  assert (Hhead : fill 9 (take 9 blob) = take 9 blob).
  { apply fill_exact. rewrite length_take. lia. }
  rewrite Hhead.
  destruct (total_length_le16 (take 9 blob)) as (b2 & b3 & H3 & H2 & Hdec).
  { rewrite length_take. lia. }
  rewrite H3. cbn [mbind outcome_bind]. rewrite H2. cbn [mbind outcome_bind].
  rewrite Hdec, le16_take, Htotal, Nat2Z.id by lia.
  rewrite Nat.min_id, Z.eqb_refl. cbn [negb].
  by rewrite firstn_all, fill_exact.
Qed.

Lemma configuration_descriptor_round_trip_witness :
  (9 ≤ length combo_blob)%nat
  ∧ le16 combo_blob 2 = Z.of_nat (length combo_blob)
  ∧ get_configuration_descriptor combo_device 3 = Ret combo_blob.
Proof.
  assert (H1 : (9 ≤ length combo_blob)%nat) by (simpl; lia).
  assert (H2 : le16 combo_blob 2 = Z.of_nat (length combo_blob)) by reflexivity.
  split; [exact H1|]. split; [exact H2|].
  exact (configuration_descriptor_round_trip 0x1234 0x5678 (Str "A1")
           (Str "Acme") (Str "Combo") combo_blob 3 H1 H2).
Defined.

(** ** The endpoint search on arbitrary blobs *)

Lemma getitem_ret (buf : list byte) (i : nat) (v : Z) :
  getitem buf i = Ret v → ∃ b, buf !! i = Some b ∧ v = byte_val b.
Proof.
  unfold getitem. destruct (buf !! i) as [b|]; [|done].
  intros [= <-]. by exists b.
Qed.

Lemma getitem_raises_index (buf : list byte) (i : nat) (x : exn) :
  getitem buf i = Raise x → ∃ msg, x = IndexError msg.
Proof.
  unfold getitem. destruct (buf !! i); [done|]. intros [= <-]. by eexists.
Qed.

Lemma find_loop_some (n : nat) (cfg : list byte) :
  ∀ i a, find_input_endpoint_loop n cfg i = Ret (Some a) →
         Z.testbit a 7 = true ∧ 0 ≤ a < 256.
Proof.
  induction n as [|n IH]; intros i a; [done|]. cbn [find_input_endpoint_loop].
  case_bool_decide; [|done].
  destruct (getitem cfg i) as [len|?|]; [|done..]. cbn [mbind outcome_bind].
  destruct (getitem cfg (i + 1)) as [ty|?|]; [|done..]. cbn [mbind outcome_bind].
  destruct (ty =? DESC_ENDPOINT).
  - destruct (getitem cfg (i + 2)) as [addr|?|] eqn:Haddr; [|done..].
    cbn [mbind outcome_bind].
    destruct (truthy (Z.land addr DIR_IN)) eqn:Hbit; [|apply IH].
    intros [= <-]. rewrite dir_in_bit in Hbit. split; [done|].
    apply getitem_ret in Haddr as (b & _ & ->). apply byte_val_range.
  - destruct (ty =? DESC_INTERFACE); [done|apply IH].
Qed.

Lemma find_loop_raises_index (n : nat) (cfg : list byte) :
  ∀ i x, find_input_endpoint_loop n cfg i = Raise x → ∃ msg, x = IndexError msg.
Proof.
  induction n as [|n IH]; intros i x; [done|]. cbn [find_input_endpoint_loop].
  case_bool_decide; [|done].
  destruct (getitem cfg i) as [len|?|] eqn:H0;
    [|intros [= <-]; by eapply getitem_raises_index|done].
  cbn [mbind outcome_bind].
  destruct (getitem cfg (i + 1)) as [ty|?|] eqn:H1;
    [|intros [= <-]; by eapply getitem_raises_index|done].
  cbn [mbind outcome_bind].
  destruct (ty =? DESC_ENDPOINT).
  - destruct (getitem cfg (i + 2)) as [addr|?|] eqn:H2;
      [|intros [= <-]; by eapply getitem_raises_index|done].
    cbn [mbind outcome_bind].
    destruct (truthy (Z.land addr DIR_IN)); [done|apply IH].
  - destruct (ty =? DESC_INTERFACE); [done|apply IH].
Qed.

Lemma endpoint_search_outcome
    (n : nat) (cfg : list byte) (start : nat) :
  raises (_find_input_endpoint n cfg start) = false
  ∧ (_find_input_endpoint n cfg start = Diverge
     ↔ find_input_endpoint_loop n cfg start = Diverge).
Proof.
  unfold _find_input_endpoint.
  destruct (find_input_endpoint_loop n cfg start) as [r|x|] eqn:Hloop;
    [done| |done].
  by destruct (find_loop_raises_index n cfg start x Hloop) as [msg ->].
Qed.

(** On any blob, from any offset, [_find_input_endpoint] never raises (a
    read past the end yields [None]), and an address it returns is a byte
    with bit 7 set. *)
Theorem find_input_endpoint_never_raises
    (n : nat) (cfg : list byte) (start : nat) :
  raises (_find_input_endpoint n cfg start) = false
  ∧ ∀ a, _find_input_endpoint n cfg start = Ret (Some a) →
         Z.testbit a 7 = true ∧ 0 ≤ a < 256.
Proof.
  unfold _find_input_endpoint.
  destruct (find_input_endpoint_loop n cfg start) as [r|x|] eqn:Hloop.
  - split; [done|]. intros a [= ->]. by eapply find_loop_some.
  - destruct (find_loop_raises_index n cfg start x Hloop) as [msg ->].
    split; [done|]. intros a [=].
  - split; [done|]. intros a [=].
Qed.

Lemma find_input_endpoint_never_raises_witness :
  _find_input_endpoint 6 combo_blob 18 = Ret (Some 0x81)
  ∧ Z.testbit 0x81 7 = true.
Proof.
  split; [reflexivity|].
  exact (proj1 (proj2 (find_input_endpoint_never_raises 6 combo_blob 18)
                  0x81 eq_refl)).
Defined.

(** At a record of declared length 0 that is neither an interface nor an
    endpoint, [_find_input_endpoint] never returns, whatever the budget. *)
Theorem find_input_endpoint_zero_length_diverges
    (n : nat) (cfg : list byte) (i : nat) (t : byte) :
  cfg !! i = Some x00 → cfg !! (i + 1)%nat = Some t →
  byte_val t ≠ DESC_INTERFACE → byte_val t ≠ DESC_ENDPOINT →
  _find_input_endpoint n cfg i = Diverge.
Proof.
  intros Hl Ht Hni Hne. unfold _find_input_endpoint.
  assert (Hloop : find_input_endpoint_loop n cfg i = Diverge); [|by rewrite Hloop].
  induction n as [|n IH]; [done|]. cbn [find_input_endpoint_loop].
  rewrite bool_decide_eq_true_2 by (by eapply lookup_lt_Some).
  rewrite (getitem_lookup _ _ _ Hl). cbn [mbind outcome_bind].
  rewrite (getitem_lookup _ _ _ Ht). cbn [mbind outcome_bind].
  rewrite (proj2 (Z.eqb_neq _ _) Hne), (proj2 (Z.eqb_neq _ _) Hni).
  change (Z.to_nat (byte_val x00)) with 0%nat. by rewrite Nat.add_0_r.
Qed.

Lemma find_input_endpoint_zero_length_diverges_witness :
  zero_length_blob !! 9%nat = Some x00
  ∧ zero_length_blob !! (9 + 1)%nat = Some x21
  ∧ _find_input_endpoint 1000 zero_length_blob 9 = Diverge.
Proof.
  split; [reflexivity|]. split; [reflexivity|].
  apply (find_input_endpoint_zero_length_diverges 1000 zero_length_blob 9 x21);
    [reflexivity|reflexivity|discriminate|discriminate].
Defined.

(** ** Choosing the interface of a classification *)

(** For a non-empty candidate list the choice is one of the candidates; it
    is a boot interface whenever one exists, one with the protocol expected
    for the type whenever such a boot interface exists, and the first
    candidate when there is no boot interface. *)
Theorem select_best_interface_prefers_boot
    (interfaces : list interface_info) (device_type : string) :
  interfaces ≠ [] →
  ∃ best,
    _select_best_interface_for_type interfaces device_type = Ret best
    ∧ best ∈ interfaces
    ∧ ((∃ i, i ∈ interfaces ∧ Info.interface_subclass i = BOOT_SUBCLASS) →
       Info.interface_subclass best = BOOT_SUBCLASS)
    ∧ ((∃ i, i ∈ interfaces ∧ Info.interface_subclass i = BOOT_SUBCLASS
             ∧ Info.interface_protocol i = expected_protocol device_type) →
       Info.interface_protocol best = expected_protocol device_type)
    ∧ ((∀ i, i ∈ interfaces → Info.interface_subclass i ≠ BOOT_SUBCLASS) →
       head interfaces = Some best).
Proof.
  intros Hne. unfold _select_best_interface_for_type.
  set (is_boot := fun iface => Info.interface_subclass iface =? BOOT_SUBCLASS).
  set (expected := fun iface =>
         Info.interface_protocol iface =? expected_protocol device_type).
  assert (Hboot : ∀ i, In i (List.filter is_boot interfaces)
                       ↔ i ∈ interfaces
                         ∧ Info.interface_subclass i = BOOT_SUBCLASS).
  { intros i. rewrite List.filter_In, <- list_elem_of_In. unfold is_boot.
    by rewrite Z.eqb_eq. }
  destruct (List.filter is_boot interfaces) as [|fb bs] eqn:Hfilter.
  - destruct interfaces as [|first rest]; [done|].
    exists first. split; [done|]. split; [apply list_elem_of_here|].
    split; [|split].
    + intros (i & Hi & Hs). by destruct (proj2 (Hboot i) (conj Hi Hs)).
    + intros (i & Hi & Hs & _). by destruct (proj2 (Hboot i) (conj Hi Hs)).
    + done.
  - destruct (List.find expected (fb :: bs)) as [b|] eqn:Hfind.
    + apply List.find_some in Hfind as [Hin Hexp].
      apply Hboot in Hin as [Hin Hs]. exists b. split; [done|].
      split; [done|]. split; [done|]. split.
      * intros _. by apply Z.eqb_eq in Hexp.
      * intros Hnone. by destruct (Hnone b Hin).
    + pose proof (proj1 (Hboot fb) (or_introl eq_refl)) as [Hin Hs].
      exists fb. split; [done|]. split; [done|]. split; [done|]. split.
      * intros (i & Hi & His & Hip).
        pose proof (List.find_none _ _ Hfind i (proj2 (Hboot i) (conj Hi His)))
          as Hno.
        unfold expected in Hno. apply Z.eqb_neq in Hno. contradiction.
      * intros Hnone. by destruct (Hnone fb Hin).
Qed.

Lemma select_best_interface_prefers_boot_witness :
  [sample_info (Str "x") 0 0 1 2; sample_info (Str "y") 1 2 1 2;
   sample_info (Str "z") 1 1 1 2] ≠ []
  ∧ ∃ best,
      _select_best_interface_for_type
        [sample_info (Str "x") 0 0 1 2; sample_info (Str "y") 1 2 1 2;
         sample_info (Str "z") 1 1 1 2] "keyboard" = Ret best
      ∧ best ∈ [sample_info (Str "x") 0 0 1 2; sample_info (Str "y") 1 2 1 2;
                sample_info (Str "z") 1 1 1 2].
Proof.
  split; [discriminate|].
  destruct (select_best_interface_prefers_boot
              [sample_info (Str "x") 0 0 1 2; sample_info (Str "y") 1 2 1 2;
               sample_info (Str "z") 1 1 1 2] "keyboard")
    as (best & Hbest & Hin & _); [discriminate|].
  exists best. by split.
Defined.

(** ** Vendor and manufacturer filters *)

(** A blocked vendor id never passes, whatever else the filter holds. *)
Theorem blocked_vendor_never_passes (f : filters) (info : interface_info) :
  Info.vid info ∈ blocked_vids f →
  _device_passes_filter f info ≠ Ret true.
Proof.
  intros Hblocked. unfold _device_passes_filter.
  destruct (manufacturer_lower (Info.manufacturer info)); [|done..].
  cbn [mbind outcome_bind]. rewrite (bool_decide_eq_true_2 _ Hblocked).
  by destruct (_ && _).
Qed.

Lemma blocked_vendor_never_passes_witness :
  Info.vid (sample_info (Str "Combo") 1 1 0x1234 0x5678)
    ∈ blocked_vids (set_device_filter None (Some {[0x1234%N]}) None None
                      initial_filters)
  ∧ _device_passes_filter
      (set_device_filter None (Some {[0x1234%N]}) None None initial_filters)
      (sample_info (Str "Combo") 1 1 0x1234 0x5678) ≠ Ret true.
Proof.
  assert (H : Info.vid (sample_info (Str "Combo") 1 1 0x1234 0x5678)
                ∈ blocked_vids (set_device_filter None (Some {[0x1234%N]})
                                  None None initial_filters)).
  { simpl. apply elem_of_singleton. reflexivity. }
  split; [exact H|]. exact (blocked_vendor_never_passes _ _ H).
Defined.

(** Once a non-empty vendor allow-list is installed, a vendor outside it
    never passes, and a later [set_device_filter] call that leaves
    [allowed_vids] at [None] does not lift the list. *)
Theorem vendor_allow_list_stays_in_force
    (s : gset N) (f : filters) (info : interface_info)
    (new_blocked : option (gset N))
    (new_allowed_m new_blocked_m : option (gset string)) :
  s ≠ ∅ → Info.vid info ∉ s →
  _device_passes_filter (set_device_filter (Some s) None None None f) info
  ≠ Ret true
  ∧ _device_passes_filter
      (set_device_filter None new_blocked new_allowed_m new_blocked_m
         (set_device_filter (Some s) None None None f)) info
    ≠ Ret true.
Proof.
  intros Hne Hnot.
  assert (Hgen : ∀ g, allowed_vids g = Some s → _device_passes_filter g info ≠ Ret true).
  { intros g Hg. unfold _device_passes_filter.
    destruct (manufacturer_lower (Info.manufacturer info)); [|done..].
    cbn [mbind outcome_bind]. rewrite Hg. unfold set_truthy, set_contains.
    by rewrite (bool_decide_eq_true_2 _ Hne), (bool_decide_eq_false_2 _ Hnot). }
  split; apply Hgen; [done|].
  unfold set_device_filter. by repeat case_match.
Qed.

Lemma vendor_allow_list_stays_in_force_witness :
  ({[0x046D%N]} : gset N) ≠ ∅
  ∧ (Info.vid (sample_info (Str "Combo") 1 1 0x1234 0x5678)
       ∉ ({[0x046D%N]} : gset N))
  ∧ _device_passes_filter
      (set_device_filter None None None None
         (set_device_filter (Some {[0x046D%N]}) None None None initial_filters))
      (sample_info (Str "Combo") 1 1 0x1234 0x5678) ≠ Ret true.
Proof.
  assert (H1 : ({[0x046D%N]} : gset N) ≠ ∅).
  { apply non_empty_singleton_L. }
  assert (H2 : Info.vid (sample_info (Str "Combo") 1 1 0x1234 0x5678)
               ∉ ({[0x046D%N]} : gset N)).
  { simpl. rewrite not_elem_of_singleton. discriminate. }
  split; [exact H1|]. split; [exact H2|].
  exact (proj2 (vendor_allow_list_stays_in_force {[0x046D%N]} initial_filters
                  (sample_info (Str "Combo") 1 1 0x1234 0x5678)
                  None None None H1 H2)).
Defined.

(** Blocking a manufacturer is case-insensitive: the names given to
    [set_device_filter] and the device's name are both lower-cased. *)
Theorem manufacturer_block_ignores_case
    (names : gset string) (name device_name : string) (f : filters)
    (info : interface_info) :
  name ∈ names → lower device_name = lower name →
  Info.manufacturer info = Str device_name →
  _device_passes_filter (set_device_filter None None None (Some names) f) info
  = Ret false.
Proof.
  intros Hin Hsame Hm. unfold _device_passes_filter. rewrite Hm.
  cbn [manufacturer_lower mbind outcome_bind].
  assert (Hblocked : lower device_name
            ∈ blocked_manufacturers
                (set_device_filter None None None (Some names) f)).
  { cbn. rewrite Hsame. apply elem_of_map. by exists name. }
  rewrite (bool_decide_eq_true_2 _ Hblocked). by repeat case_match.
Qed.

Lemma manufacturer_block_ignores_case_witness :
  "ACME" ∈ ({["ACME"]} : gset string)
  ∧ lower "Acme" = lower "ACME"
  ∧ _device_passes_filter
      (set_device_filter None None None (Some {["ACME"]}) initial_filters)
      (sample_info (Str "Combo") 1 1 0x1234 0x5678)
    = Ret false.
Proof.
  assert (H1 : "ACME" ∈ ({["ACME"]} : gset string)) by (by apply elem_of_singleton).
  split; [exact H1|]. split; [reflexivity|].
  exact (manufacturer_block_ignores_case {["ACME"]} "ACME" "Acme" initial_filters
           (sample_info (Str "Combo") 1 1 0x1234 0x5678) H1 eq_refl eq_refl).
Defined.

(** ** What a scan keeps true of the cache *)

Section CacheInvariant.

Lemma find_input_endpoint_some (n : nat) (cfg : list byte) (start : nat) (a : Z) :
  _find_input_endpoint n cfg start = Ret (Some a) → Z.testbit a 7 = true.
Proof.
  unfold _find_input_endpoint.
  destruct (find_input_endpoint_loop n cfg start) as [r|x|] eqn:Hloop.
  - intros [= ->]. by eapply find_loop_some.
  - by destruct x.
  - done.
Qed.

(** Every record the interface walk collects is an HID interface of the
    device with an input endpoint. *)
Lemma analyze_loop_interfaces (n : nat) (f : filters) (d : Device.t)
    (cfg : list byte) :
  ∀ i hid hid', Forall (interface_of d) hid →
                analyze_loop n f d cfg i hid = Ret hid' →
                Forall (interface_of d) hid'.
Proof.
  induction n as [|n IH]; intros i hid hid' Hhid; [done|].
  cbn [analyze_loop]. case_bool_decide; [|by intros [= <-]].
  destruct (getitem cfg i) as [len|?|]; [|done..]. cbn [mbind outcome_bind].
  destruct (getitem cfg (i + 1)) as [ty|?|]; [|done..]. cbn [mbind outcome_bind].
  match goal with
  | |- (?X ≫= _) = _ → _ =>
    assert (HX : ∀ h, X = Ret h → Forall (interface_of d) h);
      [|destruct X as [h|?|]; [|done..]; cbn [mbind outcome_bind];
        apply IH; by apply HX]
  end.
  destruct (ty =? DESC_INTERFACE); [|by intros h [= <-]].
  destruct (getitem cfg (i + 2)) as [number|?|]; [|done..].
  cbn [mbind outcome_bind].
  destruct (getitem cfg (i + 5)) as [class|?|]; [|done..].
  cbn [mbind outcome_bind].
  destruct (getitem cfg (i + 6)) as [subclass|?|]; [|done..].
  cbn [mbind outcome_bind].
  destruct (getitem cfg (i + 7)) as [protocol|?|]; [|done..].
  cbn [mbind outcome_bind].
  destruct (Z.eqb_spec class HID_CLASS) as [Hclass|_]; [|by intros h [= <-]].
  destruct (_find_input_endpoint (S n) cfg (i + Z.to_nat len))
    as [[a|]|?|] eqn:Hfind; [| |done..]; cbn [mbind outcome_bind];
    [|by intros h [= <-]].
  destruct (_device_passes_filter f _) as [[]|?|]; [| |done..];
    cbn [mbind outcome_bind]; intros h [= <-]; [|done].
  apply Forall_app. split; [done|]. apply Forall_singleton.
  repeat split; [done|]. by eapply find_input_endpoint_some.
Qed.

Lemma by_type_append_keys (by_type : list (string * list interface_info))
    (t : string) (x : interface_info) :
  map fst (by_type_append by_type t x)
  = if bool_decide (t ∈ map fst by_type) then map fst by_type
    else map fst by_type ++ [t].
Proof.
  induction by_type as [|[t' l] rest IH]; [done|]. simpl.
  destruct (String.eqb_spec t' t) as [->|Hne].
  - by rewrite bool_decide_eq_true_2 by apply list_elem_of_here.
  - simpl. rewrite IH. case_bool_decide as Hin.
    + by rewrite bool_decide_eq_true_2 by (by apply list_elem_of_further).
    + rewrite bool_decide_eq_false_2; [done|].
      rewrite not_elem_of_cons. split; [congruence|done].
Qed.

Lemma by_type_append_groups (d : Device.t)
    (by_type : list (string * list interface_info)) (x : interface_info) :
  groups_of d by_type → interface_of d x →
  groups_of d (by_type_append by_type (_classify_hid_device x) x).
Proof.
  intros [Hnd Hall] Hx. split.
  - rewrite by_type_append_keys. case_bool_decide as Hin; [done|].
    apply NoDup_app. split; [done|]. split; [|apply NoDup_singleton].
    intros y Hy Hy'. apply list_elem_of_singleton in Hy' as ->. done.
  - clear Hnd. induction Hall as [|[t' l] rest [Hl Hin] Hrest IH]; simpl.
    + apply Forall_singleton. simpl. split; [done|]. by apply Forall_singleton.
    + destruct (String.eqb_spec t' (_classify_hid_device x)) as [->|Hne].
      * constructor; [|done]. simpl.
        split; [by destruct l|]. apply Forall_app. split; [done|].
        by apply Forall_singleton.
      * constructor; [by split|]. exact IH.
Qed.

Lemma classify_interfaces_groups (d : Device.t) (hid : list interface_info) :
  Forall (interface_of d) hid → groups_of d (classify_interfaces hid).
Proof.
  unfold classify_interfaces.
  assert (Hgen : ∀ acc, groups_of d acc → Forall (interface_of d) hid →
            groups_of d (fold_left (fun by_type info =>
              by_type_append by_type (_classify_hid_device info) info) hid acc)).
  { induction hid as [|x rest IH]; intros acc Hacc Hhid; [done|].
    apply Forall_cons in Hhid as [Hx Hrest]. simpl.
    apply IH; [|done]. by apply by_type_append_groups. }
  apply Hgen. split; [constructor|constructor].
Qed.

Lemma select_best_member (interfaces : list interface_info) (t : string)
    (best : interface_info) :
  _select_best_interface_for_type interfaces t = Ret best → best ∈ interfaces.
Proof.
  unfold _select_best_interface_for_type.
  destruct (List.filter _ interfaces) as [|fb bs] eqn:Hfilter.
  - destruct interfaces; [done|]. intros [= <-]. apply list_elem_of_here.
  - assert (Hsub : ∀ i, In i (fb :: bs) → i ∈ interfaces).
    { intros i Hi. rewrite <- Hfilter in Hi. apply List.filter_In in Hi as [Hi _].
      by apply list_elem_of_In. }
    destruct (List.find _ (fb :: bs)) as [b|] eqn:Hfind; intros [= <-].
    + apply List.find_some in Hfind as [Hin _]. by apply Hsub.
    + apply Hsub. by left.
Qed.

Lemma distinct_devices_snoc (l : list interface_info) (x : interface_info) :
  distinct_devices (l ++ [x])
  = distinct_devices l
    && forallb (fun a => negb (same_device (Info.device a) (Info.device x))) l.
Proof.
  induction l as [|a rest IH]; [done|]. simpl.
  rewrite IH, forallb_app. simpl. rewrite andb_true_r.
  destruct (forallb _ rest), (negb _), (distinct_devices rest), (forallb _ rest);
    reflexivity.
Qed.

Lemma not_cached_forallb (l : list interface_info) (d : Device.t) :
  existsb (fun cached => same_device (Info.device cached) d) l = false →
  forallb (fun a => negb (same_device (Info.device a) d)) l = true.
Proof.
  induction l as [|a rest IH]; [done|]. simpl.
  intros [Ha Hrest]%orb_false_iff. rewrite Ha. simpl. by apply IH.
Qed.

Lemma store_best_inv (c : cache) (d : Device.t) (t : string)
    (best : interface_info) :
  Info.device best = d → _classify_hid_device best = t → interface_of d best →
  cache_inv c → cache_inv (store_best c d t best).
Proof.
  intros Hdev Hclass Hof Hinv.
  pose proof Hinv as ((Hk & Hm & Hg) & (Dk & Dm & Dg) & Hcomp).
  assert (Hentry : entry_ok t best) by (split; [done|by rewrite Hdev]).
  unfold store_best, _device_already_cached.
  destruct (String.eqb_spec t "keyboard") as [->|_]; simpl.
  { destruct (existsb _ (keyboards c)) eqn:Hex; simpl; [exact Hinv|].
    split; [|split]; [| |done].
    - split; [|by split]. simpl. apply Forall_app. split; [done|].
      by apply Forall_singleton.
    - split; [|by split]. simpl. rewrite distinct_devices_snoc, Dk, Hdev.
      by apply not_cached_forallb. }
  destruct (String.eqb_spec t "mouse") as [->|_]; simpl.
  { destruct (existsb _ (mice c)) eqn:Hex; simpl; [exact Hinv|].
    split; [|split]; [| |done].
    - split; [done|]. split; [|done]. simpl. apply Forall_app. split; [done|].
      by apply Forall_singleton.
    - split; [done|]. split; [|done]. simpl.
      rewrite distinct_devices_snoc, Dm, Hdev. by apply not_cached_forallb. }
  destruct (String.eqb_spec t "gamepad") as [->|_]; simpl; [|exact Hinv].
  destruct (existsb _ (gamepads c)) eqn:Hex; simpl; [exact Hinv|].
  split; [|split]; [| |done].
  - split; [done|]. split; [done|]. simpl. apply Forall_app. split; [done|].
    by apply Forall_singleton.
  - split; [done|]. split; [done|]. simpl.
    rewrite distinct_devices_snoc, Dg, Hdev. by apply not_cached_forallb.
Qed.

Lemma store_loop_inv (d : Device.t)
    (items : list (string * list interface_info)) :
  ∀ c, Forall (fun item =>
                 Forall (fun info => _classify_hid_device info = item.1
                                     ∧ interface_of d info) item.2) items →
       cache_inv c → cache_inv (store_loop d items c).1.
Proof.
  induction items as [|[t l] rest IH]; intros c Hitems Hinv; [done|].
  apply Forall_cons in Hitems as [Hl Hrest]. simpl in Hl. simpl.
  destruct (_select_best_interface_for_type l t) as [best|x|] eqn:Hbest;
    [|done..].
  apply select_best_member in Hbest.
  rewrite Forall_forall in Hl. destruct (Hl best Hbest) as [Hclass Hof].
  apply IH; [done|]. apply store_best_inv; [by destruct Hof|done..].
Qed.

Lemma cache_inv_stamp (l : option Z) (c : cache) :
  cache_inv (with_last_scan l c) ↔ cache_inv c.
Proof. reflexivity. Qed.

Lemma record_composite_inv (c : cache) (d : Device.t)
    (by_type : list (string * list interface_info)) :
  groups_of d by_type → (1 < length by_type)%nat →
  cache_inv c → cache_inv (record_composite c d by_type).
Proof.
  intros Hgroups Hlen (Hs & Hd & Hc). split; [exact Hs|]. split; [exact Hd|].
  unfold composites_sound, record_composite. simpl.
  apply map_Forall_insert_2; [|exact Hc].
  split; [done|]. simpl. split; [|by split].
  rewrite length_map. lia.
Qed.

Lemma analyze_body_inv (n : nat) (f : filters) (d : Device.t) (c : cache) :
  cache_inv c → cache_inv (analyze_body n f d c).1.
Proof.
  intros Hinv. unfold analyze_body.
  destruct (get_configuration_descriptor d 0) as [cfg|x|]; [|done..].
  destruct (analyze_loop n f d cfg 0 []) as [hid|x|] eqn:Hloop; [|done..].
  destruct hid as [|i hid]; [done|].
  pose proof (analyze_loop_interfaces n f d cfg 0 [] _ (Forall_nil_2 _) Hloop)
    as Hhid.
  pose proof (classify_interfaces_groups d _ Hhid) as Hgroups.
  assert (Hstored : cache_inv (store_loop d (classify_interfaces (i :: hid)) c).1).
  { apply store_loop_inv; [|done]. destruct Hgroups as [_ Hall].
    eapply Forall_impl; [exact Hall|]. by intros item [_ H]. }
  destruct (store_loop d (classify_interfaces (i :: hid)) c) as [c' [[]|x|]];
    simpl in Hstored; [|done..].
  case_bool_decide as Hlen; [|done]. simpl.
  by apply record_composite_inv.
Qed.

Lemma analyze_device_inv (n : nat) (f : filters) (d : Device.t) (c : cache) :
  cache_inv c → cache_inv (_analyze_device n f d c).1.
Proof.
  intros Hinv. pose proof (analyze_body_inv n f d c Hinv) as Hbody.
  unfold _analyze_device.
  by destruct (analyze_body n f d c) as [c' [[]|[]|]].
Qed.

Lemma scan_devices_inv (n : nat) (f : filters) (devices : list Device.t) :
  ∀ c, cache_inv c → cache_inv (scan_devices n f devices c).1.
Proof.
  induction devices as [|d rest IH]; intros c Hinv; [done|]. simpl.
  pose proof (analyze_device_inv n f d c Hinv) as Hd.
  destruct (_analyze_device n f d c) as [c' [[]|x|]]; simpl in Hd; [|done..].
  by apply IH.
Qed.

Lemma scan_all_inv (e : env) (f : filters) (c : cache) :
  cache_inv c → cache_inv (scan_all e f c).1.
Proof.
  intros Hinv. unfold scan_all.
  destruct (usb_core_find e) as [devices|x|].
  - pose proof (scan_devices_inv (fuel e) f devices c Hinv) as Hscan.
    by destruct (scan_devices (fuel e) f devices c) as [c' [[]|[]|]].
  - by destruct x.
  - done.
Qed.

Lemma cleared_inv (c : cache) : cache_inv (cleared c).
Proof.
  split; [|split].
  - by repeat split.
  - by repeat split.
  - apply map_Forall_empty.
Qed.

(** A refresh either leaves the state as it is or rebuilds a cache that
    satisfies the invariant. *)
Lemma refresh_cases (force : bool) (e : env) (st : state) :
  (_refresh_device_cache force e st).1 = st
  ∨ cache_inv (_device_cache (_refresh_device_cache force e st).1).
Proof.
  unfold _refresh_device_cache.
  destruct (negb force && cache_is_fresh st (monotonic e)); [by left|]. right.
  pose proof (scan_all_inv e (_device_filters st) _
                (cleared_inv (_device_cache st))) as Hscan.
  destruct (scan_all e (_device_filters st) (cleared (_device_cache st)))
    as [c [[]|x|]]; simpl in *; exact Hscan.
Qed.

Lemma distinct_devices_spec (l : list interface_info) :
  distinct_devices l = true ↔ no_device_twice l.
Proof.
  unfold no_device_twice. induction l as [|x rest IH]; simpl.
  - split; [|done]. by intros _ i j a b _ Hi.
  - rewrite andb_true_iff, forallb_forall, IH. split.
    + intros [Hx Hrest] i j a b Hlt Hi Hj.
      destruct j as [|j]; [lia|]. simpl in Hj. destruct i as [|i].
      * simpl in Hi. injection Hi as <-. apply negb_true_iff, Hx.
        apply list_elem_of_In. by eapply list_elem_of_lookup_2.
      * simpl in Hi. apply (Hrest i j); [lia|done..].
    + intros Hall. split.
      * intros b Hb. apply list_elem_of_In, list_elem_of_lookup_1 in Hb as [j Hj].
        apply negb_true_iff. by apply (Hall 0%nat (S j)); [lia|..].
      * intros i j a b Hlt Hi Hj. by apply (Hall (S i) (S j)); [lia|..].
Qed.

End CacheInvariant.

(** After a refresh no bucket holds the same device twice: two entries of
    a bucket never agree on vendor id, product id and serial number. *)
Theorem refresh_keeps_devices_distinct (force : bool) (e : env) (st : state) :
  no_device_twice (keyboards (_device_cache st)) →
  no_device_twice (mice (_device_cache st)) →
  no_device_twice (gamepads (_device_cache st)) →
  let c := _device_cache (_refresh_device_cache force e st).1 in
  no_device_twice (keyboards c) ∧ no_device_twice (mice c)
  ∧ no_device_twice (gamepads c).
Proof.
  intros Hk Hm Hg c. subst c.
  destruct (refresh_cases force e st) as [->|(_ & (Dk & Dm & Dg) & _)].
  - done.
  - by rewrite <- !distinct_devices_spec.
Qed.

Lemma refresh_keeps_devices_distinct_witness :
  no_device_twice (keyboards (_device_cache initial_state))
  ∧ no_device_twice
      (keyboards (_device_cache
         (_refresh_device_cache true (started [combo_device; combo_device] 5)
            initial_state).1)).
Proof.
  assert (H : ∀ (l : list interface_info), l = [] → no_device_twice l).
  { intros l -> i j a b _ Hi. destruct i; discriminate. }
  split; [by apply H|].
  exact (proj1 (refresh_keeps_devices_distinct true
                  (started [combo_device; combo_device] 5) initial_state
                  (H _ eq_refl) (H _ eq_refl) (H _ eq_refl))).
Defined.

(** After a refresh every entry of a bucket is an HID interface of its
    device with an input endpoint (bit 7 of the address set), carries the
    device's vendor and product id, and classifies as the bucket's type. *)
Theorem refresh_keeps_buckets_sound (force : bool) (e : env) (st : state) :
  buckets_sound (_device_cache st) →
  buckets_sound (_device_cache (_refresh_device_cache force e st).1).
Proof.
  intros Hsound. by destruct (refresh_cases force e st) as [->|(? & _)].
Qed.

Lemma refresh_keeps_buckets_sound_witness :
  buckets_sound (_device_cache initial_state)
  ∧ buckets_sound
      (_device_cache
         (_refresh_device_cache false (started [combo_device] 5)
            initial_state).1).
Proof.
  assert (H : buckets_sound (_device_cache initial_state))
    by (repeat split; constructor).
  split; [exact H|].
  exact (refresh_keeps_buckets_sound false (started [combo_device] 5)
           initial_state H).
Defined.

(** After a refresh every composite record is filed under the analysis id
    of its device, lists at least two classifications, all different, in
    the order of its groups, and each group is non-empty and holds only
    interfaces of that device with that classification. *)
Theorem refresh_keeps_composites_sound (force : bool) (e : env) (st : state) :
  composites_sound (_device_cache st) →
  composites_sound (_device_cache (_refresh_device_cache force e st).1).
Proof.
  intros Hsound. by destruct (refresh_cases force e st) as [->|(_ & _ & ?)].
Qed.

Lemma refresh_keeps_composites_sound_witness :
  composites_sound (_device_cache initial_state)
  ∧ composites_sound
      (_device_cache
         (_refresh_device_cache false (started [combo_device] 5)
            initial_state).1).
Proof.
  assert (H : composites_sound (_device_cache initial_state))
    by apply map_Forall_empty.
  split; [exact H|].
  exact (refresh_keeps_composites_sound false (started [combo_device] 5)
           initial_state H).
Defined.

(** ** Which exceptions leave the scan *)

Section Escapes.

Lemma get_descriptor_raises (d : Device.t) (desc_type index : Z) (n : nat)
    (language : Z) (x : exn) :
  get_descriptor d desc_type index n language = Raise x → x = USBError.
Proof.
  unfold get_descriptor. destruct (Device.ctrl_transfer _ _ _ _ _ _); [done|].
  by intros [= <-].
Qed.

Lemma configuration_descriptor_raises (d : Device.t) (index : Z) (x : exn) :
  get_configuration_descriptor d index = Raise x →
  is_value_error x || handled_by_analysis x = true.
Proof.
  unfold get_configuration_descriptor.
  destruct (get_descriptor d DESC_CONFIGURATION index 9 0) as [[count buf]|y|]
    eqn:Hprobe; [| |done].
  - cbn [mbind outcome_bind]. destruct (count <? 9); [by intros [= <-]|].
    destruct (getitem buf 3) as [b3|y|] eqn:H3; [| |done].
    + cbn [mbind outcome_bind].
      destruct (getitem buf 2) as [b2|y|] eqn:H2; [| |done].
      * cbn [mbind outcome_bind].
        destruct (get_descriptor d DESC_CONFIGURATION index
                    (Z.to_nat (Z.lor (Z.shiftl b3 8) b2)) 0)
          as [[count' full]|y|] eqn:Hfull; [| |done].
        -- cbn [mbind outcome_bind]. destruct (negb _); [by intros [= <-]|done].
        -- intros [= <-]. by rewrite (get_descriptor_raises _ _ _ _ _ _ Hfull).
      * intros [= <-]. by destruct (getitem_raises_index _ _ _ H2) as [msg ->].
    + intros [= <-]. by destruct (getitem_raises_index _ _ _ H3) as [msg ->].
  - intros [= <-]. by rewrite (get_descriptor_raises _ _ _ _ _ _ Hprobe).
Qed.

Lemma passes_filter_raises (f : filters) (info : interface_info) (x : exn) :
  _device_passes_filter f info = Raise x → handled_by_analysis x = true.
Proof.
  unfold _device_passes_filter.
  destruct (Info.manufacturer info); cbn [manufacturer_lower mbind outcome_bind];
    [by repeat case_match|by intros [= <-]|by repeat case_match].
Qed.

Lemma analyze_loop_raises (n : nat) (f : filters) (d : Device.t)
    (cfg : list byte) :
  ∀ i hid x, analyze_loop n f d cfg i hid = Raise x →
             handled_by_analysis x = true.
Proof.
  induction n as [|n IH]; intros i hid x; [done|].
  cbn [analyze_loop]. case_bool_decide; [|done].
  destruct (getitem cfg i) as [len|y|] eqn:H0; [| |done];
    [|intros [= <-]; by destruct (getitem_raises_index _ _ _ H0) as [? ->]].
  cbn [mbind outcome_bind].
  destruct (getitem cfg (i + 1)) as [ty|y|] eqn:H1; [| |done];
    [|intros [= <-]; by destruct (getitem_raises_index _ _ _ H1) as [? ->]].
  cbn [mbind outcome_bind].
  match goal with
  | |- (?X ≫= _) = _ → _ =>
    assert (HX : ∀ y, X = Raise y → handled_by_analysis y = true);
      [|destruct X as [h|y|]; [apply IH|intros [= <-]; by apply HX|done]]
  end.
  destruct (ty =? DESC_INTERFACE); [|done].
  destruct (getitem cfg (i + 2)) as [number|y|] eqn:H2; [| |done];
    [|intros ? [= <-]; by destruct (getitem_raises_index _ _ _ H2) as [? ->]].
  cbn [mbind outcome_bind].
  destruct (getitem cfg (i + 5)) as [class|y|] eqn:H5; [| |done];
    [|intros ? [= <-]; by destruct (getitem_raises_index _ _ _ H5) as [? ->]].
  cbn [mbind outcome_bind].
  destruct (getitem cfg (i + 6)) as [subclass|y|] eqn:H6; [| |done];
    [|intros ? [= <-]; by destruct (getitem_raises_index _ _ _ H6) as [? ->]].
  cbn [mbind outcome_bind].
  destruct (getitem cfg (i + 7)) as [protocol|y|] eqn:H7; [| |done];
    [|intros ? [= <-]; by destruct (getitem_raises_index _ _ _ H7) as [? ->]].
  cbn [mbind outcome_bind].
  destruct (class =? HID_CLASS); [|done].
  pose proof (proj1 (endpoint_search_outcome (S n) cfg
                       (i + Z.to_nat len))) as Hfind.
  destruct (_find_input_endpoint (S n) cfg (i + Z.to_nat len))
    as [[a|]|y|]; [| |done..]; cbn [mbind outcome_bind]; [|done].
  destruct (_device_passes_filter f _) as [[]|y|] eqn:Hpass; [done|done| |done].
  intros ? [= <-]. by eapply passes_filter_raises.
Qed.

End Escapes.

Lemma store_loop_raises (d : Device.t)
    (items : list (string * list interface_info)) :
  ∀ c x, (store_loop d items c).2 = Raise x → handled_by_analysis x = true.
Proof.
  induction items as [|[t l] rest IH]; intros c x; [done|]. simpl.
  destruct (_select_best_interface_for_type l t) as [b|y|] eqn:Hbest;
    [apply IH| |done].
  simpl. intros [= <-]. revert Hbest.
  unfold _select_best_interface_for_type. repeat case_match; try done.
  by intros [= <-].
Qed.

Lemma analyze_body_raises (n : nat) (f : filters) (d : Device.t) (c : cache)
    (x : exn) :
  (analyze_body n f d c).2 = Raise x →
  handled_by_analysis x = true
  ∨ (is_value_error x = true ∧ (analyze_body n f d c).1 = c).
Proof.
  unfold analyze_body.
  destruct (get_configuration_descriptor d 0) as [cfg|y|] eqn:Hcfg; [| |done].
  - destruct (analyze_loop n f d cfg 0 []) as [[|i hid]|y|] eqn:Hloop;
      [done| | |done].
    + pose proof (store_loop_raises d (classify_interfaces (i :: hid)) c) as Hs.
      destruct (store_loop d (classify_interfaces (i :: hid)) c)
        as [c' [[]|y|]]; simpl in *; [by case_bool_decide| |done].
      intros [= <-]. left. by apply Hs.
    + simpl. intros [= <-]. left. by eapply analyze_loop_raises.
  - simpl. intros [= <-].
    apply configuration_descriptor_raises in Hcfg.
    apply orb_true_iff in Hcfg as [Hv|Hh]; [by right|by left].
Qed.

Lemma analyze_device_raises (n : nat) (f : filters) (d : Device.t) (c : cache)
    (x : exn) :
  (_analyze_device n f d c).2 = Raise x →
  is_value_error x = true ∧ (_analyze_device n f d c).1 = c.
Proof.
  pose proof (analyze_body_raises n f d c) as Hbody.
  unfold _analyze_device.
  destruct (analyze_body n f d c) as [c' [[]|y|]]; simpl in *; [done| |done].
  destruct y; simpl; try done; intros [= <-];
    by destruct (Hbody _ eq_refl) as [?|[? ?]].
Qed.

Lemma scan_devices_raises (n : nat) (f : filters) (devices : list Device.t) :
  ∀ c x, (scan_devices n f devices c).2 = Raise x → is_value_error x = true.
Proof.
  induction devices as [|d rest IH]; intros c x; [done|]. simpl.
  pose proof (analyze_device_raises n f d c) as Hd.
  destruct (_analyze_device n f d c) as [c' [[]|y|]]; simpl in *;
    [apply IH| |done].
  intros [= <-]. by destruct (Hd _ eq_refl).
Qed.

(** The only exception that leaves the analysis of a device is the
    [ValueError] of the descriptor fetch, and it leaves the cache as it
    was; it is also the only exception that leaves a refresh whose
    enumeration succeeds, and such a refresh invokes no callback and does
    not stamp the cache. *)
Theorem only_value_error_escapes
    (e : env) (f : filters) (d : Device.t) (c : cache) (force : bool)
    (st : state) (devices : list Device.t) (x : exn) :
  ((_analyze_device (fuel e) f d c).2 = Raise x →
   is_value_error x = true ∧ (_analyze_device (fuel e) f d c).1 = c)
  ∧ (usb_core_find e = Ret devices →
     (_refresh_device_cache force e st).2 = Raise x →
     is_value_error x = true
     ∧ last_scan (_device_cache (_refresh_device_cache force e st).1)
       = last_scan (_device_cache st)
     ∧ calls (_refresh_device_cache force e st).1 = calls st).
Proof.
  split; [apply analyze_device_raises|].
  intros Hfind. unfold _refresh_device_cache.
  destruct (negb force && cache_is_fresh st (monotonic e)); [done|].
  rewrite (cleared_stamp (_device_cache st)), scan_all_stamp.
  pose proof (scan_devices_raises (fuel e) (_device_filters st) devices
                (cleared initial_cache)) as Hscan.
  unfold scan_all. rewrite Hfind.
  destruct (scan_devices (fuel e) (_device_filters st) devices
              (cleared initial_cache)) as [c' [[]|y|]]; simpl in *;
    [done| |done].
  specialize (Hscan y eq_refl). destruct y; try done.
  simpl. by intros [= <-].
Qed.

Lemma only_value_error_escapes_witness :
  usb_core_find (started [short_read_device; combo_device] 5)
  = Ret [short_read_device; combo_device]
  ∧ (_refresh_device_cache true (started [short_read_device; combo_device] 5)
       initial_state).2
    = Raise (ValueError "Invalid configuration descriptor length")
  ∧ last_scan (_device_cache
       (_refresh_device_cache true (started [short_read_device; combo_device] 5)
          initial_state).1) = None.
Proof.
  split; [reflexivity|]. split; [reflexivity|].
  exact (proj1 (proj2 (proj2 (only_value_error_escapes
           (started [short_read_device; combo_device] 5) initial_filters
           short_read_device initial_cache true initial_state
           [short_read_device; combo_device]
           (ValueError "Invalid configuration descriptor length"))
         eq_refl eq_refl))).
Defined.

(** A short answer to the header probe of one device aborts the whole
    forced refresh: it raises the [ValueError], the devices after it are
    not analysed, and the buckets hold only what was found before it. *)
Theorem short_read_aborts_refresh
    (e : env) (st : state) (before after : list Device.t) (d : Device.t)
    (n : Z) (data : list byte) (c : cache) :
  usb_core_find e = Ret (before ++ d :: after) →
  scan_devices (fuel e) (_device_filters st) before (cleared (_device_cache st))
  = (c, Ret ()) →
  Device.ctrl_transfer d 0x80 6 0x200 0 9 = Transferred n data →
  n < 9 →
  force_refresh e st
  = ({| _device_cache := c;
        _cache_timeout := _cache_timeout st;
        _device_change_callbacks := _device_change_callbacks st;
        _device_filters := _device_filters st;
        scans := S (scans st);
        calls := calls st |},
     Raise (ValueError "Invalid configuration descriptor length")).
Proof.
  intros Hfind Hbefore Hprobe Hn.
  assert (Hfetch : get_configuration_descriptor d 0
                   = Raise (ValueError "Invalid configuration descriptor length")).
  { unfold get_configuration_descriptor, get_descriptor.
    change (Z.lor DIR_IN 0) with 0x80.
    change (Z.lor (Z.shiftl DESC_CONFIGURATION 8) 0) with 0x200.
    rewrite Hprobe. cbn [mbind outcome_bind]. by rewrite (proj2 (Z.ltb_lt _ _) Hn). }
  assert (Hscan : ∀ l c0 c1, scan_devices (fuel e) (_device_filters st) l c0
                             = (c1, Ret ()) →
            scan_devices (fuel e) (_device_filters st) (l ++ d :: after) c0
            = (c1, Raise (ValueError "Invalid configuration descriptor length"))).
  { induction l as [|d0 l IH]; intros c0 c1; simpl.
    - intros [= ->]. unfold _analyze_device, analyze_body. by rewrite Hfetch.
    - destruct (_analyze_device (fuel e) (_device_filters st) d0 c0)
        as [c' [[]|y|]]; [apply IH|done|done]. }
  unfold force_refresh, _refresh_device_cache, scan_all. cbn [negb andb].
  by rewrite Hfind, (Hscan _ _ _ Hbefore).
Qed.

Lemma short_read_aborts_refresh_witness :
  usb_core_find (started [combo_device; short_read_device; combo_device] 5)
  = Ret ([combo_device] ++ short_read_device :: [combo_device])
  ∧ Device.ctrl_transfer short_read_device 0x80 6 0x200 0 9
    = Transferred 4 (take 4 combo_blob)
  ∧ 4 < 9
  ∧ (force_refresh (started [combo_device; short_read_device; combo_device] 5)
       initial_state).2
    = Raise (ValueError "Invalid configuration descriptor length").
Proof.
  split; [reflexivity|]. split; [reflexivity|]. split; [lia|].
  rewrite (short_read_aborts_refresh
             (started [combo_device; short_read_device; combo_device] 5)
             initial_state [combo_device] [combo_device] short_read_device 4
             (take 4 combo_blob)
             (scan_devices 100 initial_filters [combo_device]
                (cleared initial_cache)).1
             eq_refl eq_refl eq_refl ltac:(lia)).
  reflexivity.
Defined.

(** A device whose [manufacturer] attribute is [None] is never cached:
    the filter's [lower()] raises [AttributeError] at its first HID
    interface with an input endpoint, and the device is dropped. *)
Theorem device_without_manufacturer_is_dropped
    (n : nat) (f : filters) (d : Device.t) (c : cache) :
  Device.manufacturer d = PyNone →
  (_analyze_device n f d c).1 = c.
Proof.
  intros Hm.
  assert (Hloop : ∀ cfg k i hid', analyze_loop k f d cfg i [] = Ret hid' →
                                  hid' = []).
  { intros cfg k. induction k as [|k IH]; intros i hid'; [done|].
    cbn [analyze_loop]. case_bool_decide; [|by intros [= <-]].
    destruct (getitem cfg i) as [len|?|]; [|done..]. cbn [mbind outcome_bind].
    destruct (getitem cfg (i + 1)) as [ty|?|]; [|done..].
    cbn [mbind outcome_bind].
    match goal with
    | |- (?X ≫= _) = _ → _ =>
      assert (HX : ∀ h, X = Ret h → h = []);
        [|destruct X as [h|?|]; [|done..]; cbn [mbind outcome_bind];
          rewrite (HX h eq_refl); apply IH]
    end.
    destruct (ty =? DESC_INTERFACE); [|by intros h [= <-]].
    destruct (getitem cfg (i + 2)) as [number|?|]; [|done..].
    cbn [mbind outcome_bind].
    destruct (getitem cfg (i + 5)) as [class|?|]; [|done..].
    cbn [mbind outcome_bind].
    destruct (getitem cfg (i + 6)) as [subclass|?|]; [|done..].
    cbn [mbind outcome_bind].
    destruct (getitem cfg (i + 7)) as [protocol|?|]; [|done..].
    cbn [mbind outcome_bind].
    destruct (class =? HID_CLASS); [|by intros h [= <-]].
    destruct (_find_input_endpoint (S k) cfg (i + Z.to_nat len))
      as [[a|]|?|]; [| |done..]; cbn [mbind outcome_bind];
      [|by intros h [= <-]].
    unfold _device_passes_filter. cbn [Info.manufacturer]. rewrite Hm. done. }
  unfold _analyze_device, analyze_body.
  destruct (get_configuration_descriptor d 0) as [cfg|y|] eqn:Hcfg.
  - destruct (analyze_loop n f d cfg 0 []) as [hid|y|] eqn:Hl.
    + by rewrite (Hloop _ _ _ _ Hl).
    + by destruct y.
    + done.
  - by destruct y.
  - done.
Qed.

Lemma device_without_manufacturer_is_dropped_witness :
  Device.manufacturer anonymous_device = PyNone
  ∧ (_analyze_device 100 initial_filters anonymous_device initial_cache).1
    = initial_cache.
Proof.
  split; [reflexivity|].
  exact (device_without_manufacturer_is_dropped 100 initial_filters
           anonymous_device initial_cache eq_refl).
Defined.

(** ** The query functions *)

(** [is_composite_device], [get_companion_interfaces] and
    [is_device_connected] never raise, whatever the type name, the index,
    the devices on the bus and the state. *)
Theorem guarded_queries_never_raise
    (device_type : string) (index : Z) (e : env) (st : state) :
  raises (is_composite_device device_type index e st).2 = false
  ∧ raises (get_companion_interfaces device_type index e st).2 = false
  ∧ raises (is_device_connected device_type index e st).2 = false.
Proof.
  unfold is_composite_device, get_companion_interfaces, is_device_connected.
  destruct (device_getter device_type) as [getter|]; [|done].
  destruct (getter index e st) as [st' [[device|]|x|]]; [|done..].
  split; [by case_match|]. split.
  - destruct (composite_devices (_device_cache st') !! lookup_device_id device);
      [|done].
    by destruct (companions_loop _ _ _).
  - by destruct (get_device_descriptor device).
Qed.

Lemma companions_loop_excludes (items : list (string * list interface_info))
    (device_type : string) :
  ∀ acc m, companions_loop items device_type acc = Ret m →
           acc !! device_type = None → m !! device_type = None.
Proof.
  induction items as [|[t l] rest IH]; intros acc m; [by intros [= <-]|].
  cbn [companions_loop]. destruct (String.eqb_spec t device_type) as [->|Hne].
  - apply IH.
  - cbn [negb].
    destruct (_select_best_interface_for_type l t) as [best|?|]; [|done..].
    cbn [mbind outcome_bind]. intros Hm Hacc. apply (IH _ _ Hm).
    by rewrite lookup_insert_ne.
Qed.

(** The answers about a composite device never name the queried type
    itself: it is absent from the other types of [is_composite_device] and
    is no key of the mapping of [get_companion_interfaces]. *)
Theorem companions_exclude_queried_type
    (device_type : string) (index : Z) (e : env) (st : state) :
  (∀ st' flag others,
     is_composite_device device_type index e st = (st', Ret (flag, others)) →
     device_type ∉ others)
  ∧ (∀ st' companions,
       get_companion_interfaces device_type index e st = (st', Ret companions) →
       companions !! device_type = None).
Proof.
  split.
  - intros st' flag others. unfold is_composite_device.
    destruct (device_getter device_type) as [getter|];
      [|intros [= _ _ <-]; apply not_elem_of_nil].
    destruct (getter index e st) as [st1 [[device|]|x|]];
      [| |intros [= _ _ <-]; apply not_elem_of_nil|done];
      [|intros [= _ _ <-]; apply not_elem_of_nil].
    destruct (composite_devices (_device_cache st1) !! lookup_device_id device)
      as [info|]; [|intros [= _ _ <-]; apply not_elem_of_nil].
    intros [= _ _ <-]. rewrite list_elem_of_In, List.filter_In.
    intros [_ Hneq]. by rewrite String.eqb_refl in Hneq.
  - intros st' companions. unfold get_companion_interfaces.
    destruct (device_getter device_type) as [getter|]; [|by intros [= _ <-]].
    destruct (getter index e st) as [st1 [[device|]|x|]];
      [| |by intros [= _ <-]|done]; [|by intros [= _ <-]].
    destruct (composite_devices (_device_cache st1) !! lookup_device_id device)
      as [info|]; [|by intros [= _ <-]].
    destruct (companions_loop _ _ _) as [m|?|] eqn:Hloop;
      [|by intros [= _ <-]|done].
    intros [= _ <-]. by eapply companions_loop_excludes.
Qed.

Lemma companions_exclude_queried_type_witness :
  ∃ st' companions,
    get_companion_interfaces "keyboard" 1
      (started [combo_device; padded_serial_device] 5) initial_state
    = (st', Ret companions)
    ∧ is_Some (companions !! "mouse")
    ∧ companions !! "keyboard" = None.
Proof.
  destruct (get_companion_interfaces "keyboard" 1
              (started [combo_device; padded_serial_device] 5) initial_state)
    as [st' [companions|x|]] eqn:Hc; [|by vm_compute in Hc..].
  exists st', companions. split; [reflexivity|]. split.
  - vm_compute in Hc. injection Hc as _ <-. by eexists.
  - exact (proj2 (companions_exclude_queried_type "keyboard" 1
                    (started [combo_device; padded_serial_device] 5)
                    initial_state) st' companions Hc).
Defined.

(** With a valid index, an info getter that returns answers [(None, None)]
    exactly when the index is not below the size of its bucket, and
    otherwise the interface index and endpoint address of the entry at that
    index; it never raises for an index that is too large. *)
Theorem get_info_in_bounds
    (select : cache → list interface_info) (index : Z) (e : env)
    (st st' : state) (r : option (Z * Z)) :
  0 ≤ index →
  get_info_in select index e st = (st', Ret r) →
  let entries := select (_device_cache st') in
  (r = None ↔ Z.of_nat (length entries) ≤ index)
  ∧ (∀ p, r = Some p →
       ∃ info, entries !! Z.to_nat index = Some info
               ∧ p = (Info.interface_index info, Info.endpoint_address info)).
Proof.
  intros Hindex. unfold get_info_in. rewrite (proj2 (Z.ltb_ge _ _) Hindex).
  destruct (_refresh_device_cache false e st) as [st1 [[]|x|]]; [|done..].
  intros [= <- <-]. cbv zeta.
  destruct (Z.ltb_spec index (Z.of_nat (length (select (_device_cache st1)))))
    as [Hlt|Hge].
  - destruct (lookup_lt_is_Some_2 (select (_device_cache st1)) (Z.to_nat index))
      as [info Hinfo]; [lia|].
    rewrite Hinfo. split; [split; [done|lia]|].
    intros p [= <-]. by exists info.
  - split; [by split|]. done.
Qed.

Lemma get_info_in_bounds_witness :
  0 ≤ 0
  ∧ get_info_in mice 0 (started [combo_device] 5) initial_state
    = ((_refresh_device_cache false (started [combo_device] 5) initial_state).1,
       Ret (Some (1, 0x82)))
  ∧ ∃ info,
      mice (_device_cache
              (_refresh_device_cache false (started [combo_device] 5)
                 initial_state).1) !! Z.to_nat 0 = Some info
      ∧ (1, 0x82) = (Info.interface_index info, Info.endpoint_address info).
Proof.
  assert (H : get_info_in mice 0 (started [combo_device] 5) initial_state
              = ((_refresh_device_cache false (started [combo_device] 5)
                    initial_state).1, Ret (Some (1, 0x82))))
    by (vm_compute; reflexivity).
  split; [lia|]. split; [exact H|].
  exact (proj2 (get_info_in_bounds mice 0 (started [combo_device] 5)
                  initial_state _ _ ltac:(lia) H) (1, 0x82) eq_refl).
Defined.

(** Indices handed out by a count stay valid while the cache is fresh: a
    count that returns [n] leaves a state in which, for as long as the
    cache is within its time-to-live, every index below [n] is answered
    with an entry and without a new scan. *)
Theorem index_below_count_is_found
    (select : cache → list interface_info) (refresh : bool) (e1 e2 : env)
    (st st1 : state) (n index : Z) :
  count_in select refresh e1 st = (st1, Ret n) →
  cache_is_fresh st1 (monotonic e2) = true →
  0 ≤ index < n →
  ∃ info, select (_device_cache st1) !! Z.to_nat index = Some info
          ∧ get_info_in select index e2 st1
            = (st1, Ret (Some (Info.interface_index info,
                               Info.endpoint_address info)))
          ∧ get_device_in select index e2 st1
            = (st1, Ret (Some (Info.device info))).
Proof.
  unfold count_in.
  destruct (_refresh_device_cache refresh e1 st) as [st0 [[]|x|]]; [|done..].
  intros [= <- <-] Hfresh [Hlo Hhi].
  destruct (lookup_lt_is_Some_2 (select (_device_cache st0)) (Z.to_nat index))
    as [info Hinfo]; [lia|].
  exists info. split; [done|].
  unfold get_info_in, get_device_in.
  rewrite (proj2 (Z.ltb_ge _ _) Hlo), (refresh_when_fresh e2 st0 Hfresh).
  by rewrite (proj2 (Z.ltb_lt _ _) Hhi), Hinfo.
Qed.

Lemma index_below_count_is_found_witness :
  count_in keyboards false (started [combo_device] 5) initial_state
  = ((_refresh_device_cache false (started [combo_device] 5) initial_state).1,
     Ret 1)
  ∧ cache_is_fresh
      (_refresh_device_cache false (started [combo_device] 5) initial_state).1
      (monotonic (started [] 900)) = true
  ∧ 0 ≤ 0 < 1
  ∧ ∃ info,
      get_info_in keyboards 0 (started [] 900)
        (_refresh_device_cache false (started [combo_device] 5) initial_state).1
      = ((_refresh_device_cache false (started [combo_device] 5)
            initial_state).1,
         Ret (Some (Info.interface_index info, Info.endpoint_address info))).
Proof.
  assert (H1 : count_in keyboards false (started [combo_device] 5) initial_state
               = ((_refresh_device_cache false (started [combo_device] 5)
                     initial_state).1, Ret 1)) by (vm_compute; reflexivity).
  assert (H2 : cache_is_fresh
                 (_refresh_device_cache false (started [combo_device] 5)
                    initial_state).1 (monotonic (started [] 900)) = true)
    by (vm_compute; reflexivity).
  split; [exact H1|]. split; [exact H2|]. split; [lia|].
  destruct (index_below_count_is_found keyboards false
              (started [combo_device] 5) (started [] 900) initial_state _ 1 0
              H1 H2 ltac:(lia)) as (info & _ & Hinfo & _).
  by exists info.
Defined.

Lemma summarize_matches (l : list interface_info) :
  summary_matches (summarize l) l.
Proof.
  split; [done|]. split; [apply length_imap|].
  intros i entry. unfold summarize. cbn [Summary.devices].
  rewrite list_lookup_imap. destruct (l !! i) as [info|]; [|done].
  intros [= <-]. split; [done|]. by exists info.
Qed.

(** [list_all_hid_devices] always scans, fresh cache or not, and when it
    returns each of its three summaries reports the size of its bucket and
    lists the bucket's entries in order, numbered from 0. *)
Theorem list_all_matches_buckets
    (e : env) (st st' : state) (k m g : Summary.t) :
  list_all_hid_devices e st = (st', Ret (k, m, g)) →
  scans st' = S (scans st)
  ∧ summary_matches k (keyboards (_device_cache st'))
  ∧ summary_matches m (mice (_device_cache st'))
  ∧ summary_matches g (gamepads (_device_cache st')).
Proof.
  unfold list_all_hid_devices.
  pose proof (refresh_scans_once true e st eq_refl) as [Hscan _].
  destruct (_refresh_device_cache true e st) as [st1 [[]|x|]]; [|done..].
  intros [= <- <- <- <-]. split; [done|].
  split; [apply summarize_matches|]. split; apply summarize_matches.
Qed.

Lemma list_all_matches_buckets_witness :
  ∃ st' k m g,
    list_all_hid_devices (started [combo_device] 5) initial_state
    = (st', Ret (k, m, g))
    ∧ scans st' = 1%nat
    ∧ summary_matches m (mice (_device_cache st')).
Proof.
  destruct (list_all_hid_devices (started [combo_device] 5) initial_state)
    as [st' [[[k m] g]|x|]] eqn:Hlist; [|by vm_compute in Hlist..].
  exists st', k, m, g. split; [reflexivity|].
  destruct (list_all_matches_buckets _ _ _ _ _ _ Hlist) as (Hs & _ & Hm & _).
  by split.
Defined.

(** [is_device_connected] answers [True] only for a device that is in the
    bucket at that index and whose device descriptor transfer reports 18
    bytes. *)
Theorem connected_means_descriptor_read
    (device_type : string) (index : Z) (e : env) (st st' : state) :
  is_device_connected device_type index e st = (st', Ret true) →
  ∃ getter device data,
    device_getter device_type = Some getter
    ∧ getter index e st = (st', Ret (Some device))
    ∧ Device.ctrl_transfer device 0x80 6 0x100 0 18 = Transferred 18 data.
Proof.
  unfold is_device_connected.
  destruct (device_getter device_type) as [getter|]; [|done].
  destruct (getter index e st) as [st1 [[device|]|x|]] eqn:Hget; [|done..].
  destruct (get_device_descriptor device) as [desc|x|] eqn:Hdesc; [|done..].
  intros [= <- _]. revert Hdesc.
  unfold get_device_descriptor, get_descriptor.
  change (Z.lor DIR_IN 0) with 0x80.
  change (Z.lor (Z.shiftl DESC_DEVICE 8) 0) with 0x100.
  destruct (Device.ctrl_transfer device 128 6 256 0 18) as [count data|] eqn:Ht;
    [|done].
  cbn [mbind outcome_bind]. destruct (Z.eqb_spec count 18) as [->|]; [|done].
  intros _. by exists getter, device, data.
Qed.

Lemma connected_means_descriptor_read_witness :
  ∃ st',
    is_device_connected "mouse" 0 (started [combo_device] 5) initial_state
    = (st', Ret true)
    ∧ ∃ getter device data,
        device_getter "mouse" = Some getter
        ∧ getter 0 (started [combo_device] 5) initial_state
          = (st', Ret (Some device))
        ∧ Device.ctrl_transfer device 0x80 6 0x100 0 18 = Transferred 18 data.
Proof.
  destruct (is_device_connected "mouse" 0 (started [combo_device] 5)
              initial_state) as [st' [[|]|x|]] eqn:Hc;
    [|by vm_compute in Hc..].
  exists st'. split; [reflexivity|].
  exact (connected_means_descriptor_read "mouse" 0 (started [combo_device] 5)
           initial_state st' Hc).
Defined.

(** ** The boot mouse search *)

Section BootMouse.

Lemma record_byte_lookup (r : list byte) (k : nat) (b : byte) :
  r !! k = Some b → record_byte r k = byte_val b.
Proof. unfold record_byte. by intros ->. Qed.

Lemma boot_mouse_condition (class subclass protocol : Z) :
  (class =? CLASS_HID) && (subclass =? 1) && (protocol =? 2)
  = bool_decide (class = 3 ∧ subclass = 1 ∧ protocol = 2).
Proof.
  change CLASS_HID with 3.
  destruct (Z.eqb_spec class 3), (Z.eqb_spec subclass 1),
    (Z.eqb_spec protocol 2); simpl; symmetry;
    (by apply bool_decide_eq_true_2) || (apply bool_decide_eq_false_2; tauto).
Qed.

Lemma find_boot_mouse_records (records : list (list byte)) :
  ∀ (pre : list byte) (n : nat) (current : option Z),
    forallb (fun r => well_formed_record r && well_formed_interface r) records
    = true →
    (length records < n)%nat →
    find_boot_mouse_loop n (pre ++ concat records) (length pre) current
    = Ret (first_boot_mouse records current).
Proof.
  induction records as [|r rest IH]; intros pre n current Hwf Hn.
  - destruct n as [|n]; [simpl in Hn; lia|]. simpl.
    rewrite bool_decide_eq_false_2; [done|]. rewrite length_app. simpl. lia.
  - destruct n as [|n]; [simpl in Hn; lia|].
    simpl in Hwf. apply andb_true_iff in Hwf as [Hr Hrest].
    apply andb_true_iff in Hr as [Hr Hif].
    destruct (well_formed_record_inv r Hr)
      as (b0 & b1 & tl & Hshape & Hb0 & Hty & Hep).
    assert (Hnext : ∀ cur, find_boot_mouse_loop n (pre ++ r ++ concat rest)
                             (length pre + Z.to_nat (byte_val b0)) cur
                           = Ret (first_boot_mouse rest cur)).
    { intros cur. rewrite Hb0, <- length_app, (app_assoc pre).
      apply IH; [done|]. simpl in Hn. lia. }
    assert (H0 : r !! 0%nat = Some b0) by (by rewrite Hshape).
    assert (H1 : r !! 1%nat = Some b1) by (by rewrite Hshape).
    assert (Hlt : (length pre < length (pre ++ r ++ concat rest))%nat).
    { rewrite !length_app, Hshape. simpl. lia. }
    cbn [find_boot_mouse_loop first_boot_mouse concat].
    rewrite bool_decide_eq_true_2 by done.
    replace (getitem (pre ++ r ++ concat rest) (length pre))
      with (getitem (pre ++ r ++ concat rest) (length pre + 0))
      by (f_equal; lia).
    rewrite (getitem_middle pre r (concat rest) 0 b0) by done.
    cbn [mbind outcome_bind].
    rewrite (getitem_middle pre r (concat rest) 1 b1) by done.
    cbn [mbind outcome_bind]. rewrite Hty.
    destruct (Z.eqb_spec (byte_val b1) DESC_INTERFACE) as [Hi|Hni].
    + unfold well_formed_interface in Hif. rewrite Hty in Hif.
      rewrite (proj2 (Z.eqb_eq _ _) Hi) in Hif. simpl in Hif.
      apply bool_decide_eq_true in Hif.
      destruct (lookup_lt_is_Some_2 r 2) as [x2 H2]; [lia|].
      destruct (lookup_lt_is_Some_2 r 5) as [x5 H5]; [lia|].
      destruct (lookup_lt_is_Some_2 r 6) as [x6 H6]; [lia|].
      destruct (lookup_lt_is_Some_2 r 7) as [x7 H7]; [lia|].
      rewrite (getitem_middle pre r (concat rest) 2 x2) by done.
      cbn [mbind outcome_bind].
      rewrite (getitem_middle pre r (concat rest) 5 x5) by done.
      cbn [mbind outcome_bind].
      rewrite (getitem_middle pre r (concat rest) 6 x6) by done.
      cbn [mbind outcome_bind].
      rewrite (getitem_middle pre r (concat rest) 7 x7) by done.
      cbn [mbind outcome_bind].
      rewrite Hnext, boot_mouse_condition.
      by rewrite (record_byte_lookup r 2 x2), (record_byte_lookup r 5 x5),
        (record_byte_lookup r 6 x6), (record_byte_lookup r 7 x7).
    + destruct current as [cur|]; [|apply Hnext].
      destruct (Z.eqb_spec (byte_val b1) DESC_ENDPOINT) as [He|Hne];
        [|apply Hnext].
      destruct (Hep He) as (b2 & tl' & Htl & Haddr).
      assert (H2 : r !! 2%nat = Some b2) by (by rewrite Hshape, Htl).
      rewrite (getitem_middle pre r (concat rest) 2 b2) by done.
      cbn [mbind outcome_bind]. rewrite dir_in_bit, Haddr. cbn [andb].
      destruct (Z.testbit (byte_val b2) 7); [done|apply Hnext].
Qed.

End BootMouse.

(** On a device that serves a blob of length-prefixed records (interface
    records of at least 8 bytes) and with more loop budget than records,
    [find_boot_mouse_endpoint] returns the number of the first boot mouse
    interface (class 3, subclass 1, protocol 2) that has an input endpoint
    before the next interface, with the address of that endpoint, and
    [(None, None)] when there is none. *)
Theorem find_boot_mouse_endpoint_on_records
    (device : Device.t) (records : list (list byte)) (n : nat) :
  get_configuration_descriptor device 0 = Ret (concat records) →
  forallb (fun r => well_formed_record r && well_formed_interface r) records
  = true →
  (length records < n)%nat →
  find_boot_mouse_endpoint n device = Ret (first_boot_mouse records None).
Proof.
  intros Hcfg Hwf Hn. unfold find_boot_mouse_endpoint. rewrite Hcfg.
  cbn [mbind outcome_bind].
  exact (find_boot_mouse_records records [] n None Hwf Hn).
Qed.

Lemma find_boot_mouse_endpoint_on_records_witness :
  get_configuration_descriptor combo_device 0 = Ret (concat combo_all_records)
  ∧ forallb (fun r => well_formed_record r && well_formed_interface r)
      combo_all_records = true
  ∧ (length combo_all_records < 8)%nat
  ∧ find_boot_mouse_endpoint 8 combo_device = Ret (Some (1, 0x82)).
Proof.
  split; [reflexivity|]. split; [reflexivity|]. split; [simpl; lia|].
  apply (find_boot_mouse_endpoint_on_records combo_device combo_all_records 8);
    [reflexivity|reflexivity|simpl; lia].
Defined.

(** ** Registration and termination *)

(** However callbacks are registered, starting from the initial state, the
    registered identities are pairwise different, and registering a
    callback that is already registered changes nothing. *)
Theorem registrations_are_distinct (callbacks : list callback) (cb : callback)
    (st : state) :
  NoDup (cb_id <$> _device_change_callbacks
                     (foldl (fun s c => register_device_change_callback c s)
                        initial_state callbacks))
  ∧ register_device_change_callback cb (register_device_change_callback cb st)
    = register_device_change_callback cb st.
Proof.
  split.
  - assert (Hgen : ∀ s, NoDup (cb_id <$> _device_change_callbacks s) →
              NoDup (cb_id <$> _device_change_callbacks
                       (foldl (fun s c => register_device_change_callback c s)
                          s callbacks))).
    { induction callbacks as [|c rest IH]; intros s Hs; [done|]. simpl.
      apply IH. by apply register_keeps_ids_distinct. }
    apply Hgen. constructor.
  - unfold register_device_change_callback at 2.
    destruct (existsb _ (_device_change_callbacks st)) eqn:Hex.
    + unfold register_device_change_callback. by rewrite Hex.
    + unfold register_device_change_callback. cbn [_device_change_callbacks].
      rewrite existsb_app. simpl. by rewrite Hex, Nat.eqb_refl.
Qed.

Lemma analyze_device_terminates_witness :
  get_configuration_descriptor combo_device 0 = Ret (concat combo_all_records)
  ∧ forallb well_formed_record combo_all_records = true
  ∧ (length combo_all_records < 8)%nat
  ∧ (_analyze_device 8 initial_filters combo_device initial_cache).2 ≠ Diverge.
Proof.
  split; [reflexivity|]. split; [reflexivity|]. split; [simpl; lia|].
  apply (analyze_device_terminates combo_all_records 8 initial_filters
           combo_device initial_cache); [reflexivity|reflexivity|simpl; lia].
Defined.

(** ** The filter and the cache *)

Section FilteredScan.

Variable P : interface_info → Prop.

Lemma by_type_append_all (by_type : list (string * list interface_info))
    (t : string) (x : interface_info) :
  P x → Forall (fun item => Forall P item.2) by_type →
  Forall (fun item => Forall P item.2) (by_type_append by_type t x).
Proof.
  intros Hx Hall. induction Hall as [|[t' l] rest Hl Hrest IH]; simpl.
  - by repeat constructor.
  - destruct (String.eqb t' t).
    + constructor; [|done]. simpl. apply Forall_app. split; [done|].
      by apply Forall_singleton.
    + by constructor.
Qed.

Lemma classify_interfaces_all (hid : list interface_info) :
  Forall P hid → Forall (fun item => Forall P item.2) (classify_interfaces hid).
Proof.
  unfold classify_interfaces.
  assert (Hgen : ∀ acc, Forall (fun item => Forall P item.2) acc → Forall P hid →
            Forall (fun item : string * list interface_info => Forall P item.2)
              (fold_left (fun by_type info =>
                 by_type_append by_type (_classify_hid_device info) info)
                 hid acc)).
  { induction hid as [|x rest IH]; intros acc Hacc Hhid; [done|].
    apply Forall_cons in Hhid as [Hx Hrest]. simpl.
    apply IH; [|done]. by apply by_type_append_all. }
  apply Hgen. constructor.
Qed.

Lemma store_best_all (c : cache) (d : Device.t) (t : string)
    (best : interface_info) :
  P best → buckets_all P c → buckets_all P (store_best c d t best).
Proof.
  intros Hbest (Hk & Hm & Hg). unfold store_best.
  repeat case_match; try done; repeat split; simpl; try done;
    apply Forall_app; split; try done; by apply Forall_singleton.
Qed.

Lemma store_loop_all (d : Device.t)
    (items : list (string * list interface_info)) :
  ∀ c, Forall (fun item => Forall P item.2) items →
       buckets_all P c → buckets_all P (store_loop d items c).1.
Proof.
  induction items as [|[t l] rest IH]; intros c Hitems Hc; [done|].
  apply Forall_cons in Hitems as [Hl Hrest]. simpl in Hl. simpl.
  destruct (_select_best_interface_for_type l t) as [best|x|] eqn:Hbest;
    [|done..].
  apply select_best_member in Hbest. rewrite Forall_forall in Hl.
  apply IH; [done|]. apply store_best_all; [by apply Hl|done].
Qed.

End FilteredScan.

Lemma analyze_loop_passed (n : nat) (f : filters) (d : Device.t)
    (cfg : list byte) :
  ∀ i hid hid',
    Forall (fun info => _device_passes_filter f info = Ret true) hid →
    analyze_loop n f d cfg i hid = Ret hid' →
    Forall (fun info => _device_passes_filter f info = Ret true) hid'.
Proof.
  induction n as [|n IH]; intros i hid hid' Hhid; [done|].
  cbn [analyze_loop]. case_bool_decide; [|by intros [= <-]].
  destruct (getitem cfg i) as [len|?|]; [|done..]. cbn [mbind outcome_bind].
  destruct (getitem cfg (i + 1)) as [ty|?|]; [|done..]. cbn [mbind outcome_bind].
  match goal with
  | |- (?X ≫= _) = _ → _ =>
    assert (HX : ∀ h, X = Ret h →
              Forall (fun info => _device_passes_filter f info = Ret true) h);
      [|destruct X as [h|?|]; [|done..]; cbn [mbind outcome_bind];
        apply IH; by apply HX]
  end.
  destruct (ty =? DESC_INTERFACE); [|by intros h [= <-]].
  destruct (getitem cfg (i + 2)) as [number|?|]; [|done..].
  cbn [mbind outcome_bind].
  destruct (getitem cfg (i + 5)) as [class|?|]; [|done..].
  cbn [mbind outcome_bind].
  destruct (getitem cfg (i + 6)) as [subclass|?|]; [|done..].
  cbn [mbind outcome_bind].
  destruct (getitem cfg (i + 7)) as [protocol|?|]; [|done..].
  cbn [mbind outcome_bind].
  destruct (class =? HID_CLASS); [|by intros h [= <-]].
  destruct (_find_input_endpoint (S n) cfg (i + Z.to_nat len))
    as [[a|]|?|]; [| |done..]; cbn [mbind outcome_bind];
    [|by intros h [= <-]].
  destruct (_device_passes_filter f _) as [[]|?|] eqn:Hpass; [| |done..];
    cbn [mbind outcome_bind]; intros h [= <-]; [|done].
  apply Forall_app. split; [done|]. by apply Forall_singleton.
Qed.

Lemma analyze_device_passed (n : nat) (f : filters) (d : Device.t) (c : cache) :
  buckets_all (fun info => _device_passes_filter f info = Ret true) c →
  buckets_all (fun info => _device_passes_filter f info = Ret true)
    (_analyze_device n f d c).1.
Proof.
  intros Hc.
  assert (Hbody : buckets_all
            (fun info => _device_passes_filter f info = Ret true)
            (analyze_body n f d c).1).
  { unfold analyze_body.
    destruct (get_configuration_descriptor d 0) as [cfg|x|]; [|done..].
    destruct (analyze_loop n f d cfg 0 []) as [hid|x|] eqn:Hloop; [|done..].
    destruct hid as [|i hid]; [done|].
    pose proof (analyze_loop_passed n f d cfg 0 [] _ (Forall_nil_2 _) Hloop)
      as Hhid.
    pose proof (store_loop_all _ d _ c (classify_interfaces_all _ _ Hhid) Hc)
      as Hstored.
    destruct (store_loop d (classify_interfaces (i :: hid)) c)
      as [c' [[]|x|]]; simpl in Hstored; [|done..].
    by case_bool_decide. }
  unfold _analyze_device.
  by destruct (analyze_body n f d c) as [c' [[]|[]|]].
Qed.

Lemma scan_devices_passed (n : nat) (f : filters) (devices : list Device.t) :
  ∀ c, buckets_all (fun info => _device_passes_filter f info = Ret true) c →
       buckets_all (fun info => _device_passes_filter f info = Ret true)
         (scan_devices n f devices c).1.
Proof.
  induction devices as [|d rest IH]; intros c Hc; [done|]. simpl.
  pose proof (analyze_device_passed n f d c Hc) as Hd.
  destruct (_analyze_device n f d c) as [c' [[]|x|]]; simpl in Hd; [|done..].
  by apply IH.
Qed.

(** A forced refresh caches only interfaces that pass the filter in force:
    every entry of every bucket afterwards is accepted by
    [_device_passes_filter]; in particular no entry has a blocked vendor
    id. *)
Theorem forced_refresh_respects_filter (e : env) (st : state)
    (info : interface_info) :
  let c := _device_cache (force_refresh e st).1 in
  info ∈ keyboards c ++ mice c ++ gamepads c →
  _device_passes_filter (_device_filters st) info = Ret true
  ∧ Info.vid info ∉ blocked_vids (_device_filters st).
Proof.
  intros c Hin.
  assert (Hall : buckets_all
            (fun i => _device_passes_filter (_device_filters st) i = Ret true) c).
  { subst c. unfold force_refresh, _refresh_device_cache, scan_all.
    cbn [negb andb].
    assert (Hclear : buckets_all
              (fun i => _device_passes_filter (_device_filters st) i = Ret true)
              (cleared (_device_cache st))) by (by repeat split).
    destruct (usb_core_find e) as [devices|x|].
    - pose proof (scan_devices_passed (fuel e) (_device_filters st) devices _
                    Hclear) as Hscan.
      by destruct (scan_devices (fuel e) (_device_filters st) devices
                     (cleared (_device_cache st))) as [c' [[]|[]|]].
    - by destruct x.
    - done. }
  destruct Hall as (Hk & Hm & Hg).
  assert (Hpass : _device_passes_filter (_device_filters st) info = Ret true).
  { rewrite !elem_of_app in Hin. rewrite Forall_forall in Hk, Hm, Hg.
    destruct Hin as [?|[?|?]]; auto. }
  split; [done|]. intros Hblocked. revert Hpass.
  unfold _device_passes_filter.
  destruct (manufacturer_lower (Info.manufacturer info)); [|done..].
  cbn [mbind outcome_bind]. rewrite (bool_decide_eq_true_2 _ Hblocked).
  by destruct (_ && _).
Qed.

Lemma forced_refresh_respects_filter_witness :
  ∃ info,
    info ∈ keyboards (_device_cache
                        (force_refresh (started [combo_device; other_vendor_device] 5)
                           (update_filters
                              (set_device_filter None (Some {[0x1234%N]}) None None)
                              initial_state)).1)
           ++ mice (_device_cache
                      (force_refresh (started [combo_device; other_vendor_device] 5)
                         (update_filters
                            (set_device_filter None (Some {[0x1234%N]}) None None)
                            initial_state)).1)
           ++ gamepads (_device_cache
                          (force_refresh
                             (started [combo_device; other_vendor_device] 5)
                             (update_filters
                                (set_device_filter None (Some {[0x1234%N]})
                                   None None)
                                initial_state)).1)
    ∧ Info.vid info = 0x046D%N
    ∧ Info.vid info ∉ ({[0x1234%N]} : gset N).
Proof.
  set (st := update_filters
               (set_device_filter None (Some {[0x1234%N]}) None None)
               initial_state).
  set (e := started [combo_device; other_vendor_device] 5).
  destruct (keyboards (_device_cache (force_refresh e st).1)) as [|info rest]
    eqn:Hk; [by vm_compute in Hk|].
  exists info.
  assert (Hin : info ∈ keyboards (_device_cache (force_refresh e st).1)
                       ++ mice (_device_cache (force_refresh e st).1)
                       ++ gamepads (_device_cache (force_refresh e st).1)).
  { rewrite Hk. apply list_elem_of_here. }
  split; [by rewrite <- Hk|]. split.
  - vm_compute in Hk. by injection Hk as <- _.
  - exact (proj2 (forced_refresh_respects_filter e st info Hin)).
Defined.

(** Once the time-to-live has elapsed, or when no scan has run yet, a
    query scans again, and a scan that returns stamps the cache with the
    current time. *)
Theorem expired_cache_is_rescanned
    (select : cache → list interface_info) (e : env) (st : state) :
  (last_scan (_device_cache st) = None
   ∨ ∃ last, last_scan (_device_cache st) = Some last
             ∧ _cache_timeout st ≤ monotonic e - last) →
  scans (count_in select false e st).1 = S (scans st)
  ∧ (returns (count_in select false e st).2 = true →
     last_scan (_device_cache (count_in select false e st).1)
     = Some (monotonic e)).
Proof.
  intros Hstale.
  assert (Hgate : negb false && cache_is_fresh st (monotonic e) = false).
  { unfold cache_is_fresh. destruct Hstale as [->|(last & -> & Hle)]; [done|].
    simpl. apply andb_false_iff. right. by apply Z.ltb_ge. }
  destruct (count_in_refresh select false e st) as [-> ->].
  split; [by apply refresh_scans_once|]. by apply refresh_returned.
Qed.

Lemma expired_cache_is_rescanned_witness :
  (last_scan (_device_cache
      (force_refresh (started [combo_device] 5) initial_state).1) = None
   ∨ ∃ last,
       last_scan (_device_cache
          (force_refresh (started [combo_device] 5) initial_state).1) = Some last
       ∧ _cache_timeout (force_refresh (started [combo_device] 5)
                           initial_state).1
         ≤ monotonic (started [combo_device] 1005) - last)
  ∧ scans (count_in keyboards false (started [combo_device] 1005)
             (force_refresh (started [combo_device] 5) initial_state).1).1
    = 2%nat.
Proof.
  assert (H : last_scan (_device_cache
                (force_refresh (started [combo_device] 5) initial_state).1) = None
              ∨ ∃ last,
                  last_scan (_device_cache
                    (force_refresh (started [combo_device] 5) initial_state).1)
                  = Some last
                  ∧ _cache_timeout (force_refresh (started [combo_device] 5)
                                      initial_state).1
                    ≤ monotonic (started [combo_device] 1005) - last).
  { right. exists 5. split; [reflexivity|]. vm_compute. discriminate. }
  split; [exact H|].
  exact (proj1 (expired_cache_is_rescanned keyboards
                  (started [combo_device] 1005)
                  (force_refresh (started [combo_device] 5) initial_state).1 H)).
Defined.
